(** * earthquake-intel: the request aggregation and derived-metrics layer

    A shallow embedding of the two entrypoint sets of [src/index.ts] and
    the properties the specification states of them: of the location agent
    the overview, search, top, compare and report entrypoints, of the feed
    agent the overview, recent, significant, nearby, magnitude and regional
    report entrypoints.  The lookup entrypoint, which forwards one event
    record, is not embedded.

    Conventions.
    - A JSON number is a finite double, kept as the rational it denotes
      ([Q]); comparisons, [Math.max] and [Math.round] are exact on doubles
      and are taken on that rational; counts and integer scores are [Z].
      [null] is [None]; a comparison or an arithmetic operation applies
      ECMAScript's ToNumber, which sends [null] to 0.
    - Where the code adds, multiplies or divides numbers (the mean
      magnitudes, the haversine distance), a Number is an IEEE 754 binary64
      value ([float]) and the operations are the correctly rounded ones.
    - A date after [setDate] is kept as the expression that yields it: the
      instant it denotes depends on the time zone of the runtime.
    - An upstream URL is the structured request it encodes; the USGS service
      is a function from requests to responses.
    - A handler is a [Task]: given the upstream it yields a value or an
      error, together with the list of the requests it issued. *)

From Stdlib Require Import PrimFloat.
From Stdlib Require FloatOps FloatAxioms SpecFloat Uint63.
From Stdlib Require Import Psatz.
From Stdlib Require Import ZArith QArith Qround Qabs.
From Stdlib Require Import List String Bool Lia.
From Stdlib Require Import Permutation Sorted.
Import ListNotations.

Local Open Scope Q_scope.
Local Open Scope string_scope.
Local Open Scope list_scope.

(* ------------------------------------------------------------------ *)
(** * ECMAScript values and operators used by the handlers *)

(** ToNumber on a nullable JSON number: [null] becomes [+0]. *)
Definition ToNumber (v : option Q) : Q :=
  match v with
  | Some q => q
  | None => 0
  end.

(** ToNumber on a nullable JSON integer. *)
Definition ToNumberZ (v : option Z) : Q :=
  match v with
  | Some z => inject_Z z
  | None => 0
  end.

(** [a < b] on numbers. *)
Definition Qltb (a b : Q) : bool := negb (Qle_bool b a).

(** [a >= b] on numbers. *)
Definition Qgeb (a b : Q) : bool := Qle_bool b a.

(** ToIntegerOrInfinity on a finite number: truncation toward zero. *)
Definition Qtrunc (x : Q) : Z := Z.quot (Qnum x) (Zpos (Qden x)).

(** [Math.round]: the nearest integer, a half rounding toward +infinity. *)
Definition Math_round (x : Q) : Z := Qfloor (x + (1 # 2)).

(** [Number(x.toFixed(d))] for [d] decimals with [scale = 10^d]: the
    nearest multiple of [1/scale], a half rounding away from zero. *)
Definition toFixed (scale : positive) (x : Q) : Q :=
  if Qltb x 0
  then - (Qfloor ((- x) * inject_Z (Zpos scale) + (1 # 2)) # scale)
  else Qfloor (x * inject_Z (Zpos scale) + (1 # 2)) # scale.

(** [arr.slice(0, end)]: [end] is truncated to an integer; a negative
    [end] counts from the end of the array. *)
Definition slice0 {A : Type} (end_ : Q) (l : list A) : list A :=
  let k := Qtrunc end_ in
  if (k <? 0)%Z
  then firstn (Z.to_nat (Z.max (Z.of_nat (List.length l) + k) 0)) l
  else firstn (Z.to_nat k) l.

(** [Math.max(...xs)] on a non-empty argument list (the handlers guard the
    empty one, where ECMAScript yields -Infinity). *)
Definition Qmax (a b : Q) : Q := if Qltb a b then b else a.

Definition Math_max (x : Q) (xs : list Q) : Q := fold_left Qmax xs x.

(** ** Numbers as doubles *)

(** The Number a JSON number denotes: the rational rounded to the nearest
    double, ties to even. *)
Definition Number_ofQ (q : Q) : float :=
  FloatOps.SF2Prim
    (SpecFloat.SFdiv FloatOps.prec FloatOps.emax
       match Qnum q with
       | Z0 => SpecFloat.S754_zero false
       | Zpos p => SpecFloat.S754_finite false p 0
       | Zneg p => SpecFloat.S754_finite true p 0
       end
       (SpecFloat.S754_finite false (Qden q) 0)).

(** [arr.length] as a Number. *)
Definition Number_ofLength (n : nat) : float :=
  PrimFloat.of_uint63 (Uint63.of_Z (Z.of_nat n)).

(** [xs.reduce((a, b) => a + b, 0)]. *)
Definition sum (xs : list float) : float := fold_left PrimFloat.add xs 0%float.

(** The absolute value [m * 2^e] of a finite double, as a rational. *)
Definition dyadic (m : positive) (e : Z) : Q :=
  match e with
  | Z0 => Zpos m # 1
  | Zpos k => Zpos (m * 2 ^ k) # 1
  | Zneg k => Zpos m # (2 ^ k)
  end.

(** The string [x.toFixed(2)]: a sign and the number of hundredths [n]
    nearest to [|x|], the larger one at a tie (Number.prototype.toFixed
    works on the exact value of the double); Number::toString of [x] when
    [x] is not finite or is [1e21] or more in absolute value. *)
Inductive FixedString :=
| Hundredths (negative : bool) (n : Z)
| NumberToString (x : float).

Definition toFixed2 (x : float) : FixedString :=
  match FloatOps.Prim2SF x with
  | SpecFloat.S754_zero _ => Hundredths false 0
  | SpecFloat.S754_finite negative m e =>
      if Qle_bool (inject_Z (10 ^ 21)) (dyadic m e) then NumberToString x
      else Hundredths negative (Qfloor (dyadic m e * 100 + (1 # 2)))
  | _ => NumberToString x
  end.

(** [Number(s)] on the strings of [toFixed2]. *)
Definition Number_ofString (s : FixedString) : float :=
  match s with
  | Hundredths false n => Number_ofQ (n # 100)
  | Hundredths true n => PrimFloat.opp (Number_ofQ (n # 100))
  | NumberToString x => x
  end.

(** The functions of [Math] whose results ECMAScript leaves to the
    implementation; [Math.sqrt] is the correctly rounded square root. *)
Record MathLib := {
  Math_sin : float -> float;
  Math_cos : float -> float;
  Math_atan2 : float -> float -> float
}.

Definition Math_PI : float := 0x1.921fb54442d18p+1%float.

Definition Math_sqrt : float -> float := PrimFloat.sqrt.

(** ** [Array.prototype.sort]

    ECMAScript requires the sort to be stable; with a consistent comparator
    every conforming implementation returns the same array, the one a
    stable insertion sort builds.  [comparefn x y > 0] places [x] after
    [y]. *)
Section JsSort.
Context {A : Type}.
Variable comparefn : A -> A -> Q.

Fixpoint insert (x : A) (l : list A) : list A :=
  match l with
  | [] => [x]
  | y :: t => if Qltb 0 (comparefn x y) then y :: insert x t else x :: y :: t
  end.

Definition sort (l : list A) : list A := fold_right insert [] l.
End JsSort.

(* ------------------------------------------------------------------ *)
(** * Data model: the GeoJSON feed *)

(** The feed keeps the names of the GeoJSON envelope; the module is not
    imported, so that the handlers' output records can reuse them. *)
Module GeoJSON.

(** [geometry.coordinates = [lon, lat, depth]]: positions 0, 1 and 2. *)
Record Coordinates := {
  coord0 : Q;
  coord1 : Q;
  coord2 : option Q
}.

Record Properties := {
  mag : option Q;
  magType : option string;
  place : option string;
  time : Z;
  updated : Z;
  sig : option Z;
  felt : option Z;
  alert : option string;
  tsunami : Z;
  url : option string
}.

Record Feature := {
  id : string;
  properties : Properties;
  coordinates : Coordinates    (* geometry.coordinates *)
}.

Record FeatureCollection := {
  count : Z;                   (* metadata.count *)
  features : list Feature
}.

End GeoJSON.

Definition Feature : Type := GeoJSON.Feature.
Definition FeatureCollection : Type := GeoJSON.FeatureCollection.

(** [f.properties.mag] and [f.properties.sig]. *)
Definition f_mag (f : Feature) : option Q := GeoJSON.mag (GeoJSON.properties f).
Definition f_sig (f : Feature) : option Z := GeoJSON.sig (GeoJSON.properties f).

(** [f.geometry.coordinates[1]] and [f.geometry.coordinates[0]]. *)
Definition f_lat (f : Feature) : Q := GeoJSON.coord1 (GeoJSON.coordinates f).
Definition f_lon (f : Feature) : Q := GeoJSON.coord0 (GeoJSON.coordinates f).

(** [new Date(ms).toISOString()], kept as the instant it renders. *)
Inductive ISOString := ISO (ms : Z).

Definition toISOString (ms : Z) : ISOString := ISO ms.

(** [d.toISOString().split('T')[0]]: the UTC calendar date of the instant
    [d] holds.  [UTCDate ms] is that of [d = new Date(ms)].
    [UTCDateSetBack ms n] is that of [d] after [d = new Date(ms)] and
    [d.setDate(d.getDate() - n)]: the day of the month of [d] in local time
    less [n], truncated to an integer, becomes the day of the month and the
    local time of day is kept; which instant that is depends on the time
    zone of the runtime, so the two arguments are kept as they are. *)
Inductive DateString :=
| UTCDate (ms : Z)
| UTCDateSetBack (ms : Z) (n : Q).

(* ------------------------------------------------------------------ *)
(** * The upstream and the effects of a handler *)

(** The parameters of an [fdsnws/event/1/query?format=geojson] URL. *)
Record Query := {
  starttime : DateString;
  endtime : option DateString;
  q_latitude : Q;
  q_longitude : Q;
  maxradiuskm : Q;
  minmagnitude : Q;
  maxmagnitude : option Q;
  q_limit : option Q;
  orderby : option string
}.

Inductive Request :=
| SummaryFeed (endpoint : string)   (* .../feed/v1.0/summary/<endpoint> *)
| EventQuery (q : Query).           (* .../fdsnws/event/1/query?... *)

(** What [response.json()] can give. *)
Inductive Body :=
| Collection (fc : FeatureCollection)
| Malformed.                        (* not JSON, or not a feature collection *)

Inductive Response :=
| Unreachable                       (* [fetch] rejects *)
| Http (status : Z) (body : Body).

(** [response.ok]. *)
Definition ok (status : Z) : bool := (200 <=? status)%Z && (status <=? 299)%Z.

Inductive Error :=
| ValidationError (fields : list string)  (* the schema rejects the input *)
| USGSApiError (status : Z)               (* Error(`USGS API error: ${status}`) *)
| FetchFailed                             (* the rejection of [fetch] *)
| MalformedBody                           (* SyntaxError / TypeError on the body *)
| TypeError.                              (* a property read on [undefined] *)

Record Env := {
  usgs : Request -> Response;
  now : Z                   (* [new Date()], in milliseconds *)
}.

Definition Result (A : Type) : Type := (Error + A)%type.

(** A promise-returning computation: its outcome and the upstream requests
    it issued, in order. *)
Definition Task (A : Type) : Type := Env -> Result A * list Request.

Definition ret {A} (a : A) : Task A := fun _ => (inr a, []).

Definition throw {A} (e : Error) : Task A := fun _ => (inl e, []).

Definition bind {A B} (m : Task A) (k : A -> Task B) : Task B :=
  fun env =>
    match m env with
    | (inl e, log) => (inl e, log)
    | (inr a, log) => let (r, log') := k a env in (r, log ++ log')
    end.

Notation "x <- m ;; k" := (bind m (fun x => k))
  (at level 61, m at next level, right associativity).

Definition Date_now : Task Z := fun env => (inr (now env), []).

(** [await fetch(url)] followed by the [response.ok] check and
    [response.json()]. *)
Definition fetchJSON (r : Request) : Task FeatureCollection :=
  fun env =>
    (match usgs env r with
     | Unreachable => inl FetchFailed
     | Http status body =>
         if ok status
         then match body with
              | Collection fc => inr fc
              | Malformed => inl MalformedBody
              end
         else inl (USGSApiError status)
     end, [r]).

(** A fetch that does not succeed: the upstream is unreachable, or it
    answers with a non-success status. *)
Definition fails (env : Env) (r : Request) : Prop :=
  match usgs env r with
  | Unreachable => True
  | Http status _ => ok status = false
  end.

(** A fetch that succeeds with the feature collection [data]. *)
Definition answers (env : Env) (r : Request) (data : FeatureCollection) : Prop :=
  exists status, usgs env r = Http status (Collection data) /\ ok status = true.

(** [fetchUSGS(endpoint)] of the feed agent. *)
Definition fetchUSGS (endpoint : string) : Task FeatureCollection :=
  fetchJSON (SummaryFeed endpoint).

(** [await Promise.all(tasks)]: every member is started, so every request
    is issued; the join yields all the values, or fails as soon as one
    member fails.  Which rejection is reported when several members fail
    depends on the order in which they settle; the model reports the one of
    least index, and no statement below depends on that choice. *)
Fixpoint Promise_all {A} (ts : list (Task A)) : Task (list A) :=
  fun env =>
    match ts with
    | [] => (inr [], [])
    | t :: rest =>
        let (r, log) := t env in
        let (rs, log') := Promise_all rest env in
        (match r, rs with
         | inl e, _ => inl e
         | inr _, inl e => inl e
         | inr a, inr l => inr (a :: l)
         end, log ++ log')
    end.

(** [arr.map((x, i) => f x i)]. *)
Fixpoint map_from {A B} (f : A -> nat -> B) (i : nat) (l : list A) : list B :=
  match l with
  | [] => []
  | x :: t => f x i :: map_from f (S i) t
  end.

Definition mapi {A B} (f : A -> nat -> B) (l : list A) : list B := map_from f 0 l.

(** [arr.reduce((max, f) => f.properties.mag > max.properties.mag ? f : max,
    arr[0])]. *)
Definition maxByMag (first : Feature) (l : list Feature) : Feature :=
  fold_left
    (fun max f => if Qltb (ToNumber (f_mag max)) (ToNumber (f_mag f)) then f else max)
    l first.

(* ------------------------------------------------------------------ *)
(** * Input schemas (zod) *)

(** [z.number().min(lo).max(hi)]: both bounds are inclusive. *)
Definition inRange (lo hi x : Q) : bool := Qle_bool lo x && Qle_bool x hi.

(** The issue a field raises: its path when the check fails. *)
Definition issue (path : string) (valid : bool) : list string :=
  if valid then [] else [path].

(** [.optional()]: an absent field raises no issue. *)
Definition issueOpt (path : string) (lo hi : Q) (v : option Q) : list string :=
  match v with
  | Some x => issue path (inRange lo hi x)
  | None => []
  end.

(** [.default(d)]. *)
Definition default {A} (d : A) (v : option A) : A :=
  match v with
  | Some x => x
  | None => d
  end.

(** Modelled from the spec: the dispatch of the agent framework
    ([addEntrypoint] of @lucid-agents), which is not among the sources.  An
    operation accepts a validated parameter object: the input is parsed with
    the entrypoint's schema first, and a validation failure is reported at
    once with the offending fields and never reaches the network; only a
    parsed input is handed to the handler. *)
Definition invoke {Raw Input Output : Type}
    (schema : Raw -> list string + Input)
    (handler : Input -> Task Output) (raw : Raw) : Task Output :=
  match schema raw with
  | inl fields => throw (ValidationError fields)
  | inr input => handler input
  end.

(** The outcome of a schema: the issues, or the parsed input. *)
Definition parsed {Input : Type} (issues : list string) (input : Input)
  : list string + Input :=
  match issues with
  | [] => inr input
  | _ => inl issues
  end.

(* ------------------------------------------------------------------ *)
(** * The location agent: overview, search, top, compare, report *)

Module LocationAgent.

Record QuakeCoordinates := {
  longitude : Q;
  latitude : Q;
  depth : option Q
}.

Record Quake := {
  id : string;
  magnitude : option Q;
  magnitudeType : option string;
  place : option string;
  time : ISOString;
  updated : ISOString;
  coordinates : QuakeCoordinates;
  significance : option Z;
  felt : option Z;
  alert : option string;
  tsunami : bool;
  url : option string
}.

Definition formatQuake (feature : Feature) : Quake :=
  let props := GeoJSON.properties feature in
  let coords := GeoJSON.coordinates feature in
  {| id := GeoJSON.id feature;
     magnitude := GeoJSON.mag props;
     magnitudeType := GeoJSON.magType props;
     place := GeoJSON.place props;
     time := toISOString (GeoJSON.time props);
     updated := toISOString (GeoJSON.updated props);
     coordinates := {| longitude := GeoJSON.coord0 coords;
                       latitude := GeoJSON.coord1 coords;
                       depth := GeoJSON.coord2 coords |};
     significance := GeoJSON.sig props;
     felt := GeoJSON.felt props;
     alert := GeoJSON.alert props;
     tsunami := (GeoJSON.tsunami props =? 1)%Z;
     url := GeoJSON.url props |}.

(** [features.length > 0 ? formatQuake(features.reduce(..., features[0]))
    : null]. *)
Definition largest (features : list Feature) : option Quake :=
  match features with
  | [] => None
  | first :: _ => Some (formatQuake (maxByMag first features))
  end.

(** ** overview *)
Module Overview.

Record Output := {
  significantQuakesThisWeek : Z;
  magnitude45PlusToday : Z;
  largestThisWeek : option Quake;
  recentSignificant : list Quake;
  fetchedAt : ISOString
}.

(** The fetches of the handler's [Promise.all]. *)
Definition requests : list Request :=
  [SummaryFeed "significant_week.geojson"; SummaryFeed "4.5_day.geojson"].

Definition handler : Task Output :=
  both <- Promise_all [fetchJSON (SummaryFeed "significant_week.geojson");
                       fetchJSON (SummaryFeed "4.5_day.geojson")] ;;
  match both with
  | [significant; recent] =>
      t <- Date_now ;;
      ret {| significantQuakesThisWeek := GeoJSON.count significant;
             magnitude45PlusToday := GeoJSON.count recent;
             largestThisWeek := largest (GeoJSON.features significant);
             recentSignificant :=
               map formatQuake (slice0 3 (GeoJSON.features significant));
             fetchedAt := toISOString t |}
  | _ => throw TypeError
  end.

End Overview.

(** ** search *)
Module Search.

Record Raw := {
  raw_latitude : Q;
  raw_longitude : Q;
  raw_radiusKm : option Q;
  raw_minMagnitude : option Q;
  raw_maxMagnitude : option Q;
  raw_daysBack : option Q;
  raw_limit : option Q
}.

Record Input := {
  latitude : Q;
  longitude : Q;
  radiusKm : Q;
  minMagnitude : Q;
  maxMagnitude : option Q;
  daysBack : Q;
  limit : Q
}.

Definition schema (raw : Raw) : list string + Input :=
  parsed
    (issue "latitude" (inRange (-90) 90 (raw_latitude raw))
     ++ issue "longitude" (inRange (-180) 180 (raw_longitude raw))
     ++ issueOpt "radiusKm" 1 20000 (raw_radiusKm raw)
     ++ issueOpt "minMagnitude" 0 10 (raw_minMagnitude raw)
     ++ issueOpt "maxMagnitude" 0 10 (raw_maxMagnitude raw)
     ++ issueOpt "daysBack" 1 30 (raw_daysBack raw)
     ++ issueOpt "limit" 1 100 (raw_limit raw))
    {| latitude := raw_latitude raw;
       longitude := raw_longitude raw;
       radiusKm := default 500 (raw_radiusKm raw);
       minMagnitude := default (5 # 2) (raw_minMagnitude raw);
       maxMagnitude := raw_maxMagnitude raw;
       daysBack := default 7 (raw_daysBack raw);
       limit := default 20 (raw_limit raw) |}.

Record Output := {
  query : Input;
  totalFound : Z;
  earthquakes : list Quake;
  fetchedAt : ISOString
}.

Definition url (input : Input) (t : Z) : Request :=
  EventQuery
    {| starttime := UTCDateSetBack t (daysBack input);
       endtime := Some (UTCDate t);
       q_latitude := latitude input;
       q_longitude := longitude input;
       maxradiuskm := radiusKm input;
       minmagnitude := minMagnitude input;
       maxmagnitude := maxMagnitude input;
       q_limit := Some (limit input);
       orderby := Some "time" |}.

Definition handler (input : Input) : Task Output :=
  t <- Date_now ;;
  data <- fetchJSON (url input t) ;;
  ret {| query := input;
         totalFound := GeoJSON.count data;
         earthquakes := map formatQuake (GeoJSON.features data);
         fetchedAt := toISOString t |}.

Definition entrypoint : Raw -> Task Output := invoke schema handler.

End Search.

(** ** top *)
Module Top.

Inductive Period := day | week | month.

Inductive RankBy := by_magnitude | by_significance.

Record Raw := {
  raw_period : option Period;
  raw_rankBy : option RankBy;
  raw_minMagnitude : option Q;
  raw_limit : option Q
}.

Record Input := {
  period : Period;
  rankBy : RankBy;
  minMagnitude : Q;
  limit : Q
}.

Definition schema (raw : Raw) : list string + Input :=
  parsed
    (issueOpt "minMagnitude" 0 10 (raw_minMagnitude raw)
     ++ issueOpt "limit" 1 50 (raw_limit raw))
    {| period := default week (raw_period raw);
       rankBy := default by_magnitude (raw_rankBy raw);
       minMagnitude := default (9 # 2) (raw_minMagnitude raw);
       limit := default 10 (raw_limit raw) |}.

Definition feedMap (p : Period) : string :=
  match p with
  | day => "all_day.geojson"
  | week => "all_week.geojson"
  | month => "all_month.geojson"
  end.

(** The field a record is ranked by, as the comparator reads it. *)
Definition rankKey (r : RankBy) (f : Feature) : Q :=
  match r with
  | by_magnitude => ToNumber (f_mag f)
  | by_significance => ToNumberZ (f_sig f)
  end.

(** [(a, b) => b.properties.mag - a.properties.mag], or the same on
    [sig]. *)
Definition comparefn (r : RankBy) (a b : Feature) : Q :=
  match r with
  | by_magnitude => ToNumber (f_mag b) - ToNumber (f_mag a)
  | by_significance => ToNumberZ (f_sig b) - ToNumberZ (f_sig a)
  end.

(** [data.features.filter(f => f.properties.mag >= minMagnitude)],
    sorted in place. *)
Definition filtered (input : Input) (features : list Feature) : list Feature :=
  sort (comparefn (rankBy input))
    (filter (fun f => Qgeb (ToNumber (f_mag f)) (minMagnitude input)) features).

Record Ranked := {
  rank : Z;
  quake : Quake              (* ...formatQuake(f) *)
}.

(** The ranked field, read off a returned record. *)
Definition outKey (r : RankBy) (x : Ranked) : Q :=
  match r with
  | by_magnitude => ToNumber (magnitude (quake x))
  | by_significance => ToNumberZ (significance (quake x))
  end.

Definition topEarthquakesOf (input : Input) (features : list Feature)
  : list Ranked :=
  mapi (fun f i => {| rank := Z.of_nat i + 1; quake := formatQuake f |})
    (slice0 (limit input) (filtered input features)).

Record Output := {
  out_period : Period;
  out_rankBy : RankBy;
  out_minMagnitude : Q;
  totalFiltered : nat;
  topEarthquakes : list Ranked;
  fetchedAt : ISOString
}.

Definition handler (input : Input) : Task Output :=
  data <- fetchJSON (SummaryFeed (feedMap (period input))) ;;
  t <- Date_now ;;
  ret {| out_period := period input;
         out_rankBy := rankBy input;
         out_minMagnitude := minMagnitude input;
         totalFiltered := List.length (filtered input (GeoJSON.features data));
         topEarthquakes := topEarthquakesOf input (GeoJSON.features data);
         fetchedAt := toISOString t |}.

Definition entrypoint : Raw -> Task Output := invoke schema handler.

End Top.

(** ** compare *)
Module Compare.

Record RegionRaw := {
  raw_name : string;
  raw_latitude : Q;
  raw_longitude : Q;
  raw_radiusKm : option Q
}.

Record Region := {
  name : string;
  latitude : Q;
  longitude : Q;
  radiusKm : Q
}.

Record Raw := {
  raw_regions : list RegionRaw;
  raw_minMagnitude : option Q
}.

Record Input := {
  regions : list Region;
  minMagnitude : Q
}.

Definition regionIssues (r : RegionRaw) : list string :=
  issue "regions.latitude" (inRange (-90) 90 (raw_latitude r))
  ++ issue "regions.longitude" (inRange (-180) 180 (raw_longitude r))
  ++ issueOpt "regions.radiusKm" 10 5000 (raw_radiusKm r).

Definition parseRegion (r : RegionRaw) : Region :=
  {| name := raw_name r;
     latitude := raw_latitude r;
     longitude := raw_longitude r;
     radiusKm := default 500 (raw_radiusKm r) |}.

(** [z.array(...).min(2).max(5)] and the [minMagnitude] field. *)
Definition schema (raw : Raw) : list string + Input :=
  parsed
    (flat_map regionIssues (raw_regions raw)
     ++ issue "regions"
          ((2 <=? List.length (raw_regions raw))%nat
           && (List.length (raw_regions raw) <=? 5)%nat)
     ++ issueOpt "minMagnitude" 0 10 (raw_minMagnitude raw))
    {| regions := map parseRegion (raw_regions raw);
       minMagnitude := default (5 # 2) (raw_minMagnitude raw) |}.

Record Stats := {
  totalQuakes : Z;
  averageMagnitude : float;
  maxMagnitude : Q;
  quakesAbove4 : nat;
  quakesAbove5 : nat
}.

Record RegionResult := {
  region : string;
  coordinates : Q * Q;        (* { latitude, longitude } *)
  res_radiusKm : Q;
  stats : Stats;
  topQuake : option Quake
}.

(** [data.features.map(f => f.properties.mag)], each read as a number by
    the arithmetic and the comparisons that follow. *)
Definition magnitudesOf (features : list Feature) : list Q :=
  map (fun f => ToNumber (f_mag f)) features.

(** The sum and the quotient are those of doubles. *)
Definition avgMag (magnitudes : list Q) : float :=
  match magnitudes with
  | [] => 0%float
  | _ => PrimFloat.div (sum (map Number_ofQ magnitudes))
                       (Number_ofLength (List.length magnitudes))
  end.

Definition maxMag (magnitudes : list Q) : Q :=
  match magnitudes with
  | [] => 0
  | m :: rest => Math_max m rest
  end.

Definition url (r : Region) (minMag : Q) (t : Z) : Request :=
  EventQuery
    {| starttime := UTCDateSetBack t 7;
       endtime := Some (UTCDate t);
       q_latitude := latitude r;
       q_longitude := longitude r;
       maxradiuskm := radiusKm r;
       minmagnitude := minMag;
       maxmagnitude := None;
       q_limit := None;
       orderby := None |}.

(** What the callback of [regions.map] returns once its fetch has
    resolved. *)
Definition regionResult (r : Region) (data : FeatureCollection) : RegionResult :=
  let magnitudes := magnitudesOf (GeoJSON.features data) in
  {| region := name r;
     coordinates := (latitude r, longitude r);
     res_radiusKm := radiusKm r;
     stats :=
       {| totalQuakes := GeoJSON.count data;
          averageMagnitude := Number_ofString (toFixed2 (avgMag magnitudes));
          maxMagnitude := maxMag magnitudes;
          quakesAbove4 := List.length (filter (fun m => Qgeb m 4) magnitudes);
          quakesAbove5 := List.length (filter (fun m => Qgeb m 5) magnitudes) |};
     topQuake := largest (GeoJSON.features data) |}.

Record Ranking := {
  mostActive : string;
  leastActive : string;
  byTotalQuakes : list (string * Z)
}.

(** [[...results].sort((a, b) => b.stats.totalQuakes - a.stats.totalQuakes)]. *)
Definition ranked (results : list RegionResult) : list RegionResult :=
  sort (fun a b => inject_Z (totalQuakes (stats b) - totalQuakes (stats a)))
    results.

(** [ranked[0].region] and [ranked[ranked.length - 1].region] throw a
    TypeError on an empty array. *)
Definition rankingOf (results : list RegionResult) : Result Ranking :=
  match ranked results with
  | [] => inl TypeError
  | first :: rest =>
      inr {| mostActive := region first;
             leastActive := region (last rest first);
             byTotalQuakes :=
               map (fun r => (region r, totalQuakes (stats r))) (first :: rest) |}
  end.

Record Output := {
  periodDays : Z;
  out_minMagnitude : Q;
  comparison : list RegionResult;
  ranking : Ranking;
  fetchedAt : ISOString
}.

(** The fetches of the handler's [Promise.all], one per region. *)
Definition requests (input : Input) (t : Z) : list Request :=
  map (fun r => url r (minMagnitude input) t) (regions input).

Definition handler (input : Input) : Task Output :=
  t <- Date_now ;;
  results <- Promise_all
    (map (fun r => data <- fetchJSON (url r (minMagnitude input) t) ;;
                   ret (regionResult r data))
         (regions input)) ;;
  match rankingOf results with
  | inl e => throw e
  | inr rk =>
      ret {| periodDays := 7;
             out_minMagnitude := minMagnitude input;
             comparison := results;
             ranking := rk;
             fetchedAt := toISOString t |}
  end.

Definition entrypoint : Raw -> Task Output := invoke schema handler.

End Compare.

(** ** report *)
Module Report.

Record Input := {
  latitude : Q;
  longitude : Q;
  locationName : option string
}.

Definition schema (raw : Input) : list string + Input :=
  parsed
    (issue "latitude" (inRange (-90) 90 (latitude raw))
     ++ issue "longitude" (inRange (-180) 180 (longitude raw)))
    raw.

Inductive RiskLevel := low | moderate | elevated | high.

(** The statements between [let riskScore = 0] and the level tests, on
    the three [metadata.count]s and [maxNearby]. *)
Definition riskScoreOf (count50 count250 count500 : Z) (maxNearby : Q) : Z :=
  let riskScore := 0%Z in
  let riskScore :=
    if (count50 >? 0)%Z then (riskScore + count50 * 2)%Z else riskScore in
  let riskScore :=
    if (count250 >? 10)%Z then (riskScore + 10)%Z else riskScore in
  let riskScore :=
    if Qgeb maxNearby 4 then (riskScore + 15)%Z else riskScore in
  let riskScore :=
    if Qgeb maxNearby 5 then (riskScore + 25)%Z else riskScore in
  let riskScore :=
    if (count500 >? 5)%Z then (riskScore + 5)%Z else riskScore in
  riskScore.

Definition riskLevelOf (riskScore : Z) : RiskLevel :=
  if (riskScore >=? 50)%Z then high
  else if (riskScore >=? 25)%Z then elevated
  else if (riskScore >=? 10)%Z then moderate
  else low.

(** The template strings of [factors], kept as their arguments. *)
Inductive Factor :=
| QuakesWithin50km (n : Z)      (* `${n} quakes within 50km (30 days)` *)
| QuakesWithin250km (n : Z)     (* `${n} quakes M2.5+ within 250km (30 days)` *)
| QuakesWithin500km (n : Z)     (* `${n} quakes M4+ within 500km (7 days)` *)
| LargestNearby (m : Q)         (* `Largest nearby: M${maxNearby.toFixed(1)}` *)
| NoSignificantNearby.          (* 'No significant nearby activity' *)

Record RiskAssessment := {
  level : RiskLevel;
  score : Z;
  factors : list Factor
}.

(** [locationName || `${latitude.toFixed(4)}, ${longitude.toFixed(4)}`]. *)
Inductive LocationLabel :=
| Named (s : string)
| FromCoordinates (lat lon : Q).

Definition labelOf (input : Input) : LocationLabel :=
  match locationName input with
  | Some s =>
      if String.eqb s "" then
        FromCoordinates (toFixed 10000 (latitude input))
                        (toFixed 10000 (longitude input))
      else Named s
  | None =>
      FromCoordinates (toFixed 10000 (latitude input))
                      (toFixed 10000 (longitude input))
  end.

Record Within50km := {
  count50 : Z;
  maxMagnitude : Q;
  avgMagnitude : float;
  quakes50 : list Quake
}.

Record Within := {
  count : Z;
  quakes : list Quake
}.

Record Output := {
  location : LocationLabel * Q * Q;
  riskAssessment : RiskAssessment;
  within50km : Within50km;
  within250km : Within;
  within500km : Within;
  significantQuakesThisWeek : Z;
  nearestSignificant : option Quake;
  generatedAt : ISOString
}.

Definition radiusQuery (input : Input) (since : Z) (radius minMag : Q) : Request :=
  EventQuery
    {| starttime := UTCDate since;
       endtime := None;
       q_latitude := latitude input;
       q_longitude := longitude input;
       maxradiuskm := radius;
       minmagnitude := minMag;
       maxmagnitude := None;
       q_limit := None;
       orderby := None |}.

(** [Math.max(...nearbyMags)] guarded by [nearbyMags.length > 0]. *)
Definition maxNearbyOf (nearby50km : FeatureCollection) : Q :=
  match map (fun f => ToNumber (f_mag f)) (GeoJSON.features nearby50km) with
  | [] => 0
  | m :: rest => Math_max m rest
  end.

Definition avgNearbyOf (nearby50km : FeatureCollection) : float :=
  match map (fun f => ToNumber (f_mag f)) (GeoJSON.features nearby50km) with
  | [] => 0%float
  | m :: rest =>
      PrimFloat.div (sum (map Number_ofQ (m :: rest)))
                    (Number_ofLength (List.length (m :: rest)))
  end.

Definition assess (nearby50km nearby250km nearby500km : FeatureCollection)
  : RiskAssessment :=
  let maxNearby := maxNearbyOf nearby50km in
  let riskScore :=
    riskScoreOf (GeoJSON.count nearby50km) (GeoJSON.count nearby250km)
                (GeoJSON.count nearby500km) maxNearby in
  {| level := riskLevelOf riskScore;
     score := riskScore;
     factors :=
       [QuakesWithin50km (GeoJSON.count nearby50km);
        QuakesWithin250km (GeoJSON.count nearby250km);
        QuakesWithin500km (GeoJSON.count nearby500km);
        if Qltb 0 maxNearby then LargestNearby (toFixed 10 maxNearby)
        else NoSignificantNearby] |}.

(** The fetches of the handler's [Promise.all]. *)
Definition requests (input : Input) (t : Z) : list Request :=
  let weekAgo := (t - 7 * 24 * 60 * 60 * 1000)%Z in
  let monthAgo := (t - 30 * 24 * 60 * 60 * 1000)%Z in
  [radiusQuery input monthAgo 50 1;
   radiusQuery input monthAgo 250 (5 # 2);
   radiusQuery input weekAgo 500 4;
   SummaryFeed "significant_week.geojson"].

Definition handler (input : Input) : Task Output :=
  t <- Date_now ;;
  let weekAgo := (t - 7 * 24 * 60 * 60 * 1000)%Z in
  let monthAgo := (t - 30 * 24 * 60 * 60 * 1000)%Z in
  all <- Promise_all
    [fetchJSON (radiusQuery input monthAgo 50 1);
     fetchJSON (radiusQuery input monthAgo 250 (5 # 2));
     fetchJSON (radiusQuery input weekAgo 500 4);
     fetchJSON (SummaryFeed "significant_week.geojson")] ;;
  match all with
  | [nearby50km; nearby250km; nearby500km; significant] =>
      ret {| location := (labelOf input, latitude input, longitude input);
             riskAssessment := assess nearby50km nearby250km nearby500km;
             within50km :=
               {| count50 := GeoJSON.count nearby50km;
                  maxMagnitude := maxNearbyOf nearby50km;
                  avgMagnitude := Number_ofString (toFixed2 (avgNearbyOf nearby50km));
                  quakes50 :=
                    map formatQuake (slice0 5 (GeoJSON.features nearby50km)) |};
             within250km :=
               {| count := GeoJSON.count nearby250km;
                  quakes :=
                    map formatQuake (slice0 5 (GeoJSON.features nearby250km)) |};
             within500km :=
               {| count := GeoJSON.count nearby500km;
                  quakes :=
                    map formatQuake (slice0 5 (GeoJSON.features nearby500km)) |};
             significantQuakesThisWeek := GeoJSON.count significant;
             nearestSignificant :=
               option_map formatQuake (hd_error (GeoJSON.features significant));
             generatedAt := toISOString t |}
  | _ => throw TypeError
  end.

Definition entrypoint : Input -> Task Output := invoke schema handler.

End Report.

End LocationAgent.

(* ------------------------------------------------------------------ *)
(** * The feed agent: overview, nearby, regional report *)

Module FeedAgent.

(** [haversineDistance] on doubles, with the [Math] of the runtime. *)
Definition haversineDistance (M : MathLib) (lat1 lon1 lat2 lon2 : float) : float :=
  let R := 6371%float in                    (* Earth radius in km *)
  let dLat := ((lat2 - lat1) * Math_PI / 180)%float in
  let dLon := ((lon2 - lon1) * Math_PI / 180)%float in
  let a := (Math_sin M (dLat / 2) * Math_sin M (dLat / 2) +
            Math_cos M (lat1 * Math_PI / 180) * Math_cos M (lat2 * Math_PI / 180) *
            Math_sin M (dLon / 2) * Math_sin M (dLon / 2))%float in
  let c := (2 * Math_atan2 M (Math_sqrt a) (Math_sqrt (1 - a)))%float in
  (R * c)%float.

Record QuakeCoordinates := {
  latitude : Q;
  longitude : Q
}.

Record Quake := {
  id : string;
  magnitude : option Q;
  place : option string;
  time : ISOString;
  depth : option Q;
  coordinates : QuakeCoordinates;
  tsunami : bool;
  alert : option string;
  felt : option Z;
  significance : option Z;
  url : option string
}.

Definition parseQuake (f : Feature) : Quake :=
  {| id := GeoJSON.id f;
     magnitude := f_mag f;
     place := GeoJSON.place (GeoJSON.properties f);
     time := toISOString (GeoJSON.time (GeoJSON.properties f));
     depth := GeoJSON.coord2 (GeoJSON.coordinates f);
     coordinates := {| latitude := f_lat f; longitude := f_lon f |};
     tsunami := (GeoJSON.tsunami (GeoJSON.properties f) =? 1)%Z;
     alert := GeoJSON.alert (GeoJSON.properties f);
     felt := GeoJSON.felt (GeoJSON.properties f);
     significance := f_sig f;
     url := GeoJSON.url (GeoJSON.properties f) |}.

Definition parseQuakes (features : list Feature) : list Quake :=
  map parseQuake features.

(** ** overview *)
Module Overview.

Record Latest := {
  latest_magnitude : option Q;
  latest_place : option string;
  latest_time : ISOString
}.

Record Output := {
  pastHour : Z;
  significant24h : Z;
  significantWeek : Z;
  latestSignificant : option Latest;
  fetchedAt : ISOString
}.

(** The fetches of the handler's [Promise.all]. *)
Definition requests : list Request :=
  [SummaryFeed "all_hour.geojson"; SummaryFeed "4.5_day.geojson";
   SummaryFeed "significant_week.geojson"].

Definition handler : Task Output :=
  all <- Promise_all [fetchUSGS "all_hour.geojson";
                      fetchUSGS "4.5_day.geojson";
                      fetchUSGS "significant_week.geojson"] ;;
  match all with
  | [hourData; dayData; weekData] =>
      t <- Date_now ;;
      ret {| pastHour := GeoJSON.count hourData;
             significant24h := GeoJSON.count dayData;
             significantWeek := GeoJSON.count weekData;
             latestSignificant :=
               option_map
                 (fun f => {| latest_magnitude := f_mag f;
                              latest_place := GeoJSON.place (GeoJSON.properties f);
                              latest_time :=
                                toISOString (GeoJSON.time (GeoJSON.properties f)) |})
                 (hd_error (GeoJSON.features weekData));
             fetchedAt := toISOString t |}
  | _ => throw TypeError
  end.

End Overview.

(** ** nearby *)
Module Nearby.

Record Raw := {
  raw_latitude : Q;
  raw_longitude : Q;
  raw_radiusKm : option Q;
  raw_minMagnitude : option Q
}.

Record Input := {
  latitude : Q;
  longitude : Q;
  radiusKm : Q;
  minMagnitude : Q
}.

Definition schema (raw : Raw) : list string + Input :=
  parsed
    (issue "latitude" (inRange (-90) 90 (raw_latitude raw))
     ++ issue "longitude" (inRange (-180) 180 (raw_longitude raw)))
    {| latitude := raw_latitude raw;
       longitude := raw_longitude raw;
       radiusKm := default 500 (raw_radiusKm raw);
       minMagnitude := default (5 # 2) (raw_minMagnitude raw) |}.

(** The daily feed the handler fetches. *)
Definition endpoint (minMagnitude : Q) : string :=
  if Qgeb minMagnitude (9 # 2) then "4.5_day.geojson"
  else if Qgeb minMagnitude (5 # 2) then "2.5_day.geojson"
  else "1.0_day.geojson".

Record NearbyQuake := {
  quake : Quake;             (* ...parseQuakes([f])[0] *)
  distanceKm : Z
}.

Record Output := {
  searchCenter : Q * Q;      (* { latitude, longitude } *)
  out_radiusKm : Q;
  out_minMagnitude : Q;
  found : nat;
  earthquakes : list NearbyQuake;
  fetchedAt : ISOString
}.

Section Distance.

(** The double that [haversineDistance(lat1, lon1, lat2, lon2)] evaluates
    to, as a rational.  The handler filters, rounds and orders by this value
    whatever the trigonometry of the runtime returns, so it is taken as a
    parameter. *)
Variable haversine : Q -> Q -> Q -> Q -> Q.

(** The distance of a record from the search centre. *)
Definition distanceOf (input : Input) (f : Feature) : Q :=
  haversine (latitude input) (longitude input) (f_lat f) (f_lon f).

Definition withDistance (input : Input) (f : Feature) : NearbyQuake :=
  {| quake := parseQuake f;
     distanceKm := Math_round (distanceOf input f) |}.

Definition nearbyQuakes (input : Input) (features : list Feature)
  : list NearbyQuake :=
  sort (fun a b => inject_Z (distanceKm a - distanceKm b))
    (map (withDistance input)
       (filter (fun f => Qle_bool (distanceOf input f) (radiusKm input))
          features)).

Definition handler (input : Input) : Task Output :=
  data <- fetchUSGS (endpoint (minMagnitude input)) ;;
  t <- Date_now ;;
  ret {| searchCenter := (latitude input, longitude input);
         out_radiusKm := radiusKm input;
         out_minMagnitude := minMagnitude input;
         found := List.length (nearbyQuakes input (GeoJSON.features data));
         earthquakes := nearbyQuakes input (GeoJSON.features data);
         fetchedAt := toISOString t |}.

Definition entrypoint : Raw -> Task Output := invoke schema handler.

End Distance.

End Nearby.

(** ** regional report *)
Module Report.

Inductive Region := global | pacific | americas | asia | europe.

Record Bounds := {
  latMin : Q;
  latMax : Q;
  lonMin : Q;
  lonMax : Q
}.

Definition regionBounds (r : Region) : Bounds :=
  match r with
  | global => {| latMin := -90; latMax := 90; lonMin := -180; lonMax := 180 |}
  | pacific => {| latMin := -60; latMax := 60; lonMin := 100; lonMax := -100 |}
  | americas => {| latMin := -60; latMax := 70; lonMin := -170; lonMax := -30 |}
  | asia => {| latMin := -10; latMax := 60; lonMin := 60; lonMax := 150 |}
  | europe => {| latMin := 35; latMax := 72; lonMin := -25; lonMax := 45 |}
  end.

(** The callback of [features.filter] in [filterByRegion], on the
    latitude and longitude of a record. *)
Definition inRegion (r : Region) (lat lon : Q) : bool :=
  let bounds := regionBounds r in
  match r with
  | pacific =>
      (* Handle Pacific crossing dateline *)
      Qgeb lat (latMin bounds) && Qle_bool lat (latMax bounds)
      && (Qgeb lon (lonMin bounds) || Qle_bool lon (lonMax bounds))
  | _ =>
      Qgeb lat (latMin bounds) && Qle_bool lat (latMax bounds)
      && Qgeb lon (lonMin bounds) && Qle_bool lon (lonMax bounds)
  end.

Definition filterByRegion (r : Region) (features : list Feature) : list Feature :=
  match r with
  | global => features
  | _ => filter (fun f => inRegion r (f_lat f) (f_lon f)) features
  end.

(** [regionalMonth.map(f => f.properties.mag).filter(m => m !== null)]. *)
Fixpoint nonNull (ms : list (option Q)) : list Q :=
  match ms with
  | [] => []
  | Some m :: t => m :: nonNull t
  | None :: t => nonNull t
  end.

Record Statistics := {
  pastHour : nat;
  magnitude45_24h : nat;
  significantWeek : nat;
  totalMonth : nat;
  averageMagnitude : option FixedString;   (* the [toFixed(2)] string, or null *)
  maxMagnitude : option Q
}.

(** The grouping of [place] strings into [mostActiveAreas] and the
    [insights] labels are left out of the output record. *)
Record Output := {
  region : Region;
  statistics : Statistics;
  recentSignificant : list Quake;
  latestLarge : list Quake;
  generatedAt : ISOString
}.

Definition statisticsOf (regionalHour regional45 regionalSig regionalMonth
                          : list Feature) : Statistics :=
  let magnitudes := nonNull (map f_mag regionalMonth) in
  {| pastHour := List.length regionalHour;
     magnitude45_24h := List.length regional45;
     significantWeek := List.length regionalSig;
     totalMonth := List.length regionalMonth;
     averageMagnitude :=
       match magnitudes with
       | [] => None
       | _ => Some (toFixed2
                 (PrimFloat.div (sum (map Number_ofQ magnitudes))
                                (Number_ofLength (List.length magnitudes))))
       end;
     maxMagnitude :=
       match magnitudes with
       | [] => None
       | m :: rest => Some (Math_max m rest)
       end |}.

(** The fetches of the handler's [Promise.all]. *)
Definition requests : list Request :=
  [SummaryFeed "all_hour.geojson"; SummaryFeed "4.5_day.geojson";
   SummaryFeed "significant_week.geojson"; SummaryFeed "all_month.geojson"].

Definition handler (input : Region) : Task Output :=
  all <- Promise_all [fetchUSGS "all_hour.geojson";
                      fetchUSGS "4.5_day.geojson";
                      fetchUSGS "significant_week.geojson";
                      fetchUSGS "all_month.geojson"] ;;
  match all with
  | [hourAll; day45; weekSig; monthAll] =>
      let regionalHour := filterByRegion input (GeoJSON.features hourAll) in
      let regional45 := filterByRegion input (GeoJSON.features day45) in
      let regionalSig := filterByRegion input (GeoJSON.features weekSig) in
      let regionalMonth := filterByRegion input (GeoJSON.features monthAll) in
      t <- Date_now ;;
      ret {| region := input;
             statistics :=
               statisticsOf regionalHour regional45 regionalSig regionalMonth;
             recentSignificant := parseQuakes (slice0 5 regionalSig);
             latestLarge := parseQuakes (slice0 5 regional45);
             generatedAt := toISOString t |}
  | _ => throw TypeError
  end.

(** [region: z.enum([...]).optional().default('global')]. *)
Definition entrypoint (raw : option Region) : Task Output :=
  invoke (fun r => inr (default global r)) handler raw.

End Report.

(** ** recent *)
Module Recent.

Record Output := {
  totalCount : Z;
  returned : nat;
  earthquakes : list Quake;
  fetchedAt : ISOString
}.

(** [limit: z.number().optional().default(20)]: any number is accepted. *)
Definition schema (raw : option Q) : list string + Q := inr (default 20 raw).

Definition handler (limit : Q) : Task Output :=
  data <- fetchUSGS "all_hour.geojson" ;;
  let quakes := parseQuakes (slice0 limit (GeoJSON.features data)) in
  t <- Date_now ;;
  ret {| totalCount := GeoJSON.count data;
         returned := List.length quakes;
         earthquakes := quakes;
         fetchedAt := toISOString t |}.

Definition entrypoint : option Q -> Task Output := invoke schema handler.

End Recent.

(** ** significant *)
Module Significant.

Record Output := {
  totalSignificant : Z;
  returned : nat;
  earthquakes : list Quake;
  fetchedAt : ISOString
}.

(** [limit: z.number().optional().default(10)]. *)
Definition schema (raw : option Q) : list string + Q := inr (default 10 raw).

Definition handler (limit : Q) : Task Output :=
  data <- fetchUSGS "significant_week.geojson" ;;
  let quakes := parseQuakes (slice0 limit (GeoJSON.features data)) in
  t <- Date_now ;;
  ret {| totalSignificant := GeoJSON.count data;
         returned := List.length quakes;
         earthquakes := quakes;
         fetchedAt := toISOString t |}.

Definition entrypoint : option Q -> Task Output := invoke schema handler.

End Significant.

(** ** magnitude *)
Module Magnitude.

(** [z.enum(['1.0', '2.5', '4.5'])]. *)
Inductive MinMagnitude := M1_0 | M2_5 | M4_5.

(** [z.enum(['hour', 'day', 'week', 'month'])]. *)
Inductive Timeframe := hour | day | week | month.

(** The string a member of the enum is. *)
Definition minMagnitudeText (m : MinMagnitude) : string :=
  match m with
  | M1_0 => "1.0"
  | M2_5 => "2.5"
  | M4_5 => "4.5"
  end.

Definition timeframeText (t : Timeframe) : string :=
  match t with
  | hour => "hour"
  | day => "day"
  | week => "week"
  | month => "month"
  end.

(** [parseFloat(minMagnitude)] on the three strings of the enum. *)
Definition parseFloat (m : MinMagnitude) : Q :=
  match m with
  | M1_0 => 1
  | M2_5 => 5 # 2
  | M4_5 => 9 # 2
  end.

Record Raw := {
  raw_minMagnitude : string;
  raw_timeframe : option string;
  raw_limit : option Q
}.

Record Input := {
  minMagnitude : MinMagnitude;
  timeframe : Timeframe;
  limit : Q
}.

Definition parseMinMagnitude (s : string) : option MinMagnitude :=
  if String.eqb s "1.0" then Some M1_0
  else if String.eqb s "2.5" then Some M2_5
  else if String.eqb s "4.5" then Some M4_5
  else None.

Definition parseTimeframe (s : string) : option Timeframe :=
  if String.eqb s "hour" then Some hour
  else if String.eqb s "day" then Some day
  else if String.eqb s "week" then Some week
  else if String.eqb s "month" then Some month
  else None.

Definition schema (raw : Raw) : list string + Input :=
  match parseMinMagnitude (raw_minMagnitude raw),
        match raw_timeframe raw with
        | None => Some day
        | Some s => parseTimeframe s
        end with
  | Some m, Some t =>
      inr {| minMagnitude := m; timeframe := t;
             limit := default 25 (raw_limit raw) |}
  | None, Some _ => inl ["minMagnitude"]
  | Some _, None => inl ["timeframe"]
  | None, None => inl ["minMagnitude"; "timeframe"]
  end.

(** [`${minMagnitude}_${timeframe}.geojson`]. *)
Definition endpoint (input : Input) : string :=
  minMagnitudeText (minMagnitude input) ++ "_"
  ++ timeframeText (timeframe input) ++ ".geojson".

Record Output := {
  filter_minMagnitude : Q;
  filter_timeframe : Timeframe;
  totalCount : Z;
  returned : nat;
  earthquakes : list Quake;
  fetchedAt : ISOString
}.

Definition handler (input : Input) : Task Output :=
  data <- fetchUSGS (endpoint input) ;;
  let quakes := parseQuakes (slice0 (limit input) (GeoJSON.features data)) in
  t <- Date_now ;;
  ret {| filter_minMagnitude := parseFloat (minMagnitude input);
         filter_timeframe := timeframe input;
         totalCount := GeoJSON.count data;
         returned := List.length quakes;
         earthquakes := quakes;
         fetchedAt := toISOString t |}.

Definition entrypoint : Raw -> Task Output := invoke schema handler.

End Magnitude.

End FeedAgent.

(* ------------------------------------------------------------------ *)
(** * The feed tiers of the specification *)

(** The three daily summary feeds, finest first, each with the magnitude
    floor its name carries. *)
Definition dailyFeeds : list (Q * string) :=
  [(1, "1.0_day.geojson"); (5 # 2, "2.5_day.geojson"); (9 # 2, "4.5_day.geojson")].

(** The specification's selection rule, in its words: the feed "whose
    magnitude floor is >= minMagnitude" (the first such tier, so that 2.5
    and 2.6 fall into different tiers), "else the finest-grained feed". *)
Definition spec_endpoint (minMagnitude : Q) : string :=
  match find (fun tier => Qgeb (fst tier) minMagnitude) dailyFeeds with
  | Some tier => snd tier
  | None => "1.0_day.geojson"
  end.

(** The rule the handler implements, on the same table: the last tier
    whose floor is <= minMagnitude, else the finest-grained feed. *)
Definition floor_endpoint (minMagnitude : Q) : string :=
  match find (fun tier => Qle_bool (fst tier) minMagnitude) (rev dailyFeeds) with
  | Some tier => snd tier
  | None => "1.0_day.geojson"
  end.

(* ------------------------------------------------------------------ *)
(** * Sample feeds *)

Definition sampleQuake (i : string) (m : option Q) (s : option Z) (lat lon : Q)
  : Feature :=
  {| GeoJSON.id := i;
     GeoJSON.properties :=
       {| GeoJSON.mag := m; GeoJSON.magType := Some "mb"; GeoJSON.place := None;
          GeoJSON.time := 0; GeoJSON.updated := 0; GeoJSON.sig := s;
          GeoJSON.felt := None; GeoJSON.alert := None; GeoJSON.tsunami := 0;
          GeoJSON.url := None |};
     GeoJSON.coordinates :=
       {| GeoJSON.coord0 := lon; GeoJSON.coord1 := lat; GeoJSON.coord2 := Some 10 |} |}.

Definition sampleFeed (fs : list Feature) : FeatureCollection :=
  {| GeoJSON.count := Z.of_nat (List.length fs); GeoJSON.features := fs |}.

Definition sampleEnv (answer : Request -> Response) : Env :=
  {| usgs := answer; now := 1700000000000 |}.

(** A week feed of four records, two of them of magnitude 5. *)
Definition weekFeed : FeatureCollection :=
  sampleFeed [sampleQuake "a" (Some 5) (Some 100%Z) 10 20;
              sampleQuake "b" (Some (61 # 10)) (Some 50%Z) 11 21;
              sampleQuake "c" (Some 5) (Some 70%Z) 12 22;
              sampleQuake "d" (Some 3) (Some 30%Z) 13 23].

Definition weekEnv : Env :=
  sampleEnv (fun r =>
    match r with
    | SummaryFeed "all_week.geojson" => Http 200 (Collection weekFeed)
    | _ => Unreachable
    end).

Definition topInput : LocationAgent.Top.Input :=
  {| LocationAgent.Top.period := LocationAgent.Top.week;
     LocationAgent.Top.rankBy := LocationAgent.Top.by_magnitude;
     LocationAgent.Top.minMagnitude := 9 # 2;
     LocationAgent.Top.limit := 10 |}.

(** A rational-valued distance used to run the nearby handler on sample
    feeds: 111 km per degree, along the grid. *)
Definition gridDistance (lat1 lon1 lat2 lon2 : Q) : Q :=
  111 * (Qabs (lat2 - lat1) + Qabs (lon2 - lon1)).

(** A daily M2.5+ feed: two records one degree from (10, 20), one at the
    point itself and of magnitude 2.5, one far away. *)
Definition dayFeed : FeatureCollection :=
  sampleFeed [sampleQuake "n1" (Some 4) (Some 200%Z) 11 20;
              sampleQuake "far" (Some 6) (Some 600%Z) 40 60;
              sampleQuake "n2" (Some (7 # 2)) (Some 150%Z) 10 21;
              sampleQuake "n0" (Some (5 # 2)) (Some 90%Z) 10 20].

Definition dayEnv : Env :=
  sampleEnv (fun r =>
    match r with
    | SummaryFeed "2.5_day.geojson" => Http 200 (Collection dayFeed)
    | _ => Unreachable
    end).

Definition nearbyInput : FeedAgent.Nearby.Input :=
  {| FeedAgent.Nearby.latitude := 10;
     FeedAgent.Nearby.longitude := 20;
     FeedAgent.Nearby.radiusKm := 500;
     FeedAgent.Nearby.minMagnitude := 3 |}.

(** Four regions, told apart by their latitude, with 5, 3, 3 and 0 records
    in the past week. *)
Definition sampleMags (ms : list Q) : FeatureCollection :=
  sampleFeed (map (fun m => sampleQuake "q" (Some m) None 0 0) ms).

Definition sampleRegion (n : string) (lat : Q) : LocationAgent.Compare.Region :=
  {| LocationAgent.Compare.name := n;
     LocationAgent.Compare.latitude := lat;
     LocationAgent.Compare.longitude := 0;
     LocationAgent.Compare.radiusKm := 500 |}.

Definition compareInput : LocationAgent.Compare.Input :=
  {| LocationAgent.Compare.regions :=
       [sampleRegion "A" 10; sampleRegion "B" 20;
        sampleRegion "C" 30; sampleRegion "D" 40];
     LocationAgent.Compare.minMagnitude := 5 # 2 |}.

Definition compareFeeds : list FeatureCollection :=
  [sampleMags [3; 5; 4; 5; 3]; sampleMags [3; 4; 3]; sampleMags [6; 3; 3];
   sampleMags []].

Definition compareEnv : Env :=
  sampleEnv (fun r =>
    match r with
    | EventQuery q =>
        if Qeq_bool (q_latitude q) 10 then Http 200 (Collection (sampleMags [3; 5; 4; 5; 3]))
        else if Qeq_bool (q_latitude q) 20 then Http 200 (Collection (sampleMags [3; 4; 3]))
        else if Qeq_bool (q_latitude q) 30 then Http 200 (Collection (sampleMags [6; 3; 3]))
        else Http 200 (Collection (sampleMags []))
    | _ => Unreachable
    end).

(** The same upstream, the third region's query answered with status 503. *)
Definition outageEnv : Env :=
  sampleEnv (fun r =>
    match r with
    | EventQuery q =>
        if Qeq_bool (q_latitude q) 30 then Http 503 Malformed
        else usgs compareEnv r
    | _ => Unreachable
    end).

Definition searchRaw (radius : Q) : LocationAgent.Search.Raw :=
  {| LocationAgent.Search.raw_latitude := 10;
     LocationAgent.Search.raw_longitude := 20;
     LocationAgent.Search.raw_radiusKm := Some radius;
     LocationAgent.Search.raw_minMagnitude := None;
     LocationAgent.Search.raw_maxMagnitude := None;
     LocationAgent.Search.raw_daysBack := None;
     LocationAgent.Search.raw_limit := None |}.

(** [n] copies of one region. *)
Definition compareRaw (n : nat) : LocationAgent.Compare.Raw :=
  {| LocationAgent.Compare.raw_regions :=
       repeat {| LocationAgent.Compare.raw_name := "A";
                 LocationAgent.Compare.raw_latitude := 10;
                 LocationAgent.Compare.raw_longitude := 0;
                 LocationAgent.Compare.raw_radiusKm := None |} n;
     LocationAgent.Compare.raw_minMagnitude := None |}.

(* ------------------------------------------------------------------ *)
(** * Vocabulary of the statements *)

(** An optional field is absent or within [lo, hi]. *)
Definition withinOpt (lo hi : Q) (v : option Q) : Prop :=
  match v with
  | Some x => lo <= x /\ x <= hi
  | None => True
  end.

(** The four risk levels, in increasing order of severity. *)
Definition levelRank (l : LocationAgent.Report.RiskLevel) : nat :=
  match l with
  | LocationAgent.Report.low => 0
  | LocationAgent.Report.moderate => 1
  | LocationAgent.Report.elevated => 2
  | LocationAgent.Report.high => 3
  end.



Definition topRaw (limit : option Q) : LocationAgent.Top.Raw :=
  {| LocationAgent.Top.raw_period := None;
     LocationAgent.Top.raw_rankBy := None;
     LocationAgent.Top.raw_minMagnitude := None;
     LocationAgent.Top.raw_limit := limit |}.

Definition compareRegionRaw (n : string) (lat : Q) (radius : option Q)
  : LocationAgent.Compare.RegionRaw :=
  {| LocationAgent.Compare.raw_name := n;
     LocationAgent.Compare.raw_latitude := lat;
     LocationAgent.Compare.raw_longitude := 0;
     LocationAgent.Compare.raw_radiusKm := radius |}.

Definition twoRegionsRaw : LocationAgent.Compare.Raw :=
  {| LocationAgent.Compare.raw_regions :=
       [compareRegionRaw "B" 20 None; compareRegionRaw "C" 30 (Some 800)];
     LocationAgent.Compare.raw_minMagnitude := None |}.

(** Regions B and C of the sample upstream: three records each. *)
Definition tiedInput : LocationAgent.Compare.Input :=
  {| LocationAgent.Compare.regions := [sampleRegion "B" 20; sampleRegion "C" 30];
     LocationAgent.Compare.minMagnitude := 5 # 2 |}.

Definition reportInput : LocationAgent.Report.Input :=
  {| LocationAgent.Report.latitude := 10;
     LocationAgent.Report.longitude := 20;
     LocationAgent.Report.locationName := None |}.

(** An upstream that answers every range query with the week feed and
    the significant feed with the day feed. *)
Definition reportEnv : Env :=
  sampleEnv (fun r =>
    match r with
    | EventQuery _ => Http 200 (Collection weekFeed)
    | SummaryFeed _ => Http 200 (Collection dayFeed)
    end).

Definition negativeRadiusRaw : FeedAgent.Nearby.Raw :=
  {| FeedAgent.Nearby.raw_latitude := 10;
     FeedAgent.Nearby.raw_longitude := 20;
     FeedAgent.Nearby.raw_radiusKm := Some (- 5);
     FeedAgent.Nearby.raw_minMagnitude := Some 3 |}.

(** What a listing handler returns of a feed for a given [limit]: a
    leading part of the feed, parsed. *)
Definition leadingPart (limit : Q) (features : list Feature)
    (quakes : list FeedAgent.Quake) (returned : nat) : Prop :=
  returned = List.length quakes
  /\ (returned <= List.length features)%nat
  /\ (0 <= limit ->
      quakes = FeedAgent.parseQuakes (firstn (Z.to_nat (Qtrunc limit)) features))
  /\ (limit <= - 1 ->
      quakes = FeedAgent.parseQuakes
                 (firstn (List.length features - Z.to_nat (- Qtrunc limit)) features))
  /\ (- 1 < limit -> limit < 1 -> quakes = []).

Definition hourFeedEnv : Env :=
  sampleEnv (fun r =>
    match r with
    | SummaryFeed "all_hour.geojson" => Http 200 (Collection dayFeed)
    | _ => Unreachable
    end).

(** A month feed with a record whose magnitude is null. *)
Definition nullMagQuake : Feature := sampleQuake "x" None None 50 10.

Definition overviewEnv : Env :=
  sampleEnv (fun r =>
    match r with
    | SummaryFeed "significant_week.geojson" => Http 200 (Collection weekFeed)
    | SummaryFeed _ => Http 200 (Collection dayFeed)
    | EventQuery _ => Unreachable
    end).

(** The arguments [haversineDistance] passes to [Math.sin] and [Math.cos]
    between the points (8, -179) and (-8, 1): 8 degrees in radians and a
    quarter turn, as the doubles the code computes. *)
Definition angle8 : float := (8 * Math_PI / 180)%float.

Definition quarterTurn : float := ((1 - -179) * Math_PI / 180 / 2)%float.

(** The doubles nearest to the sine and the cosine of [angle8]
    (0.13917310096006544 and 0.9902680687415704). *)
Definition sin8 : float := 0x1.1d06c968d9e19p-3%float.

Definition cos8 : float := 0x1.fb046a930947ap-1%float.

(** A [Math] for the examples: sine and cosine are tabulated at [angle8]
    and [quarterTurn], and [atan2] hands on a NaN. *)
Definition sampleMath : MathLib :=
  {| Math_sin := fun x =>
       let s := if PrimFloat.eqb (PrimFloat.abs x) angle8 then sin8
                else if PrimFloat.eqb (PrimFloat.abs x) quarterTurn then 1%float
                else PrimFloat.abs x in
       if PrimFloat.ltb x 0 then PrimFloat.opp s else s;
     Math_cos := fun x =>
       if PrimFloat.eqb (PrimFloat.abs x) angle8 then cos8 else 1%float;
     Math_atan2 := fun y x =>
       if PrimFloat.is_nan x then PrimFloat.nan
       else if PrimFloat.is_nan y then PrimFloat.nan
       else y |}.

(** Month feeds for the regional report: a record in the box of europe, a
    record of null magnitude outside it; the other feeds are [dayFeed]. *)
Definition parisQuake : Feature := sampleQuake "paris" (Some 2) None 49 2.

Definition nullLimaQuake : Feature := sampleQuake "lima" None None (-12) (-77).

Definition monthEnv (month : list Feature) : Env :=
  sampleEnv (fun r =>
    match r with
    | SummaryFeed "all_month.geojson" => Http 200 (Collection (sampleFeed month))
    | SummaryFeed _ => Http 200 (Collection dayFeed)
    | EventQuery _ => Unreachable
    end).

(* ================================================================== *)
(** * Properties *)

(** ** Numbers *)

Lemma Qltb_lt (a b : Q) : Qltb a b = true <-> a < b.
Proof.
  unfold Qltb. rewrite negb_true_iff. split; intro H.
  - apply Qnot_le_lt. intro Hle. apply Qle_bool_iff in Hle. congruence.
  - destruct (Qle_bool b a) eqn:E; trivial.
    apply Qle_bool_iff in E. exfalso. exact (Qlt_not_le _ _ H E).
Qed.

Lemma Qltb_ge (a b : Q) : Qltb a b = false <-> b <= a.
Proof. unfold Qltb. rewrite negb_false_iff. apply Qle_bool_iff. Qed.

Lemma Qgeb_ge (a b : Q) : Qgeb a b = true <-> b <= a.
Proof. apply Qle_bool_iff. Qed.

Lemma Qgeb_lt (a b : Q) : Qgeb a b = false <-> a < b.
Proof.
  unfold Qgeb. split; intro H.
  - apply Qnot_le_lt. intro Hle. apply Qle_bool_iff in Hle. congruence.
  - destruct (Qle_bool b a) eqn:E; trivial.
    apply Qle_bool_iff in E. exfalso. exact (Qlt_not_le _ _ H E).
Qed.

Lemma Qmax_ub_l (a b : Q) : a <= Qmax a b.
Proof.
  unfold Qmax. destruct (Qltb a b) eqn:E.
  - apply Qltb_lt in E. lra.
  - lra.
Qed.

Lemma Qmax_ub_r (a b : Q) : b <= Qmax a b.
Proof.
  unfold Qmax. destruct (Qltb a b) eqn:E.
  - lra.
  - apply Qltb_ge in E. exact E.
Qed.

(** ** [slice] and [map] with an index *)

Lemma slice0_firstn {A} (e : Q) (l : list A) :
  exists n, slice0 e l = firstn n l.
Proof. unfold slice0. destruct (Qtrunc e <? 0)%Z; eauto. Qed.

Lemma filter_firstn_prefix {A} (p : A -> bool) (n : nat) (l : list A) :
  exists rest, filter p l = filter p (firstn n l) ++ rest.
Proof.
  exists (filter p (skipn n l)).
  rewrite <- filter_app, firstn_skipn. reflexivity.
Qed.

Lemma StronglySorted_firstn {A} (R : A -> A -> Prop) (n : nat) (l : list A) :
  StronglySorted R l -> StronglySorted R (firstn n l).
Proof.
  intro H. revert n. induction H as [|a l Hl IH Ha]; intro n.
  - rewrite firstn_nil. constructor.
  - destruct n; simpl; constructor.
    + apply IH.
    + rewrite Forall_forall in *. intros x Hx. apply Ha.
      rewrite <- (firstn_skipn n l). apply in_or_app. now left.
Qed.

Lemma map_from_nth {A B} (f : A -> nat -> B) (l : list A) (i k : nat) :
  nth_error (map_from f i l) k = option_map (fun x => f x (i + k)%nat) (nth_error l k).
Proof.
  revert i k. induction l as [|x t IH]; intros i k.
  - destruct k; reflexivity.
  - destruct k; simpl.
    + now rewrite Nat.add_0_r.
    + rewrite IH. now rewrite Nat.add_succ_r.
Qed.

Lemma map_from_map {A B C} (f : A -> nat -> B) (g : B -> C) (h : A -> C)
      (l : list A) (i : nat) :
  (forall x k, g (f x k) = h x) -> map g (map_from f i l) = map h l.
Proof.
  intro H. revert i. induction l as [|x t IH]; intro i; simpl.
  - reflexivity.
  - now rewrite H, IH.
Qed.

Lemma map_filter_map_from {A B C} (f : A -> nat -> B) (q : B -> bool)
      (p : A -> bool) (g : B -> C) (h : A -> C) (l : list A) (i : nat) :
  (forall x k, q (f x k) = p x) ->
  (forall x k, g (f x k) = h x) ->
  map g (filter q (map_from f i l)) = map h (filter p l).
Proof.
  intros Hq Hg. revert i. induction l as [|x t IH]; intro i; simpl.
  - reflexivity.
  - rewrite Hq. destruct (p x); simpl; now rewrite ?Hg, IH.
Qed.

Lemma in_map_from {A B} (f : A -> nat -> B) (l : list A) (i : nat) (y : B) :
  In y (map_from f i l) -> exists x k, In x l /\ y = f x k.
Proof.
  revert i. induction l as [|x t IH]; intro i; simpl.
  - intros [].
  - intros [<-|H].
    + exists x, i. auto.
    + destruct (IH _ H) as (x' & k & Hx & ->). exists x', k. auto.
Qed.

Lemma StronglySorted_map_from {A B} (R : B -> B -> Prop) (f : A -> nat -> B)
      (l : list A) (i : nat) :
  StronglySorted (fun a b => forall j k, R (f a j) (f b k)) l ->
  StronglySorted R (map_from f i l).
Proof.
  intro H. revert i. induction H as [|a l Hl IH Ha]; intro i; simpl.
  - constructor.
  - constructor; [apply IH|].
    rewrite Forall_forall in *. intros y Hy.
    destruct (in_map_from _ _ _ _ Hy) as (x & k & Hx & ->). now apply Ha.
Qed.

Lemma StronglySorted_map {A B} (R : B -> B -> Prop) (g : A -> B) (l : list A) :
  StronglySorted (fun a b => R (g a) (g b)) l -> StronglySorted R (map g l).
Proof.
  induction 1 as [|a l Hl IH Ha]; simpl; constructor.
  - exact IH.
  - rewrite Forall_forall in *. intros y Hy.
    apply in_map_iff in Hy. destruct Hy as (x & <- & Hx). now apply Ha.
Qed.

Lemma StronglySorted_weaken {A} (R R' : A -> A -> Prop) (l : list A) :
  (forall a b, R a b -> R' a b) -> StronglySorted R l -> StronglySorted R' l.
Proof.
  intros HR H. induction H as [|a l Hl IH Ha]; constructor.
  - exact IH.
  - eapply Forall_impl; [|exact Ha]. intros b. apply HR.
Qed.

Lemma filter_twice {A} (p q : A -> bool) (l : list A) :
  filter p (filter q l) = filter (fun x => q x && p x) l.
Proof.
  induction l as [|x t IH]; simpl; [reflexivity|].
  destruct (q x); simpl; [destruct (p x)|]; now rewrite IH.
Qed.

(** ** [Array.prototype.sort] with a comparator that subtracts keys *)

Section SortFacts.
Context {A : Type}.
Variable comparefn : A -> A -> Q.
Variable key : A -> Q.

(** The comparator orders by [key], ascending: [x] goes after [y] exactly
    when its key is the larger one. *)
Hypothesis comparefn_key : forall x y, 0 < comparefn x y <-> key y < key x.

Lemma insert_perm (x : A) (l : list A) : Permutation (insert comparefn x l) (x :: l).
Proof.
  induction l as [|y t IH]; simpl.
  - apply Permutation_refl.
  - destruct (Qltb 0 (comparefn x y)).
    + eapply Permutation_trans; [apply perm_skip, IH | apply perm_swap].
    + apply Permutation_refl.
Qed.

Lemma sort_perm (l : list A) : Permutation (sort comparefn l) l.
Proof.
  induction l as [|x t IH]; simpl.
  - constructor.
  - eapply Permutation_trans; [apply insert_perm | now apply perm_skip].
Qed.

Lemma insert_sorted (x : A) (l : list A) :
  StronglySorted (fun a b => key a <= key b) l ->
  StronglySorted (fun a b => key a <= key b) (insert comparefn x l).
Proof.
  induction 1 as [|y t Ht IH Hy]; simpl.
  - constructor; constructor.
  - destruct (Qltb 0 (comparefn x y)) eqn:E.
    + apply Qltb_lt, comparefn_key in E.
      constructor; [exact IH|].
      eapply Permutation_Forall; [apply Permutation_sym, insert_perm|].
      constructor; [lra | exact Hy].
    + assert (Hxy : key x <= key y).
      { apply Qnot_lt_le. intro Hlt. apply comparefn_key, Qltb_lt in Hlt. congruence. }
      constructor; [now constructor|].
      constructor; [exact Hxy|].
      eapply Forall_impl; [|exact Hy]. simpl. intros z Hz. lra.
Qed.

Lemma sort_sorted (l : list A) :
  StronglySorted (fun a b => key a <= key b) (sort comparefn l).
Proof.
  induction l as [|x t IH]; simpl.
  - constructor.
  - now apply insert_sorted.
Qed.

(** Stability: the records of one key class keep their order. *)
Lemma insert_filter (p : A -> bool) (x : A) (l : list A) :
  (forall a b, p a = true -> p b = true -> key a == key b) ->
  filter p (insert comparefn x l) = filter p (x :: l).
Proof.
  intro Hp. induction l as [|y t IH]; simpl.
  - reflexivity.
  - destruct (Qltb 0 (comparefn x y)) eqn:E; [|reflexivity].
    apply Qltb_lt, comparefn_key in E. simpl in *. rewrite IH.
    destruct (p x) eqn:Px, (p y) eqn:Py; try reflexivity.
    specialize (Hp _ _ Px Py). lra.
Qed.

Lemma sort_stable (p : A -> bool) (l : list A) :
  (forall a b, p a = true -> p b = true -> key a == key b) ->
  filter p (sort comparefn l) = filter p l.
Proof.
  intro Hp. induction l as [|x t IH]; simpl.
  - reflexivity.
  - rewrite insert_filter by exact Hp. simpl. now rewrite IH.
Qed.

End SortFacts.

(** ** The risk score of the location report *)

(** The assessment the report handler returns is [riskScoreOf] and
    [riskLevelOf] on the counts of the three radius queries and on the
    largest magnitude within 50 km. *)
Lemma assess_score (n50 n250 n500 : FeatureCollection) :
  let a := LocationAgent.Report.assess n50 n250 n500 in
  LocationAgent.Report.score a =
    LocationAgent.Report.riskScoreOf (GeoJSON.count n50) (GeoJSON.count n250)
      (GeoJSON.count n500) (LocationAgent.Report.maxNearbyOf n50)
  /\ LocationAgent.Report.level a =
      LocationAgent.Report.riskLevelOf (LocationAgent.Report.score a).
Proof. split; reflexivity. Qed.

(** C1 (as amended): for non-negative counts the risk score of the report
    is [2*nearby50kmCount + (10 if nearby250kmCount > 10) + (15 if
    maxNearbyMagnitude >= 4) + (25 if maxNearbyMagnitude >= 5) + (5 if
    nearby500kmCount > 5)]; the level is high iff the score is at least 50,
    elevated iff it is in [25, 50), moderate iff it is in [10, 25), low
    otherwise; the inputs (3, 12, 8, 5.2) give score 61 and level high. *)
Theorem risk_score_contract :
  forall (nearby50kmCount nearby250kmCount nearby500kmCount : Z)
         (maxNearbyMagnitude : Q),
    (0 <= nearby50kmCount)%Z ->
    (0 <= nearby250kmCount)%Z ->
    (0 <= nearby500kmCount)%Z ->
    let score :=
      LocationAgent.Report.riskScoreOf nearby50kmCount nearby250kmCount
        nearby500kmCount maxNearbyMagnitude in
    let level := LocationAgent.Report.riskLevelOf score in
    score = (2 * nearby50kmCount
             + (if (nearby250kmCount >? 10)%Z then 10 else 0)
             + (if Qle_bool 4 maxNearbyMagnitude then 15 else 0)
             + (if Qle_bool 5 maxNearbyMagnitude then 25 else 0)
             + (if (nearby500kmCount >? 5)%Z then 5 else 0))%Z
    /\ (level = LocationAgent.Report.high <-> (50 <= score)%Z)
    /\ (level = LocationAgent.Report.elevated <-> (25 <= score < 50)%Z)
    /\ (level = LocationAgent.Report.moderate <-> (10 <= score < 25)%Z)
    /\ (level = LocationAgent.Report.low <-> (score < 10)%Z)
    /\ LocationAgent.Report.riskScoreOf 3 12 8 (26 # 5) = 61%Z
    /\ LocationAgent.Report.riskLevelOf 61 = LocationAgent.Report.high.
Proof.
  intros c50 c250 c500 m H50 H250 H500 score level.
  split.
  - subst score. unfold LocationAgent.Report.riskScoreOf, Qgeb.
    destruct (c50 >? 0)%Z eqn:E50.
    + destruct (c250 >? 10)%Z, (Qle_bool 4 m), (Qle_bool 5 m), (c500 >? 5)%Z; lia.
    + assert (c50 = 0%Z) by lia. subst c50.
      destruct (c250 >? 10)%Z, (Qle_bool 4 m), (Qle_bool 5 m), (c500 >? 5)%Z; lia.
  - subst level. unfold LocationAgent.Report.riskLevelOf.
    destruct (score >=? 50)%Z eqn:E1;
      [|destruct (score >=? 25)%Z eqn:E2;
        [|destruct (score >=? 10)%Z eqn:E3]];
      repeat split; intros; try discriminate; try lia; try reflexivity.
Qed.

Lemma risk_score_contract_witness :
  (0 <= 3)%Z /\
  LocationAgent.Report.riskScoreOf 3 12 8 (26 # 5) = (2 * 3 + 10 + 15 + 25 + 5)%Z.
Proof.
  split; [lia|].
  exact (proj1 (risk_score_contract 3 12 8 (26 # 5)
                  ltac:(lia) ltac:(lia) ltac:(lia))).
Defined.

(** C1, as the specification words its example: the inputs
    (3, 12, 8, 5.2) do not give score 66. *)
Lemma risk_score_example_not_66 :
  LocationAgent.Report.riskScoreOf 3 12 8 (26 # 5) <> 66%Z.
Proof. vm_compute. discriminate. Qed.

(** ** Running a fetch *)

Lemma fetchJSON_ok (env : Env) (r : Request) (status : Z) (fc : FeatureCollection) :
  usgs env r = Http status (Collection fc) -> ok status = true ->
  fetchJSON r env = (inr fc, [r]).
Proof. intros H Hok. unfold fetchJSON. now rewrite H, Hok. Qed.

Lemma fetchJSON_fails (env : Env) (r : Request) :
  fails env r -> exists e, fetchJSON r env = (inl e, [r]).
Proof.
  unfold fails, fetchJSON. destruct (usgs env r) as [|status body].
  - eauto.
  - intros ->. eauto.
Qed.

(** ** top *)

Section TopFacts.
Import LocationAgent LocationAgent.Top.

Lemma comparefn_rankKey (r : RankBy) (x y : Feature) :
  0 < comparefn r x y <-> - rankKey r y < - rankKey r x.
Proof. destruct r; simpl; split; intro H; lra. Qed.

Lemma outKey_formatQuake (r : RankBy) (f : Feature) (k : Z) :
  outKey r {| rank := k; quake := formatQuake f |} = rankKey r f.
Proof. destruct r; reflexivity. Qed.

Lemma filtered_in (input : Input) (features : list Feature) (f : Feature) :
  In f (filtered input features) ->
  In f features /\ minMagnitude input <= ToNumber (f_mag f).
Proof.
  unfold filtered. intro H.
  apply (Permutation_in _ (sort_perm _ _)) in H.
  apply filter_In in H. destruct H as [H1 H2]. split; [exact H1|].
  now apply Qgeb_ge.
Qed.

Lemma filtered_sorted (input : Input) (features : list Feature) :
  StronglySorted (fun a b => rankKey (rankBy input) b <= rankKey (rankBy input) a)
    (filtered input features).
Proof.
  unfold filtered.
  eapply StronglySorted_weaken;
    [|apply (sort_sorted _ (fun f => - rankKey (rankBy input) f));
      apply comparefn_rankKey].
  simpl. intros a b H. lra.
Qed.

Lemma filtered_stable (input : Input) (features : list Feature) (v : Q) :
  filter (fun f => Qeq_bool (rankKey (rankBy input) f) v) (filtered input features)
  = filter (fun f => Qgeb (ToNumber (f_mag f)) (minMagnitude input)
                     && Qeq_bool (rankKey (rankBy input) f) v) features.
Proof.
  unfold filtered.
  rewrite (sort_stable _ (fun f => - rankKey (rankBy input) f)).
  - apply filter_twice.
  - apply comparefn_rankKey.
  - intros a b Ha Hb. apply Qeq_bool_iff in Ha, Hb. lra.
Qed.

End TopFacts.

(** C2: when the upstream answers the period's feed, the top operation
    returns; every returned record has [magnitude >= minMagnitude]; the
    returned records are in non-increasing order of the [rankBy] field;
    records equal in that field keep their feed order (for each value [v]
    the returned records with field [v] are the leading ones, in feed
    order, of the feed records that pass the magnitude filter and have
    field [v]); and the record at position [i] (from 0) carries
    [rank = i + 1]. *)
Theorem top_filtered_sorted_stable_ranked :
  forall (env : Env) (input : LocationAgent.Top.Input)
         (data : FeatureCollection) (status : Z),
    let feed := SummaryFeed (LocationAgent.Top.feedMap (LocationAgent.Top.period input)) in
    let key := LocationAgent.Top.outKey (LocationAgent.Top.rankBy input) in
    usgs env feed = Http status (Collection data) ->
    ok status = true ->
    exists out,
      LocationAgent.Top.handler input env = (inr out, [feed])
      /\ Forall (fun x => LocationAgent.Top.minMagnitude input
                          <= ToNumber (LocationAgent.magnitude (LocationAgent.Top.quake x)))
           (LocationAgent.Top.topEarthquakes out)
      /\ StronglySorted (fun a b => key b <= key a)
           (LocationAgent.Top.topEarthquakes out)
      /\ (forall v : Q, exists rest,
            map LocationAgent.formatQuake
              (filter (fun f =>
                         Qgeb (ToNumber (f_mag f)) (LocationAgent.Top.minMagnitude input)
                         && Qeq_bool (LocationAgent.Top.rankKey
                                        (LocationAgent.Top.rankBy input) f) v)
                 (GeoJSON.features data))
            = map LocationAgent.Top.quake
                (filter (fun x => Qeq_bool (key x) v)
                   (LocationAgent.Top.topEarthquakes out))
              ++ rest)
      /\ (forall (i : nat) (x : LocationAgent.Top.Ranked),
            nth_error (LocationAgent.Top.topEarthquakes out) i = Some x ->
            LocationAgent.Top.rank x = (Z.of_nat i + 1)%Z).
Proof.
  intros env input data status feed key Hfeed Hok.
  eexists. split.
  { unfold LocationAgent.Top.handler, bind.
    fold feed. rewrite (fetchJSON_ok _ _ _ _ Hfeed Hok). simpl. reflexivity. }
  simpl LocationAgent.Top.topEarthquakes.
  unfold LocationAgent.Top.topEarthquakesOf, mapi.
  destruct (slice0_firstn (LocationAgent.Top.limit input)
              (LocationAgent.Top.filtered input (GeoJSON.features data)))
    as [n ->].
  set (fl := LocationAgent.Top.filtered input (GeoJSON.features data)).
  repeat split.
  - rewrite Forall_forall. intros x Hx.
    apply in_map_from in Hx. destruct Hx as (f & k & Hf & ->). simpl.
    assert (Hin : In f fl).
    { rewrite <- (firstn_skipn n fl). apply in_or_app. now left. }
    apply filtered_in in Hin. apply Hin.
  - apply StronglySorted_map_from.
    eapply StronglySorted_weaken;
      [|apply StronglySorted_firstn, filtered_sorted].
    simpl. intros a b H j k. unfold key.
    now rewrite !outKey_formatQuake.
  - intro v.
    destruct (filter_firstn_prefix
                (fun f => Qeq_bool (LocationAgent.Top.rankKey
                                      (LocationAgent.Top.rankBy input) f) v) n fl)
      as [rest Hrest].
    exists (map LocationAgent.formatQuake rest).
    rewrite <- filtered_stable. fold fl. rewrite Hrest, map_app. f_equal.
    symmetry. apply map_filter_map_from.
    + intros x k. unfold key. now rewrite outKey_formatQuake.
    + reflexivity.
  - intros i x Hx. rewrite map_from_nth in Hx.
    destruct (nth_error (firstn n fl) i); [|discriminate].
    simpl in Hx. injection Hx as <-. reflexivity.
Qed.

Lemma top_filtered_sorted_stable_ranked_witness :
  ok 200 = true /\
  exists out,
    LocationAgent.Top.handler topInput weekEnv
      = (inr out, [SummaryFeed "all_week.geojson"])
    /\ map (fun x => (LocationAgent.Top.rank x,
                      LocationAgent.id (LocationAgent.Top.quake x)))
         (LocationAgent.Top.topEarthquakes out)
       = [(1%Z, "b"); (2%Z, "a"); (3%Z, "c")].
Proof.
  split; [reflexivity|].
  destruct (top_filtered_sorted_stable_ranked weekEnv topInput weekFeed 200
              eq_refl eq_refl) as (out & Hrun & _).
  exists out. split; [exact Hrun|].
  vm_compute in Hrun. injection Hrun as <-. reflexivity.
Defined.

(** ** nearby *)

Section NearbyFacts.
Import FeedAgent FeedAgent.Nearby.
Variable haversine : Q -> Q -> Q -> Q -> Q.
Variable input : Input.

Lemma distance_comparefn (a b : NearbyQuake) :
  0 < inject_Z (distanceKm a - distanceKm b)
  <-> inject_Z (distanceKm b) < inject_Z (distanceKm a).
Proof.
  rewrite <- (Zlt_Qlt 0), <- Zlt_Qlt. lia.
Qed.

Lemma nearbyQuakes_sorted (features : list Feature) :
  StronglySorted (fun a b => (distanceKm a <= distanceKm b)%Z)
    (nearbyQuakes haversine input features).
Proof.
  unfold nearbyQuakes.
  eapply StronglySorted_weaken;
    [|apply (sort_sorted _ (fun q => inject_Z (distanceKm q)));
      apply distance_comparefn].
  simpl. intros a b H. now rewrite Zle_Qle.
Qed.

Lemma nearbyQuakes_in (features : list Feature) (q : NearbyQuake) :
  In q (nearbyQuakes haversine input features)
  <-> exists f, In f features
                /\ q = withDistance haversine input f
                /\ distanceOf haversine input f <= radiusKm input.
Proof.
  unfold nearbyQuakes. split.
  - intro H. apply (Permutation_in _ (sort_perm _ _)) in H.
    apply in_map_iff in H. destruct H as (f & <- & Hf).
    apply filter_In in Hf. destruct Hf as [Hf Hd].
    exists f. repeat split; trivial. now apply Qle_bool_iff.
  - intros (f & Hf & -> & Hd).
    apply (Permutation_in _ (Permutation_sym (sort_perm _ _))).
    apply in_map. apply filter_In. split; trivial. now apply Qle_bool_iff.
Qed.

Lemma nearbyQuakes_length (features : list Feature) :
  List.length (nearbyQuakes haversine input features)
  = List.length (filter (fun f => Qle_bool (distanceOf haversine input f)
                                    (radiusKm input)) features).
Proof.
  unfold nearbyQuakes.
  rewrite (Permutation_length (sort_perm _ _)). apply length_map.
Qed.

Lemma nearbyQuakes_stable (features : list Feature) (d : Z) :
  filter (fun q => (distanceKm q =? d)%Z) (nearbyQuakes haversine input features)
  = map (withDistance haversine input)
      (filter (fun f => Qle_bool (distanceOf haversine input f) (radiusKm input)
                        && (Math_round (distanceOf haversine input f) =? d)%Z)
         features).
Proof.
  unfold nearbyQuakes.
  rewrite (sort_stable _ (fun q => inject_Z (distanceKm q))).
  - rewrite <- filter_twice.
    generalize (filter (fun f => Qle_bool (distanceOf haversine input f)
                                   (radiusKm input)) features).
    intro l. induction l as [|f t IH]; simpl; [reflexivity|].
    destruct (Math_round (distanceOf haversine input f) =? d)%Z; simpl;
      now rewrite IH.
  - apply distance_comparefn.
  - intros a b Ha Hb. apply Z.eqb_eq in Ha, Hb. now rewrite Ha, Hb.
Qed.

Lemma nearby_handler_run (env : Env) (data : FeatureCollection) (status : Z) :
  usgs env (SummaryFeed (endpoint (minMagnitude input)))
    = Http status (Collection data) ->
  ok status = true ->
  exists out,
    handler haversine input env
      = (inr out, [SummaryFeed (endpoint (minMagnitude input))])
    /\ earthquakes out = nearbyQuakes haversine input (GeoJSON.features data)
    /\ found out = List.length (earthquakes out).
Proof.
  intros Hfeed Hok. eexists. split.
  - unfold handler, bind, fetchUSGS.
    rewrite (fetchJSON_ok _ _ _ _ Hfeed Hok). simpl. reflexivity.
  - split; reflexivity.
Qed.

End NearbyFacts.

(** C3: when the upstream answers the selected feed, the nearby operation
    returns; its records are in ascending order of [distanceKm]; every
    returned record comes from a feed record whose computed distance from
    the centre is [<= radiusKm]; and records with the same [distanceKm]
    keep their feed order (for each value [d] the returned records with
    [distanceKm = d] are exactly the feed records within the radius whose
    rounded distance is [d], in feed order). *)
Theorem nearby_sorted_within_radius_stable :
  forall (haversine : Q -> Q -> Q -> Q -> Q) (env : Env)
         (input : FeedAgent.Nearby.Input) (data : FeatureCollection) (status : Z),
    let feed := SummaryFeed (FeedAgent.Nearby.endpoint
                               (FeedAgent.Nearby.minMagnitude input)) in
    let distance := FeedAgent.Nearby.distanceOf haversine input in
    usgs env feed = Http status (Collection data) ->
    ok status = true ->
    exists out,
      FeedAgent.Nearby.handler haversine input env = (inr out, [feed])
      /\ StronglySorted
           (fun a b => (FeedAgent.Nearby.distanceKm a
                        <= FeedAgent.Nearby.distanceKm b)%Z)
           (FeedAgent.Nearby.earthquakes out)
      /\ (forall q, In q (FeedAgent.Nearby.earthquakes out) ->
            exists f, In f (GeoJSON.features data)
                      /\ q = FeedAgent.Nearby.withDistance haversine input f
                      /\ distance f <= FeedAgent.Nearby.radiusKm input)
      /\ (forall d : Z,
            filter (fun q => (FeedAgent.Nearby.distanceKm q =? d)%Z)
              (FeedAgent.Nearby.earthquakes out)
            = map (FeedAgent.Nearby.withDistance haversine input)
                (filter (fun f =>
                           Qle_bool (distance f) (FeedAgent.Nearby.radiusKm input)
                           && (Math_round (distance f) =? d)%Z)
                   (GeoJSON.features data))).
Proof.
  intros haversine env input data status feed distance Hfeed Hok.
  destruct (nearby_handler_run haversine input env data status Hfeed Hok)
    as (out & Hrun & Heq & _).
  exists out. split; [exact Hrun|]. rewrite Heq. split; [|split].
  - apply nearbyQuakes_sorted.
  - intros q Hq. now apply nearbyQuakes_in in Hq.
  - intro d. apply nearbyQuakes_stable.
Qed.

Lemma nearby_sorted_within_radius_stable_witness :
  ok 200 = true /\
  exists out,
    FeedAgent.Nearby.handler gridDistance nearbyInput dayEnv
      = (inr out, [SummaryFeed "2.5_day.geojson"])
    /\ map (fun q => (FeedAgent.id (FeedAgent.Nearby.quake q),
                      FeedAgent.Nearby.distanceKm q))
         (FeedAgent.Nearby.earthquakes out)
       = [("n0", 0%Z); ("n1", 111%Z); ("n2", 111%Z)].
Proof.
  split; [reflexivity|].
  destruct (nearby_sorted_within_radius_stable gridDistance dayEnv nearbyInput
              dayFeed 200 eq_refl eq_refl) as (out & Hrun & _).
  exists out. split; [exact Hrun|].
  vm_compute in Hrun. injection Hrun as <-. reflexivity.
Defined.

(** C10: the nearby operation applies no magnitude filter to the records
    of the feed it selected: when the upstream answers that feed, every
    record of it whose computed distance from the centre is [<= radiusKm]
    is returned, whatever its magnitude, and as many records are returned
    as the feed has within the radius; [minMagnitude = 3] selects the
    2.5-floor feed. *)
Theorem nearby_no_magnitude_filter :
  forall (haversine : Q -> Q -> Q -> Q -> Q) (env : Env)
         (input : FeedAgent.Nearby.Input) (data : FeatureCollection) (status : Z),
    let feed := SummaryFeed (FeedAgent.Nearby.endpoint
                               (FeedAgent.Nearby.minMagnitude input)) in
    let distance := FeedAgent.Nearby.distanceOf haversine input in
    usgs env feed = Http status (Collection data) ->
    ok status = true ->
    exists out,
      FeedAgent.Nearby.handler haversine input env = (inr out, [feed])
      /\ (forall f, In f (GeoJSON.features data) ->
            distance f <= FeedAgent.Nearby.radiusKm input ->
            In (FeedAgent.Nearby.withDistance haversine input f)
               (FeedAgent.Nearby.earthquakes out))
      /\ FeedAgent.Nearby.found out
         = List.length
             (filter (fun f => Qle_bool (distance f) (FeedAgent.Nearby.radiusKm input))
                (GeoJSON.features data))
      /\ FeedAgent.Nearby.endpoint 3 = "2.5_day.geojson".
Proof.
  intros haversine env input data status feed distance Hfeed Hok.
  destruct (nearby_handler_run haversine input env data status Hfeed Hok)
    as (out & Hrun & Heq & Hfound).
  exists out. split; [exact Hrun|]. rewrite Hfound, Heq. split; [|split].
  - intros f Hf Hd. apply nearbyQuakes_in. exists f. auto.
  - apply nearbyQuakes_length.
  - reflexivity.
Qed.

Lemma nearby_no_magnitude_filter_witness :
  ok 200 = true /\
  exists out,
    FeedAgent.Nearby.handler gridDistance nearbyInput dayEnv
      = (inr out, [SummaryFeed "2.5_day.geojson"])
    /\ In (Some (5 # 2))
          (map (fun q => FeedAgent.magnitude (FeedAgent.Nearby.quake q))
             (FeedAgent.Nearby.earthquakes out))
    /\ 5 # 2 < FeedAgent.Nearby.minMagnitude nearbyInput.
Proof.
  split; [reflexivity|].
  destruct (nearby_no_magnitude_filter gridDistance dayEnv nearbyInput
              dayFeed 200 eq_refl eq_refl) as (out & Hrun & Hin & _).
  exists out. split; [exact Hrun|]. split.
  - apply (in_map (fun q => FeedAgent.magnitude (FeedAgent.Nearby.quake q))
             _ _ (Hin (sampleQuake "n0" (Some (5 # 2)) (Some 90%Z) 10 20)
                    ltac:(simpl; tauto) ltac:(vm_compute; discriminate))).
  - reflexivity.
Defined.

(** C8 (as amended): the nearby operation requests the daily feed with
    the highest magnitude floor that is [<= minMagnitude] - the 4.5 feed
    from 4.5 up, the 2.5 feed from 2.5 up to 4.5 - and the 1.0 feed when
    [minMagnitude] is below 2.5; [minMagnitude = 2.5] and
    [minMagnitude = 2.6] select the same feed, [2.4] and [2.5] different
    ones. *)
Theorem nearby_feed_selection :
  forall minMagnitude : Q,
    FeedAgent.Nearby.endpoint minMagnitude = floor_endpoint minMagnitude
    /\ (9 # 2 <= minMagnitude ->
        FeedAgent.Nearby.endpoint minMagnitude = "4.5_day.geojson")
    /\ (5 # 2 <= minMagnitude -> minMagnitude < 9 # 2 ->
        FeedAgent.Nearby.endpoint minMagnitude = "2.5_day.geojson")
    /\ (minMagnitude < 5 # 2 ->
        FeedAgent.Nearby.endpoint minMagnitude = "1.0_day.geojson")
    /\ (forall haversine input env,
          FeedAgent.Nearby.minMagnitude input = minMagnitude ->
          snd (FeedAgent.Nearby.handler haversine input env)
          = [SummaryFeed (FeedAgent.Nearby.endpoint minMagnitude)])
    /\ FeedAgent.Nearby.endpoint (5 # 2) = FeedAgent.Nearby.endpoint (13 # 5)
    /\ FeedAgent.Nearby.endpoint (12 # 5) <> FeedAgent.Nearby.endpoint (5 # 2).
Proof.
  intro m. unfold FeedAgent.Nearby.endpoint, floor_endpoint. simpl.
  repeat split.
  - unfold Qgeb.
    destruct (Qle_bool (9 # 2) m) eqn:E45; [reflexivity|].
    destruct (Qle_bool (5 # 2) m) eqn:E25; [reflexivity|].
    destruct (Qle_bool 1 m); reflexivity.
  - intro H. apply Qgeb_ge in H. now rewrite H.
  - intros H1 H2. apply Qgeb_ge in H1. apply Qgeb_lt in H2. now rewrite H2, H1.
  - intro H. assert (H' : m < 9 # 2) by lra.
    apply Qgeb_lt in H, H'. now rewrite H', H.
  - intros haversine input env <-.
    unfold FeedAgent.Nearby.handler, bind, fetchUSGS, fetchJSON.
    destruct (usgs env _) as [|status body]; [reflexivity|].
    destruct (ok status); [|reflexivity].
    destruct body; reflexivity.
  - discriminate.
Qed.

Lemma nearby_feed_selection_witness :
  5 # 2 <= 13 # 5 /\ 13 # 5 < 9 # 2 /\
  FeedAgent.Nearby.endpoint (13 # 5) = "2.5_day.geojson".
Proof.
  assert (H1 : 5 # 2 <= 13 # 5) by (vm_compute; discriminate).
  assert (H2 : 13 # 5 < 9 # 2) by reflexivity.
  split; [exact H1|]. split; [exact H2|].
  exact (proj1 (proj2 (proj2 (nearby_feed_selection (13 # 5)))) H1 H2).
Defined.

(** C8, as the specification words it: [minMagnitude = 2.5] and
    [minMagnitude = 2.6] do not select different feeds, and at 2.6 the
    feed requested is not the one whose floor is [>= minMagnitude]. *)
Lemma nearby_feed_not_floor_above :
  FeedAgent.Nearby.endpoint (5 # 2) = FeedAgent.Nearby.endpoint (13 # 5)
  /\ FeedAgent.Nearby.endpoint (13 # 5) = "2.5_day.geojson"
  /\ spec_endpoint (13 # 5) = "4.5_day.geojson"
  /\ FeedAgent.Nearby.endpoint (13 # 5) <> spec_endpoint (13 # 5).
Proof. repeat split. discriminate. Qed.

(** ** The regional bounding boxes *)

(** C7: for a region whose box crosses the antimeridian
    ([lonMin > lonMax]) a point belongs to the region exactly when its
    latitude is within [latMin, latMax] and its longitude is [>= lonMin] or
    [<= lonMax], and the regional filter keeps exactly the records that
    satisfy this; for the pacific box (lonMin = 100, lonMax = -100)
    longitudes 170 and -170 are accepted at every latitude of the box and
    longitude 0 is rejected, whereas the ordinary conjunction rejects
    170. *)
Theorem antimeridian_box_membership :
  forall (r : FeedAgent.Report.Region) (lat lon : Q),
    let b := FeedAgent.Report.regionBounds r in
    FeedAgent.Report.lonMax b < FeedAgent.Report.lonMin b ->
    (FeedAgent.Report.inRegion r lat lon = true <->
       (FeedAgent.Report.latMin b <= lat /\ lat <= FeedAgent.Report.latMax b)
       /\ (FeedAgent.Report.lonMin b <= lon \/ lon <= FeedAgent.Report.lonMax b))
    /\ (forall (features : list Feature) (f : Feature),
          In f (FeedAgent.Report.filterByRegion r features) <->
          In f features
          /\ (FeedAgent.Report.latMin b <= f_lat f
              /\ f_lat f <= FeedAgent.Report.latMax b)
          /\ (FeedAgent.Report.lonMin b <= f_lon f
              \/ f_lon f <= FeedAgent.Report.lonMax b))
    /\ r = FeedAgent.Report.pacific
    /\ (- 60 <= lat -> lat <= 60 ->
        FeedAgent.Report.inRegion FeedAgent.Report.pacific lat 170 = true
        /\ FeedAgent.Report.inRegion FeedAgent.Report.pacific lat (- 170) = true)
    /\ FeedAgent.Report.inRegion FeedAgent.Report.pacific lat 0 = false
    /\ Qgeb 170 100 && Qle_bool 170 (- 100) = false.
Proof.
  intros r lat lon b Hcross.
  assert (Hr : r = FeedAgent.Report.pacific).
  { destruct r; trivial; exfalso; revert Hcross; vm_compute; discriminate. }
  subst r. subst b. clear Hcross.
  assert (Hmem : forall la lo,
             FeedAgent.Report.inRegion FeedAgent.Report.pacific la lo = true <->
             (- 60 <= la /\ la <= 60) /\ (100 <= lo \/ lo <= - 100)).
  { intros la lo. unfold FeedAgent.Report.inRegion. simpl.
    rewrite !andb_true_iff, orb_true_iff, !Qgeb_ge, !Qle_bool_iff. tauto. }
  split; [apply Hmem|]. split; [|split; [reflexivity|split; [|split]]].
  - intros features f. unfold FeedAgent.Report.filterByRegion.
    rewrite filter_In.
    split; (intros [H1 H2]; split; [exact H1 | apply Hmem; exact H2]).
  - intros H1 H2. split; apply Hmem.
    + split; [tauto|]. left. vm_compute. discriminate.
    + split; [tauto|]. right. vm_compute. discriminate.
  - destruct (FeedAgent.Report.inRegion FeedAgent.Report.pacific lat 0) eqn:E;
      [|reflexivity].
    apply Hmem in E. destruct E as [_ [E|E]]; exfalso; revert E;
      vm_compute; intro E; now apply E.
  - reflexivity.
Qed.

Lemma antimeridian_box_membership_witness :
  FeedAgent.Report.lonMax (FeedAgent.Report.regionBounds FeedAgent.Report.pacific)
  < FeedAgent.Report.lonMin (FeedAgent.Report.regionBounds FeedAgent.Report.pacific)
  /\ FeedAgent.Report.inRegion FeedAgent.Report.pacific 0 170 = true
  /\ FeedAgent.Report.inRegion FeedAgent.Report.pacific 0 (- 170) = true
  /\ FeedAgent.Report.inRegion FeedAgent.Report.pacific 0 0 = false.
Proof.
  assert (H : FeedAgent.Report.lonMax
                (FeedAgent.Report.regionBounds FeedAgent.Report.pacific)
              < FeedAgent.Report.lonMin
                  (FeedAgent.Report.regionBounds FeedAgent.Report.pacific))
    by reflexivity.
  split; [exact H|].
  destruct (antimeridian_box_membership FeedAgent.Report.pacific 0 170 H)
    as (_ & _ & _ & Hacc & Hrej & _).
  destruct Hacc as [H170 Hm170]; try (vm_compute; discriminate).
  auto.
Defined.

(** ** The Haversine distance *)

(** [haversineDistance] in terms of the four arguments it passes to
    [Math.sin] and [Math.cos]. *)
Lemma haversineDistance_eq (M : MathLib) (lat1 lon1 lat2 lon2 : float)
      (hLat p1 p2 hLon : float) :
  ((lat2 - lat1) * Math_PI / 180 / 2)%float = hLat ->
  (lat1 * Math_PI / 180)%float = p1 ->
  (lat2 * Math_PI / 180)%float = p2 ->
  ((lon2 - lon1) * Math_PI / 180 / 2)%float = hLon ->
  FeedAgent.haversineDistance M lat1 lon1 lat2 lon2
  = (6371 * (2 * Math_atan2 M
       (Math_sqrt (Math_sin M hLat * Math_sin M hLat
                   + Math_cos M p1 * Math_cos M p2
                     * Math_sin M hLon * Math_sin M hLon))
       (Math_sqrt (1 - (Math_sin M hLat * Math_sin M hLat
                        + Math_cos M p1 * Math_cos M p2
                          * Math_sin M hLon * Math_sin M hLon)))))%float.
Proof. intros <- <- <- <-. reflexivity. Qed.

(** C9: evaluated in doubles as the code does, the Haversine distance is
    not symmetric for all points.  Between (8, -179) and (-8, 1), two points
    that are nearly antipodal, with the sine and the cosine of 8 degrees and
    of a quarter turn rounded to the nearest double, [a] is
    [1.0000000000000002], [Math.sqrt(1 - a)] is NaN and
    [haversineDistance] returns NaN in both orders of the points: the two
    distances are not [==] and none is within a tolerance of the other, and
    the [distance <= radiusKm] test of nearby fails for every radius.  The
    distance from (8, -179) to itself is 0 there. *)
Theorem haversine_nan_near_antipodes :
  forall M : MathLib,
    Math_sin M angle8 = sin8 ->
    Math_sin M (- angle8) = (- sin8)%float ->
    Math_cos M angle8 = cos8 ->
    Math_cos M (- angle8) = cos8 ->
    Math_sin M quarterTurn = 1%float ->
    Math_sin M (- quarterTurn) = (-1)%float ->
    Math_sin M 0 = 0%float ->
    Math_atan2 M 0 1 = 0%float ->
    (forall y : float, Math_atan2 M y nan = nan) ->
    let d1 := FeedAgent.haversineDistance M 8 (-179) (-8) 1 in
    let d2 := FeedAgent.haversineDistance M (-8) 1 8 (-179) in
    (Math_sin M (- angle8) * Math_sin M (- angle8)
     + Math_cos M angle8 * Math_cos M (- angle8)
       * Math_sin M quarterTurn * Math_sin M quarterTurn
     = 0x1.0000000000001p+0)%float
    /\ PrimFloat.is_nan d1 = true
    /\ PrimFloat.is_nan d2 = true
    /\ PrimFloat.eqb d1 d2 = false
    /\ (forall radiusKm : float, PrimFloat.leb d1 radiusKm = false)
    /\ FeedAgent.haversineDistance M 8 (-179) 8 (-179) = 0%float.
Proof.
  intros M Hs Hsn Hc Hcn Hq Hqn H0 H01 Hnan d1 d2.
  assert (E1 : d1 = nan).
  { subst d1.
    rewrite (haversineDistance_eq M 8 (-179) (-8) 1
               (- angle8) angle8 (- angle8) quarterTurn)
      by (vm_compute; reflexivity).
    rewrite ?Hs, ?Hsn, ?Hc, ?Hcn, ?Hq.
    match goal with
    | |- context [Math_atan2 M ?y ?x] =>
        replace x with nan by (vm_compute; reflexivity)
    end.
    rewrite Hnan. reflexivity. }
  assert (E2 : d2 = nan).
  { subst d2.
    rewrite (haversineDistance_eq M (-8) 1 8 (-179)
               angle8 (- angle8) angle8 (- quarterTurn))
      by (vm_compute; reflexivity).
    rewrite ?Hs, ?Hsn, ?Hc, ?Hcn, ?Hqn.
    match goal with
    | |- context [Math_atan2 M ?y ?x] =>
        replace x with nan by (vm_compute; reflexivity)
    end.
    rewrite Hnan. reflexivity. }
  split; [rewrite Hsn, Hc, Hcn, Hq; vm_compute; reflexivity|].
  rewrite E1, E2. split; [reflexivity|]. split; [reflexivity|].
  split; [reflexivity|]. split.
  - intro r. rewrite FloatAxioms.leb_spec. reflexivity.
  - rewrite (haversineDistance_eq M 8 (-179) 8 (-179) 0 angle8 angle8 0)
      by (vm_compute; reflexivity).
    rewrite H0, Hc.
    replace (Math_sqrt (0 * 0 + cos8 * cos8 * 0 * 0))%float with 0%float
      by (vm_compute; reflexivity).
    replace (Math_sqrt (1 - (0 * 0 + cos8 * cos8 * 0 * 0)))%float with 1%float
      by (vm_compute; reflexivity).
    rewrite H01. vm_compute. reflexivity.
Qed.

Lemma haversine_nan_near_antipodes_witness :
  PrimFloat.is_nan (FeedAgent.haversineDistance sampleMath 8 (-179) (-8) 1) = true
  /\ PrimFloat.eqb (FeedAgent.haversineDistance sampleMath 8 (-179) (-8) 1)
                   (FeedAgent.haversineDistance sampleMath (-8) 1 8 (-179)) = false.
Proof.
  destruct (haversine_nan_near_antipodes sampleMath)
    as (_ & H1 & _ & H2 & _); try reflexivity.
  split; [exact H1|exact H2].
Defined.

(** ** Joins *)

(** The outcome of a [Task], without its log. *)
Lemma bind_fails {A B} (m : Task A) (k : A -> Task B) (env : Env) (e : Error)
      (log : list Request) :
  m env = (inl e, log) -> bind m k env = (inl e, log).
Proof. intro H. unfold bind. now rewrite H. Qed.

Lemma Promise_all_log {A} (ts : list (Task A)) (env : Env) :
  snd (Promise_all ts env) = flat_map (fun t => snd (t env)) ts.
Proof.
  induction ts as [|t rest IH]; simpl; [reflexivity|].
  destruct (t env) as [r log]. destruct (Promise_all rest env) as [rs log'].
  simpl in *. now rewrite IH.
Qed.

Lemma Promise_all_fails {A} (ts : list (Task A)) (env : Env) :
  Exists (fun t => exists e, fst (t env) = inl e) ts ->
  exists e, fst (Promise_all ts env) = inl e.
Proof.
  induction 1 as [t rest (e & He)|t rest _ (e & IH)]; simpl;
    destruct (t env) as [r log]; destruct (Promise_all rest env) as [rs log'];
    simpl in *.
  - subst r. eauto.
  - subst rs. destruct r; eauto.
Qed.

Lemma Promise_all_ok {A} (ts : list (Task A)) (env : Env) (vs : list A) :
  Forall2 (fun t v => fst (t env) = inr v) ts vs ->
  fst (Promise_all ts env) = inr vs.
Proof.
  induction 1 as [|t v rest vs' Hv _ IH]; simpl; [reflexivity|].
  destruct (t env) as [r log]. destruct (Promise_all rest env) as [rs log'].
  simpl in *. now subst.
Qed.

Lemma fetchJSON_log (r : Request) (env : Env) : snd (fetchJSON r env) = [r].
Proof. reflexivity. Qed.

Lemma fetch_then_log {B} (r : Request) (g : FeatureCollection -> B) (env : Env) :
  snd ((data <- fetchJSON r ;; ret (g data)) env) = [r].
Proof.
  unfold bind. destruct (fetchJSON r env) as [[e|fc] log] eqn:E;
    pose proof (fetchJSON_log r env) as Hl; rewrite E in Hl; simpl in *;
    subst log; reflexivity.
Qed.

Lemma pair_eta {A B} (p : A * B) (a : A) (b : B) :
  fst p = a -> snd p = b -> p = (a, b).
Proof. destruct p. simpl. now intros -> ->. Qed.

Lemma fetchJSON_answers (env : Env) (r : Request) (data : FeatureCollection) :
  answers env r data -> fetchJSON r env = (inr data, [r]).
Proof. intros (status & H & Hok). now apply (fetchJSON_ok _ _ status). Qed.

(** ** compare *)

Section CompareFacts.
Import LocationAgent LocationAgent.Compare.

Let num (f : Feature) : Q := ToNumber (f_mag f).

Lemma maxByMag_invariant (l pre mid : list Feature) (cur : Feature) :
  Forall (fun g => num g < num cur) pre ->
  Forall (fun g => num g <= num cur) mid ->
  exists pre' f post,
    pre ++ cur :: mid ++ l = pre' ++ f :: post
    /\ maxByMag cur l = f
    /\ Forall (fun g => num g < num f) pre'
    /\ Forall (fun g => num g <= num f) post.
Proof.
  revert pre mid cur. induction l as [|x t IH]; intros pre mid cur Hpre Hmid.
  - exists pre, cur, mid. rewrite app_nil_r. auto.
  - unfold maxByMag. simpl. fold (num cur) (num x).
    destruct (Qltb (num cur) (num x)) eqn:E.
    + apply Qltb_lt in E.
      destruct (IH (pre ++ cur :: mid) [] x) as (pre' & f & post & H1 & H2 & H3 & H4).
      * apply Forall_app. split.
        -- eapply Forall_impl; [|exact Hpre]. simpl. intros g Hg. lra.
        -- constructor; [exact E|].
           eapply Forall_impl; [|exact Hmid]. simpl. intros g Hg. lra.
      * constructor.
      * exists pre', f, post. repeat split; trivial.
        rewrite <- H1. simpl. now rewrite <- !app_assoc.
    + apply Qltb_ge in E.
      destruct (IH pre (mid ++ [x]) cur) as (pre' & f & post & H1 & H2 & H3 & H4).
      * exact Hpre.
      * apply Forall_app. split; [exact Hmid|]. now constructor.
      * exists pre', f, post. repeat split; trivial.
        rewrite <- H1. now rewrite <- !app_assoc.
Qed.

Lemma largest_first_max (features : list Feature) :
  features <> [] ->
  exists pre f post,
    features = pre ++ f :: post
    /\ largest features = Some (formatQuake f)
    /\ (forall first rest, features = first :: rest -> maxByMag first rest = f)
    /\ Forall (fun g => num g < num f) pre
    /\ Forall (fun g => num g <= num f) post.
Proof.
  destruct features as [|first rest]; [congruence|]. intros _.
  destruct (maxByMag_invariant rest [] [] first) as (pre & f & post & H1 & H2 & H3 & H4);
    try constructor.
  exists pre, f, post. repeat split; trivial.
  - unfold largest. f_equal. f_equal. rewrite <- H2.
    unfold maxByMag. simpl.
    assert (E : Qltb (ToNumber (f_mag first)) (ToNumber (f_mag first)) = false)
      by (apply Qltb_ge; lra).
    now rewrite E.
  - intros first' rest' E. now injection E as <- <-.
Qed.

Lemma totalQuakes_comparefn (a b : RegionResult) :
  0 < inject_Z (totalQuakes (stats b) - totalQuakes (stats a))
  <-> inject_Z (- totalQuakes (stats b)) < inject_Z (- totalQuakes (stats a)).
Proof. rewrite <- (Zlt_Qlt 0), <- Zlt_Qlt. lia. Qed.

Lemma ranked_sorted (results : list RegionResult) :
  StronglySorted
    (fun a b => (totalQuakes (stats b) <= totalQuakes (stats a))%Z)
    (ranked results).
Proof.
  unfold ranked.
  eapply StronglySorted_weaken;
    [|apply (sort_sorted _ (fun r => inject_Z (- totalQuakes (stats r))));
      apply totalQuakes_comparefn].
  simpl. intros a b H. rewrite <- Zle_Qle in H. lia.
Qed.

Lemma ranked_perm (results : list RegionResult) :
  Permutation (ranked results) results.
Proof. apply sort_perm. Qed.

Lemma last_cons {A} (t : list A) (a b : A) : last (b :: t) a = last t b.
Proof.
  revert a b. induction t as [|c t IH]; intros a b; [reflexivity|].
  change (last (b :: c :: t) a) with (last (c :: t) a).
  now rewrite (IH a c), (IH b c).
Qed.

Lemma in_last {A} (t : list A) (b : A) : In (last t b) (b :: t).
Proof.
  revert b. induction t as [|c t IH]; intro b; [now left|].
  rewrite last_cons. right. apply IH.
Qed.

Lemma StronglySorted_last {A} (R : A -> A -> Prop) (a : A) (l : list A) (x : A) :
  StronglySorted R (a :: l) -> In x (a :: l) ->
  x = last l a \/ R x (last l a).
Proof.
  revert a. induction l as [|b t IH]; intros a Hs Hx.
  - destruct Hx as [->|[]]. now left.
  - rewrite last_cons.
    inversion Hs as [|? ? Hs' Ha]; subst.
    destruct Hx as [->|Hx].
    + right. rewrite Forall_forall in Ha. apply Ha, in_last.
    + now apply IH.
Qed.

Lemma rankingOf_extremes (results : list RegionResult) :
  results <> [] ->
  exists rk most least,
    rankingOf results = inr rk
    /\ In most results /\ In least results
    /\ mostActive rk = region most
    /\ leastActive rk = region least
    /\ Forall (fun r => (totalQuakes (stats r) <= totalQuakes (stats most))%Z) results
    /\ Forall (fun r => (totalQuakes (stats least) <= totalQuakes (stats r))%Z) results
    /\ byTotalQuakes rk
       = map (fun r => (region r, totalQuakes (stats r))) (ranked results).
Proof.
  intro Hne. unfold rankingOf.
  pose proof (ranked_sorted results) as Hs.
  pose proof (ranked_perm results) as Hp.
  destruct (ranked results) as [|first rest] eqn:E.
  - apply Permutation_nil in Hp. congruence.
  - eexists. exists first, (last rest first). split; [reflexivity|]. simpl.
    pose proof (in_last rest first) as Hlast.
    repeat split.
    + apply (Permutation_in _ Hp). now left.
    + apply (Permutation_in _ Hp). exact Hlast.
    + rewrite Forall_forall. intros r Hr.
      apply (Permutation_in _ (Permutation_sym Hp)) in Hr.
      inversion Hs as [|? ? _ Hfirst]; subst.
      destruct Hr as [<-|Hr]; [lia|].
      rewrite Forall_forall in Hfirst. now apply Hfirst.
    + rewrite Forall_forall. intros r Hr.
      apply (Permutation_in _ (Permutation_sym Hp)) in Hr.
      destruct (StronglySorted_last _ _ _ _ Hs Hr) as [->|H]; [lia|exact H].
Qed.

Lemma region_fanout_ok (env : Env) (minMag : Q) (t : Z)
      (rs : list Region) (datas : list FeatureCollection) :
  Forall2 (fun r data => answers env (url r minMag t) data) rs datas ->
  Promise_all
    (map (fun r => data <- fetchJSON (url r minMag t) ;; ret (regionResult r data)) rs)
    env
  = (inr (map (fun p => regionResult (fst p) (snd p)) (combine rs datas)),
     map (fun r => url r minMag t) rs).
Proof.
  induction 1 as [|r data rs' datas' Hr _ IH]; simpl; [reflexivity|].
  rewrite IH. unfold bind at 1. rewrite (fetchJSON_answers _ _ _ Hr).
  reflexivity.
Qed.

Lemma region_fanout_fails (env : Env) (minMag : Q) (t : Z) (rs : list Region) :
  Exists (fun r => fails env (url r minMag t)) rs ->
  exists e,
    Promise_all
      (map (fun r => data <- fetchJSON (url r minMag t) ;; ret (regionResult r data)) rs)
      env
    = (inl e, map (fun r => url r minMag t) rs).
Proof.
  intro H.
  destruct (Promise_all_fails
              (map (fun r => data <- fetchJSON (url r minMag t) ;;
                             ret (regionResult r data)) rs) env) as [e He].
  - apply Exists_exists in H. destruct H as (r & Hr & Hf).
    apply Exists_exists. eexists. split; [apply in_map, Hr|].
    destruct (fetchJSON_fails _ _ Hf) as [e He]. exists e.
    unfold bind. now rewrite He.
  - exists e. apply pair_eta; [exact He|].
    rewrite Promise_all_log. clear. induction rs as [|r rs IH]; simpl; [reflexivity|].
    now rewrite fetch_then_log, IH.
Qed.

End CompareFacts.

Section CompareStats.
Import LocationAgent LocationAgent.Compare.

Lemma Math_max_maxByMag (l : list Feature) (cur : Feature) :
  Math_max (ToNumber (f_mag cur)) (map (fun f => ToNumber (f_mag f)) l)
  = ToNumber (f_mag (maxByMag cur l)).
Proof.
  unfold Math_max, maxByMag. revert cur.
  induction l as [|x t IH]; intro cur; simpl; [reflexivity|].
  unfold Qmax at 2.
  destruct (Qltb (ToNumber (f_mag cur)) (ToNumber (f_mag x))); apply IH.
Qed.

Lemma filter_map_length {A B} (g : A -> B) (p : B -> bool) (l : list A) :
  List.length (filter p (map g l)) = List.length (filter (fun x => p (g x)) l).
Proof.
  induction l as [|x t IH]; simpl; [reflexivity|].
  destruct (p (g x)); simpl; now rewrite IH.
Qed.

Lemma regionResult_stats (r : Region) (data : FeatureCollection) :
  let res := regionResult r data in
  let m := fun g : Feature => ToNumber (f_mag g) in
  region res = name r
  /\ totalQuakes (stats res) = GeoJSON.count data
  /\ (GeoJSON.features data = [] ->
      averageMagnitude (stats res) = 0%float
      /\ maxMagnitude (stats res) = 0
      /\ topQuake res = None)
  /\ quakesAbove4 (stats res)
     = List.length (filter (fun g => Qle_bool 4 (m g)) (GeoJSON.features data))
  /\ quakesAbove5 (stats res)
     = List.length (filter (fun g => Qle_bool 5 (m g)) (GeoJSON.features data))
  /\ (GeoJSON.features data <> [] ->
      exists pre f post,
        GeoJSON.features data = pre ++ f :: post
        /\ topQuake res = Some (formatQuake f)
        /\ maxMagnitude (stats res) = m f
        /\ Forall (fun g => m g < m f) pre
        /\ Forall (fun g => m g <= m f) post).
Proof.
  intros res m. subst res. unfold regionResult. simpl.
  split; [reflexivity|]. split; [reflexivity|]. split; [|split; [|split]].
  - intros ->. simpl. repeat split.
  - unfold magnitudesOf. apply filter_map_length.
  - unfold magnitudesOf. apply filter_map_length.
  - intro Hne.
    destruct (largest_first_max _ Hne) as (pre & f & post & H1 & H2 & Hf & H3 & H4).
    exists pre, f, post. repeat split; trivial.
    destruct (GeoJSON.features data) as [|first rest] eqn:E; [congruence|].
    unfold magnitudesOf, maxMag. simpl map. cbv iota beta.
    rewrite Math_max_maxByMag. subst m. simpl.
    now rewrite (Hf first rest eq_refl).
Qed.

Lemma ranking_5_3_3_0 (results : list RegionResult) :
  map (fun r => totalQuakes (stats r)) results = [5; 3; 3; 0]%Z ->
  exists r1 r2 r3 r4,
    results = [r1; r2; r3; r4]
    /\ rankingOf results
       = inr {| mostActive := region r1;
                leastActive := region r4;
                byTotalQuakes := [(region r1, 5%Z); (region r2, 3%Z);
                                  (region r3, 3%Z); (region r4, 0%Z)] |}.
Proof.
  intro H.
  destruct results as [|r1 [|r2 [|r3 [|r4 [|r5 rest]]]]]; try discriminate.
  exists r1, r2, r3, r4. split; [reflexivity|].
  destruct r1 as [n1 c1 d1 [t1 a1 m1 x1 y1] q1],
           r2 as [n2 c2 d2 [t2 a2 m2 x2 y2] q2],
           r3 as [n3 c3 d3 [t3 a3 m3 x3 y3] q3],
           r4 as [n4 c4 d4 [t4 a4 m4 x4 y4] q4].
  simpl in H. injection H as -> -> -> ->. reflexivity.
Qed.

(** The mean of a region with records: the doubles of the magnitudes added
    from the left, starting from 0, divided by their number, rendered with
    two decimals and read back. *)
Lemma regionResult_mean (r : Region) (data : FeatureCollection) :
  GeoJSON.features data <> [] ->
  averageMagnitude (stats (regionResult r data))
  = Number_ofString
      (toFixed2
         (PrimFloat.div
            (fold_left PrimFloat.add
               (map (fun g => Number_ofQ (ToNumber (f_mag g))) (GeoJSON.features data))
               0%float)
            (Number_ofLength (List.length (GeoJSON.features data))))).
Proof.
  intro Hne. unfold regionResult. simpl. unfold magnitudesOf, avgMag, sum.
  rewrite map_map, length_map.
  destruct (GeoJSON.features data) as [|f l]; [congruence|]. reflexivity.
Qed.

End CompareStats.

(** C4: for 2 to 5 regions whose queries the upstream answers, the compare
    operation returns one result per region, in order; a region's result
    has mean magnitude 0 and maximum magnitude 0 when its record list is
    empty (and then no top quake); when it has records its mean magnitude
    is the mean the code computes in doubles: the magnitudes added from the
    left, starting from 0, divided by their number, and the quotient rounded
    to two decimals ([3, 5, 4, 5, 3] give 4, [3, 4, 3] give 3.33 and
    [1, 1.01] give 1, the double quotient being just below 1.005); the
    result counts the records of magnitude [>= 4] and [>= 5], and has as top
    quake the first record of maximal magnitude, which is also the maximum
    magnitude reported; the ranking
    lists the regions by total quake count, descending, [mostActive] being a
    region of highest count and [leastActive] one of lowest count; counts
    [5, 3, 3, 0] rank the first region most active and the fourth least
    active. *)
Theorem compare_statistics_and_ranking :
  forall (env : Env) (input : LocationAgent.Compare.Input)
         (datas : list FeatureCollection),
    (2 <= List.length (LocationAgent.Compare.regions input) <= 5)%nat ->
    Forall2
      (fun r data =>
         answers env
           (LocationAgent.Compare.url r (LocationAgent.Compare.minMagnitude input)
              (now env)) data)
      (LocationAgent.Compare.regions input) datas ->
    let m := fun g : Feature => ToNumber (f_mag g) in
    let total := fun r => LocationAgent.Compare.totalQuakes (LocationAgent.Compare.stats r) in
    exists out,
      LocationAgent.Compare.handler input env
        = (inr out, LocationAgent.Compare.requests input (now env))
      /\ LocationAgent.Compare.comparison out
         = map (fun p => LocationAgent.Compare.regionResult (fst p) (snd p))
             (combine (LocationAgent.Compare.regions input) datas)
      /\ (forall r data,
            let res := LocationAgent.Compare.regionResult r data in
            let st := LocationAgent.Compare.stats res in
            total res = GeoJSON.count data
            /\ (GeoJSON.features data = [] ->
                LocationAgent.Compare.averageMagnitude st = 0%float
                /\ LocationAgent.Compare.maxMagnitude st = 0
                /\ LocationAgent.Compare.topQuake res = None)
            /\ (GeoJSON.features data <> [] ->
                LocationAgent.Compare.averageMagnitude st
                = Number_ofString
                    (toFixed2
                       (PrimFloat.div
                          (fold_left PrimFloat.add
                             (map (fun g => Number_ofQ (m g)) (GeoJSON.features data))
                             0%float)
                          (Number_ofLength (List.length (GeoJSON.features data))))))
            /\ LocationAgent.Compare.quakesAbove4 st
               = List.length (filter (fun g => Qle_bool 4 (m g)) (GeoJSON.features data))
            /\ LocationAgent.Compare.quakesAbove5 st
               = List.length (filter (fun g => Qle_bool 5 (m g)) (GeoJSON.features data))
            /\ (GeoJSON.features data <> [] ->
                exists pre f post,
                  GeoJSON.features data = pre ++ f :: post
                  /\ LocationAgent.Compare.topQuake res
                     = Some (LocationAgent.formatQuake f)
                  /\ LocationAgent.Compare.maxMagnitude st = m f
                  /\ Forall (fun g => m g < m f) pre
                  /\ Forall (fun g => m g <= m f) post))
      /\ (forall r,
            let mean := fun ms =>
              LocationAgent.Compare.averageMagnitude
                (LocationAgent.Compare.stats
                   (LocationAgent.Compare.regionResult r (sampleMags ms))) in
            mean [3; 5; 4; 5; 3] = 4%float
            /\ mean [3; 4; 3] = Number_ofQ (333 # 100)
            /\ mean [1; 101 # 100] = 1%float
            /\ mean [61 # 10; 47 # 10] = Number_ofQ (54 # 10))
      /\ (exists most least,
            In most (LocationAgent.Compare.comparison out)
            /\ In least (LocationAgent.Compare.comparison out)
            /\ LocationAgent.Compare.mostActive (LocationAgent.Compare.ranking out)
               = LocationAgent.Compare.region most
            /\ LocationAgent.Compare.leastActive (LocationAgent.Compare.ranking out)
               = LocationAgent.Compare.region least
            /\ Forall (fun r => (total r <= total most)%Z)
                 (LocationAgent.Compare.comparison out)
            /\ Forall (fun r => (total least <= total r)%Z)
                 (LocationAgent.Compare.comparison out))
      /\ StronglySorted (fun a b => (snd b <= snd a)%Z)
           (LocationAgent.Compare.byTotalQuakes (LocationAgent.Compare.ranking out))
      /\ Permutation
           (LocationAgent.Compare.byTotalQuakes (LocationAgent.Compare.ranking out))
           (map (fun r => (LocationAgent.Compare.region r, total r))
              (LocationAgent.Compare.comparison out))
      /\ (forall results,
            map total results = [5; 3; 3; 0]%Z ->
            exists r1 r2 r3 r4,
              results = [r1; r2; r3; r4]
              /\ LocationAgent.Compare.rankingOf results
                 = inr {| LocationAgent.Compare.mostActive :=
                            LocationAgent.Compare.region r1;
                          LocationAgent.Compare.leastActive :=
                            LocationAgent.Compare.region r4;
                          LocationAgent.Compare.byTotalQuakes :=
                            [(LocationAgent.Compare.region r1, 5%Z);
                             (LocationAgent.Compare.region r2, 3%Z);
                             (LocationAgent.Compare.region r3, 3%Z);
                             (LocationAgent.Compare.region r4, 0%Z)] |}).
Proof.
  intros env input datas Hlen Hans m total.
  set (results := map (fun p => LocationAgent.Compare.regionResult (fst p) (snd p))
                    (combine (LocationAgent.Compare.regions input) datas)).
  assert (Hne : results <> []).
  { subst results. pose proof (Forall2_length Hans) as Hl.
    destruct (LocationAgent.Compare.regions input) as [|r rs];
      [simpl in Hlen; lia|].
    destruct datas as [|d ds]; [discriminate|]. discriminate. }
  destruct (rankingOf_extremes results Hne)
    as (rk & most & least & Hrk & Hmost & Hleast & Hm & Hl & Hmax & Hmin & Hby).
  exists {| LocationAgent.Compare.periodDays := 7;
            LocationAgent.Compare.out_minMagnitude :=
              LocationAgent.Compare.minMagnitude input;
            LocationAgent.Compare.comparison := results;
            LocationAgent.Compare.ranking := rk;
            LocationAgent.Compare.fetchedAt := toISOString (now env) |}.
  simpl. split; [|split; [reflexivity|split; [|split; [|split; [|split; [|split]]]]]].
  - unfold LocationAgent.Compare.handler, bind at 1, Date_now.
    unfold bind at 1.
    rewrite (region_fanout_ok env _ _ _ _ Hans). fold results. rewrite Hrk.
    simpl. unfold LocationAgent.Compare.requests. now rewrite app_nil_r.
  - intros r data.
    destruct (regionResult_stats r data) as (_ & H1 & H2 & H3 & H4 & H5).
    split; [exact H1|]. split; [exact H2|].
    split; [exact (regionResult_mean r data)|].
    split; [exact H3|]. split; [exact H4|exact H5].
  - intro r. repeat split; vm_compute; reflexivity.
  - exists most, least. repeat split; trivial.
  - rewrite Hby. apply StronglySorted_map. simpl. apply ranked_sorted.
  - rewrite Hby. apply Permutation_map, ranked_perm.
  - apply ranking_5_3_3_0.
Qed.

Lemma compare_statistics_and_ranking_witness :
  (2 <= List.length (LocationAgent.Compare.regions compareInput) <= 5)%nat /\
  exists out,
    fst (LocationAgent.Compare.handler compareInput compareEnv) = inr out
    /\ LocationAgent.Compare.byTotalQuakes (LocationAgent.Compare.ranking out)
       = [("A", 5%Z); ("B", 3%Z); ("C", 3%Z); ("D", 0%Z)]
    /\ LocationAgent.Compare.mostActive (LocationAgent.Compare.ranking out) = "A"
    /\ LocationAgent.Compare.leastActive (LocationAgent.Compare.ranking out) = "D"
    /\ map (fun r => LocationAgent.Compare.maxMagnitude (LocationAgent.Compare.stats r))
         (LocationAgent.Compare.comparison out)
       = [5; 4; 6; 0]
    /\ map (fun r => LocationAgent.Compare.averageMagnitude (LocationAgent.Compare.stats r))
         (LocationAgent.Compare.comparison out)
       = [4%float; Number_ofQ (333 # 100); 4%float; 0%float].
Proof.
  assert (Hlen : (2 <= List.length (LocationAgent.Compare.regions compareInput) <= 5)%nat)
    by (simpl; lia).
  split; [exact Hlen|].
  destruct (compare_statistics_and_ranking compareEnv compareInput compareFeeds Hlen)
    as (out & Hrun & _).
  - repeat constructor; exists 200%Z; split; reflexivity.
  - exists out. rewrite Hrun. split; [reflexivity|].
    vm_compute in Hrun. injection Hrun as <-. repeat split.
Defined.

(** ** Failure of a fan-out *)

Lemma fixed_fanout_fails (env : Env) (rs : list Request) :
  Exists (fails env) rs ->
  exists e, Promise_all (map fetchJSON rs) env = (inl e, rs).
Proof.
  intro H.
  destruct (Promise_all_fails (map fetchJSON rs) env) as [e He].
  - apply Exists_exists in H. destruct H as (r & Hr & Hf).
    apply Exists_exists. exists (fetchJSON r). split; [now apply in_map|].
    destruct (fetchJSON_fails _ _ Hf) as [e He]. exists e. now rewrite He.
  - exists e. apply pair_eta; [exact He|].
    rewrite Promise_all_log. clear. induction rs as [|r rs IH]; simpl; [reflexivity|].
    now rewrite IH.
Qed.

(** C5: in every operation that joins several upstream fetches - the
    region queries of compare, the four queries of the location report, the
    feeds of the two overviews and of the regional report - if one of the
    fetches fails (the upstream is unreachable or answers with a
    non-success status) the operation fails: it yields an error and no
    output, after all the fetches of the batch were issued. *)
Theorem fanout_fails_whole_operation :
  forall env : Env,
    (forall input,
        Exists (fails env) (LocationAgent.Compare.requests input (now env)) ->
        exists e, LocationAgent.Compare.handler input env
                  = (inl e, LocationAgent.Compare.requests input (now env)))
    /\ (forall input,
           Exists (fails env) (LocationAgent.Report.requests input (now env)) ->
           exists e, LocationAgent.Report.handler input env
                     = (inl e, LocationAgent.Report.requests input (now env)))
    /\ (Exists (fails env) LocationAgent.Overview.requests ->
        exists e, LocationAgent.Overview.handler env
                  = (inl e, LocationAgent.Overview.requests))
    /\ (Exists (fails env) FeedAgent.Overview.requests ->
        exists e, FeedAgent.Overview.handler env
                  = (inl e, FeedAgent.Overview.requests))
    /\ (forall input,
           Exists (fails env) FeedAgent.Report.requests ->
           exists e, FeedAgent.Report.handler input env
                     = (inl e, FeedAgent.Report.requests)).
Proof.
  intro env. split; [|split; [|split; [|split]]].
  - intros input H.
    unfold LocationAgent.Compare.requests in *.
    assert (H' : Exists (fun r => fails env
                           (LocationAgent.Compare.url r
                              (LocationAgent.Compare.minMagnitude input) (now env)))
                   (LocationAgent.Compare.regions input)).
    { apply Exists_exists in H. destruct H as (q & Hq & Hf).
      apply in_map_iff in Hq. destruct Hq as (r & <- & Hr).
      apply Exists_exists. eauto. }
    destruct (region_fanout_fails env _ _ _ H') as [e He].
    exists e. unfold LocationAgent.Compare.handler, bind at 1, Date_now.
    now rewrite (bind_fails _ _ _ _ _ He).
  - intros input H.
    destruct (fixed_fanout_fails env _ H) as [e He].
    exists e. unfold LocationAgent.Report.handler, bind at 1, Date_now.
    now rewrite (bind_fails _ _ _ _ _ He).
  - intro H. destruct (fixed_fanout_fails env _ H) as [e He].
    exists e. unfold LocationAgent.Overview.handler.
    now rewrite (bind_fails _ _ _ _ _ He).
  - intro H. destruct (fixed_fanout_fails env _ H) as [e He].
    exists e. unfold FeedAgent.Overview.handler.
    now rewrite (bind_fails _ _ _ _ _ He).
  - intros input H. destruct (fixed_fanout_fails env _ H) as [e He].
    exists e. unfold FeedAgent.Report.handler.
    now rewrite (bind_fails _ _ _ _ _ He).
Qed.

Lemma fanout_fails_whole_operation_witness :
  Exists (fails outageEnv) (LocationAgent.Compare.requests compareInput (now outageEnv))
  /\ fst (LocationAgent.Compare.handler compareInput outageEnv)
     = inl (USGSApiError 503).
Proof.
  assert (H : Exists (fails outageEnv)
                (LocationAgent.Compare.requests compareInput (now outageEnv))).
  { apply Exists_cons_tl, Exists_cons_tl, Exists_cons_hd. reflexivity. }
  split; [exact H|].
  destruct (proj1 (fanout_fails_whole_operation outageEnv) compareInput H) as [e He].
  rewrite He. vm_compute in He. injection He as <-. reflexivity.
Defined.

(** ** The location report *)

Lemma report_handler_assessment (env : Env) (input : LocationAgent.Report.Input)
      (n50 n250 n500 significant : FeatureCollection) :
  Forall2 (answers env) (LocationAgent.Report.requests input (now env))
    [n50; n250; n500; significant] ->
  exists out,
    LocationAgent.Report.handler input env
      = (inr out, LocationAgent.Report.requests input (now env))
    /\ LocationAgent.Report.riskAssessment out
       = LocationAgent.Report.assess n50 n250 n500.
Proof.
  intro H. unfold LocationAgent.Report.requests in *. cbv zeta in H.
  apply Forall2_cons_iff in H. destruct H as [H1 H].
  apply Forall2_cons_iff in H. destruct H as [H2 H].
  apply Forall2_cons_iff in H. destruct H as [H3 H].
  apply Forall2_cons_iff in H. destruct H as [H4 _].
  eexists. split.
  - unfold LocationAgent.Report.handler, bind at 1, Date_now.
    unfold bind, Promise_all.
    rewrite (fetchJSON_answers _ _ _ H1), (fetchJSON_answers _ _ _ H2),
      (fetchJSON_answers _ _ _ H3), (fetchJSON_answers _ _ _ H4).
    simpl. reflexivity.
  - reflexivity.
Qed.

(** ** Validation *)

Lemma parsed_issues {Input : Type} (issues : list string) (input : Input)
      (field : string) :
  In field issues -> parsed issues input = inl issues.
Proof. destruct issues; [intros []|reflexivity]. Qed.

Lemma issue_invalid (path : string) : In path (issue path false).
Proof. now left. Qed.

Lemma inRange_out (lo hi x : Q) : x < lo \/ hi < x -> inRange lo hi x = false.
Proof.
  intro H. unfold inRange. apply andb_false_iff.
  destruct H as [H|H]; [left|right]; now apply Qgeb_lt.
Qed.

(** C6: a search whose [radiusKm] is below 1 or above 20000, and a compare
    with fewer than 2 or more than 5 regions, fail with a validation error
    that names the offending field, and no upstream request is issued. *)
Theorem validation_before_fetch :
  forall env : Env,
    (forall (raw : LocationAgent.Search.Raw) (r : Q),
        LocationAgent.Search.raw_radiusKm raw = Some r ->
        r < 1 \/ 20000 < r ->
        exists fields,
          LocationAgent.Search.entrypoint raw env
            = (inl (ValidationError fields), [])
          /\ In "radiusKm" fields)
    /\ (forall raw : LocationAgent.Compare.Raw,
           (List.length (LocationAgent.Compare.raw_regions raw) < 2
            \/ 5 < List.length (LocationAgent.Compare.raw_regions raw))%nat ->
           exists fields,
             LocationAgent.Compare.entrypoint raw env
               = (inl (ValidationError fields), [])
             /\ In "regions" fields).
Proof.
  intro env. split.
  - intros raw r Hr Hout.
    unfold LocationAgent.Search.entrypoint, invoke, LocationAgent.Search.schema.
    match goal with
    | |- context [parsed ?issues ?input] =>
        assert (Hin : In "radiusKm" issues)
    end.
    { rewrite Hr. simpl issueOpt. rewrite (inRange_out _ _ _ Hout).
      apply in_or_app; right. apply in_or_app; right.
      apply in_or_app; left. apply issue_invalid. }
    rewrite (parsed_issues _ _ _ Hin). eexists. split; [reflexivity|exact Hin].
  - intros raw Hlen.
    unfold LocationAgent.Compare.entrypoint, invoke, LocationAgent.Compare.schema.
    match goal with
    | |- context [parsed ?issues ?input] =>
        assert (Hin : In "regions" issues)
    end.
    { apply in_or_app; right. apply in_or_app; left.
      replace ((2 <=? List.length (LocationAgent.Compare.raw_regions raw))%nat
               && (List.length (LocationAgent.Compare.raw_regions raw) <=? 5)%nat)
        with false; [apply issue_invalid|].
      symmetry. apply andb_false_iff.
      destruct Hlen as [H|H]; [left|right]; apply Nat.leb_gt; lia. }
    rewrite (parsed_issues _ _ _ Hin). eexists. split; [reflexivity|exact Hin].
Qed.

Lemma validation_before_fetch_witness :
  (0 < 1 \/ 20000 < 0)
  /\ LocationAgent.Search.entrypoint (searchRaw 0) compareEnv
     = (inl (ValidationError ["radiusKm"]), [])
  /\ LocationAgent.Search.entrypoint (searchRaw 25000) compareEnv
     = (inl (ValidationError ["radiusKm"]), [])
  /\ LocationAgent.Compare.entrypoint (compareRaw 1) compareEnv
     = (inl (ValidationError ["regions"]), [])
  /\ LocationAgent.Compare.entrypoint (compareRaw 6) compareEnv
     = (inl (ValidationError ["regions"]), []).
Proof.
  assert (H0 : 0 < 1 \/ 20000 < 0) by (left; reflexivity).
  assert (H25 : 25000 < 1 \/ 20000 < 25000) by (right; reflexivity).
  split; [exact H0|].
  destruct (validation_before_fetch compareEnv) as [Hs Hc].
  destruct (Hs (searchRaw 0) 0 eq_refl H0) as (f0 & E0 & _).
  destruct (Hs (searchRaw 25000) 25000 eq_refl H25) as (f25 & E25 & _).
  destruct (Hc (compareRaw 1) ltac:(left; simpl; lia)) as (f1 & E1 & _).
  destruct (Hc (compareRaw 6) ltac:(right; simpl; lia)) as (f6 & E6 & _).
  rewrite E0, E25, E1, E6.
  vm_compute in E0, E25, E1, E6.
  injection E0 as <-. injection E25 as <-. injection E1 as <-. injection E6 as <-.
  repeat split.
Defined.

(* ================================================================== *)
(** * Further properties of the handlers *)

(** ** Schemas *)

Lemma inRange_iff (lo hi x : Q) : inRange lo hi x = true <-> lo <= x /\ x <= hi.
Proof. unfold inRange. now rewrite andb_true_iff, !Qle_bool_iff. Qed.

Lemma issue_nil (path : string) (valid : bool) : issue path valid = [] <-> valid = true.
Proof. destruct valid; simpl; split; intro H; trivial; discriminate. Qed.

Lemma issueOpt_nil (path : string) (lo hi : Q) (v : option Q) :
  issueOpt path lo hi v = [] <-> withinOpt lo hi v.
Proof.
  destruct v as [x|]; simpl.
  - now rewrite issue_nil, inRange_iff.
  - tauto.
Qed.

Lemma app_nil_iff {A} (l1 l2 : list A) : l1 ++ l2 = [] <-> l1 = [] /\ l2 = [].
Proof.
  split.
  - apply app_eq_nil.
  - now intros [-> ->].
Qed.

Lemma parsed_inr {Input : Type} (issues : list string) (input i : Input) :
  parsed issues input = inr i <-> issues = [] /\ i = input.
Proof.
  destruct issues; simpl; split.
  - intro H. injection H as <-. auto.
  - now intros [_ ->].
  - discriminate.
  - intros [H _]. discriminate.
Qed.

Lemma withinOpt_default (lo hi d : Q) (v : option Q) :
  lo <= d -> d <= hi -> withinOpt lo hi v ->
  lo <= default d v /\ default d v <= hi.
Proof. destruct v; simpl; tauto. Qed.

(** X1: the search schema accepts an input exactly when latitude,
    longitude and every optional field that is present are within their
    range; the parsed input carries the defaults (radius 500, minimum
    magnitude 2.5, 7 days, limit 20) and all its bounded fields are within
    range. *)
Theorem search_schema_accepts_iff :
  forall raw : LocationAgent.Search.Raw,
    ((exists input, LocationAgent.Search.schema raw = inr input) <->
       (- 90 <= LocationAgent.Search.raw_latitude raw
        /\ LocationAgent.Search.raw_latitude raw <= 90)
       /\ (- 180 <= LocationAgent.Search.raw_longitude raw
           /\ LocationAgent.Search.raw_longitude raw <= 180)
       /\ withinOpt 1 20000 (LocationAgent.Search.raw_radiusKm raw)
       /\ withinOpt 0 10 (LocationAgent.Search.raw_minMagnitude raw)
       /\ withinOpt 0 10 (LocationAgent.Search.raw_maxMagnitude raw)
       /\ withinOpt 1 30 (LocationAgent.Search.raw_daysBack raw)
       /\ withinOpt 1 100 (LocationAgent.Search.raw_limit raw))
    /\ (forall input,
          LocationAgent.Search.schema raw = inr input ->
          LocationAgent.Search.radiusKm input
            = default 500 (LocationAgent.Search.raw_radiusKm raw)
          /\ LocationAgent.Search.minMagnitude input
             = default (5 # 2) (LocationAgent.Search.raw_minMagnitude raw)
          /\ LocationAgent.Search.maxMagnitude input
             = LocationAgent.Search.raw_maxMagnitude raw
          /\ LocationAgent.Search.daysBack input
             = default 7 (LocationAgent.Search.raw_daysBack raw)
          /\ LocationAgent.Search.limit input
             = default 20 (LocationAgent.Search.raw_limit raw)
          /\ (1 <= LocationAgent.Search.radiusKm input
              /\ LocationAgent.Search.radiusKm input <= 20000)
          /\ (0 <= LocationAgent.Search.minMagnitude input
              /\ LocationAgent.Search.minMagnitude input <= 10)
          /\ (1 <= LocationAgent.Search.daysBack input
              /\ LocationAgent.Search.daysBack input <= 30)
          /\ (1 <= LocationAgent.Search.limit input
              /\ LocationAgent.Search.limit input <= 100)).
Proof.
  intro raw.
  assert (Hiff : forall input,
             LocationAgent.Search.schema raw = inr input ->
             (- 90 <= LocationAgent.Search.raw_latitude raw
              /\ LocationAgent.Search.raw_latitude raw <= 90)
             /\ (- 180 <= LocationAgent.Search.raw_longitude raw
                 /\ LocationAgent.Search.raw_longitude raw <= 180)
             /\ withinOpt 1 20000 (LocationAgent.Search.raw_radiusKm raw)
             /\ withinOpt 0 10 (LocationAgent.Search.raw_minMagnitude raw)
             /\ withinOpt 0 10 (LocationAgent.Search.raw_maxMagnitude raw)
             /\ withinOpt 1 30 (LocationAgent.Search.raw_daysBack raw)
             /\ withinOpt 1 100 (LocationAgent.Search.raw_limit raw)).
  { intros input H. unfold LocationAgent.Search.schema in H.
    apply parsed_inr in H. destruct H as [H _].
    rewrite !app_nil_iff, !issue_nil, !issueOpt_nil, !inRange_iff in H. tauto. }
  split; [split|].
  - intros [input H]. exact (Hiff input H).
  - intro H. eexists. unfold LocationAgent.Search.schema.
    apply parsed_inr. split; [|reflexivity].
    rewrite !app_nil_iff, !issue_nil, !issueOpt_nil, !inRange_iff. tauto.
  - intros input H. pose proof (Hiff input H) as (_ & _ & Hr & Hm & _ & Hd & Hl).
    unfold LocationAgent.Search.schema in H.
    apply parsed_inr in H. destruct H as [_ ->]. simpl.
    assert (Q1 : forall lo hi d v, Qle_bool lo d = true -> Qle_bool d hi = true ->
                 withinOpt lo hi v -> lo <= default d v /\ default d v <= hi).
    { intros lo hi d v H1 H2. apply withinOpt_default; now apply Qle_bool_iff. }
    repeat split; trivial.
    all: first [ apply (Q1 1 20000 500 _ eq_refl eq_refl Hr)
               | apply (Q1 0 10 (5 # 2) _ eq_refl eq_refl Hm)
               | apply (Q1 1 30 7 _ eq_refl eq_refl Hd)
               | apply (Q1 1 100 20 _ eq_refl eq_refl Hl) ].
Qed.

Lemma search_schema_accepts_iff_witness :
  exists input,
    LocationAgent.Search.schema (searchRaw 300) = inr input
    /\ LocationAgent.Search.radiusKm input = 300
    /\ LocationAgent.Search.limit input = 20.
Proof.
  destruct (proj2 (proj1 (search_schema_accepts_iff (searchRaw 300))))
    as [input H].
  - simpl. repeat split; vm_compute; discriminate.
  - exists input. split; [exact H|].
    destruct (proj2 (search_schema_accepts_iff (searchRaw 300)) input H)
      as (Hr & _ & _ & _ & Hl & _).
    split; assumption.
Defined.

(** ** search *)



(** ** top: how many records, and which *)

Lemma Qtrunc_nonneg (x : Q) : 0 <= x -> (0 <= Qtrunc x)%Z.
Proof.
  intro H. unfold Qtrunc. apply Z.quot_pos; [|lia].
  unfold Qle in H. simpl in H. lia.
Qed.

Lemma Qtrunc_le (x : Q) (n : Z) : (0 <= n)%Z -> x <= inject_Z n -> (Qtrunc x <= n)%Z.
Proof.
  intros Hn H. unfold Qtrunc. unfold Qle in H. simpl in H.
  destruct (Z.le_gt_cases 0 (Qnum x)) as [Hx|Hx].
  - apply Z.quot_le_upper_bound; lia.
  - assert (Qnum x ÷ Z.pos (Qden x) <= 0)%Z; [|lia].
    apply Z.quot_le_upper_bound; lia.
Qed.

Lemma Qtrunc_ge (x : Q) (n : Z) : (0 <= n)%Z -> inject_Z n <= x -> (n <= Qtrunc x)%Z.
Proof.
  intros Hn H. unfold Qtrunc. unfold Qle in H. simpl in H.
  apply Z.quot_le_lower_bound; lia.
Qed.

Lemma slice0_nonneg {A} (e : Q) (l : list A) :
  0 <= e -> slice0 e l = firstn (Z.to_nat (Qtrunc e)) l.
Proof.
  intro H. unfold slice0. apply Qtrunc_nonneg in H.
  destruct (Qtrunc e <? 0)%Z eqn:E; [|reflexivity].
  apply Z.ltb_lt in E. lia.
Qed.

Lemma map_from_length {A B} (f : A -> nat -> B) (l : list A) (i : nat) :
  List.length (map_from f i l) = List.length l.
Proof.
  revert i. induction l as [|x t IH]; intro i; simpl; [reflexivity|].
  now rewrite IH.
Qed.

Lemma map_from_rank {A B} (f : A -> nat -> B) (g : B -> Z) (l : list A) (i : nat) :
  (forall x k, g (f x k) = Z.of_nat k + 1)%Z ->
  map g (map_from f i l) = map Z.of_nat (seq (S i) (List.length l)).
Proof.
  intro H. revert i. induction l as [|x t IH]; intro i; simpl; [reflexivity|].
  rewrite H, IH. f_equal. lia.
Qed.

Lemma StronglySorted_app_order {A} (R : A -> A -> Prop) (l1 l2 : list A) :
  StronglySorted R (l1 ++ l2) ->
  forall x y, In x l1 -> In y l2 -> R x y.
Proof.
  induction l1 as [|a t IH]; simpl; intros Hs x y Hx Hy; [destruct Hx|].
  inversion Hs as [|? ? Hs' Ha]; subst.
  destruct Hx as [<-|Hx].
  - rewrite Forall_forall in Ha. apply Ha, in_or_app. now right.
  - now apply IH.
Qed.

Lemma top_handler_run (env : Env) (input : LocationAgent.Top.Input)
      (data : FeatureCollection) :
  answers env (SummaryFeed (LocationAgent.Top.feedMap (LocationAgent.Top.period input)))
    data ->
  exists out,
    LocationAgent.Top.handler input env
      = (inr out,
         [SummaryFeed (LocationAgent.Top.feedMap (LocationAgent.Top.period input))])
    /\ LocationAgent.Top.totalFiltered out
       = List.length (LocationAgent.Top.filtered input (GeoJSON.features data))
    /\ LocationAgent.Top.topEarthquakes out
       = LocationAgent.Top.topEarthquakesOf input (GeoJSON.features data).
Proof.
  intro H. eexists. split.
  - unfold LocationAgent.Top.handler, bind.
    rewrite (fetchJSON_answers _ _ _ H). simpl. reflexivity.
  - split; reflexivity.
Qed.

(** X3: through its entrypoint, and when the upstream answers the feed,
    top reports as [totalFiltered] the number of feed records with
    [mag >= minMagnitude], whatever the limit, and returns
    [min(trunc limit, totalFiltered)] records, hence between 1 and 50 when a
    record passes and none otherwise; their ranks are 1, 2, ..., n. *)
Theorem top_entrypoint_count :
  forall (env : Env) (raw : LocationAgent.Top.Raw)
         (input : LocationAgent.Top.Input) (data : FeatureCollection),
    LocationAgent.Top.schema raw = inr input ->
    answers env
      (SummaryFeed (LocationAgent.Top.feedMap (LocationAgent.Top.period input)))
      data ->
    exists out,
      fst (LocationAgent.Top.entrypoint raw env) = inr out
      /\ LocationAgent.Top.totalFiltered out
         = List.length
             (filter (fun f => Qgeb (ToNumber (f_mag f))
                                 (LocationAgent.Top.minMagnitude input))
                (GeoJSON.features data))
      /\ List.length (LocationAgent.Top.topEarthquakes out)
         = Nat.min (Z.to_nat (Qtrunc (LocationAgent.Top.limit input)))
             (LocationAgent.Top.totalFiltered out)
      /\ (1 <= Z.to_nat (Qtrunc (LocationAgent.Top.limit input)) <= 50)%nat
      /\ map LocationAgent.Top.rank (LocationAgent.Top.topEarthquakes out)
         = map Z.of_nat
             (seq 1 (List.length (LocationAgent.Top.topEarthquakes out))).
Proof.
  intros env raw input data Hs Hans.
  destruct (top_handler_run env input data Hans) as (out & Hrun & Htot & Htop).
  assert (Hlim : 1 <= LocationAgent.Top.limit input
                 /\ LocationAgent.Top.limit input <= 50).
  { unfold LocationAgent.Top.schema in Hs. apply parsed_inr in Hs.
    destruct Hs as [Hi ->]. simpl.
    rewrite !app_nil_iff, !issueOpt_nil in Hi. destruct Hi as [_ Hl].
    apply withinOpt_default; trivial; apply Qle_bool_iff; reflexivity. }
  exists out. split.
  { unfold LocationAgent.Top.entrypoint, invoke. now rewrite Hs, Hrun. }
  assert (Hlen : List.length (LocationAgent.Top.filtered input (GeoJSON.features data))
                 = List.length
                     (filter (fun f => Qgeb (ToNumber (f_mag f))
                                         (LocationAgent.Top.minMagnitude input))
                        (GeoJSON.features data))).
  { unfold LocationAgent.Top.filtered. apply Permutation_length, sort_perm. }
  split; [now rewrite Htot|]. split; [|split].
  - rewrite Htop, Htot. unfold LocationAgent.Top.topEarthquakesOf, mapi.
    rewrite map_from_length, slice0_nonneg by lra.
    apply length_firstn.
  - destruct Hlim as [H1 H50].
    pose proof (Qtrunc_ge _ 1 ltac:(lia) H1).
    pose proof (Qtrunc_le _ 50 ltac:(lia) H50). lia.
  - rewrite Htop. unfold LocationAgent.Top.topEarthquakesOf, mapi.
    rewrite map_from_length. apply map_from_rank. reflexivity.
Qed.

Lemma top_entrypoint_count_witness :
  exists out,
    fst (LocationAgent.Top.entrypoint (topRaw (Some (5 # 2))) weekEnv) = inr out
    /\ LocationAgent.Top.totalFiltered out = 3%nat
    /\ List.length (LocationAgent.Top.topEarthquakes out) = 2%nat.
Proof.
  destruct (top_entrypoint_count weekEnv (topRaw (Some (5 # 2)))
              {| LocationAgent.Top.period := LocationAgent.Top.week;
                 LocationAgent.Top.rankBy := LocationAgent.Top.by_magnitude;
                 LocationAgent.Top.minMagnitude := 9 # 2;
                 LocationAgent.Top.limit := 5 # 2 |} weekFeed eq_refl)
    as (out & Hrun & Htot & Hlen & _).
  - exists 200%Z. split; reflexivity.
  - exists out. split; [exact Hrun|]. rewrite Hlen, Htot. split; reflexivity.
Defined.

(** X4: the records top returns are the best ones: the feed records that
    pass the magnitude filter split into the returned ones and the rest,
    and no record of the rest has a larger [rankBy] field than a returned
    one. *)
Theorem top_returns_the_largest :
  forall (env : Env) (input : LocationAgent.Top.Input) (data : FeatureCollection),
    let key := LocationAgent.Top.rankKey (LocationAgent.Top.rankBy input) in
    answers env
      (SummaryFeed (LocationAgent.Top.feedMap (LocationAgent.Top.period input)))
      data ->
    exists out taken rest,
      fst (LocationAgent.Top.handler input env) = inr out
      /\ map LocationAgent.Top.quake (LocationAgent.Top.topEarthquakes out)
         = map LocationAgent.formatQuake taken
      /\ Permutation (taken ++ rest)
           (filter (fun f => Qgeb (ToNumber (f_mag f))
                               (LocationAgent.Top.minMagnitude input))
              (GeoJSON.features data))
      /\ (forall x y, In x taken -> In y rest -> key y <= key x).
Proof.
  intros env input data key Hans.
  destruct (top_handler_run env input data Hans) as (out & Hrun & _ & Htop).
  destruct (slice0_firstn (LocationAgent.Top.limit input)
              (LocationAgent.Top.filtered input (GeoJSON.features data)))
    as [n Hn].
  set (fl := LocationAgent.Top.filtered input (GeoJSON.features data)) in *.
  exists out, (firstn n fl), (skipn n fl). split; [now rewrite Hrun|].
  split; [|split].
  - rewrite Htop. unfold LocationAgent.Top.topEarthquakesOf, mapi. fold fl.
    rewrite Hn. now apply map_from_map.
  - rewrite firstn_skipn. apply sort_perm.
  - apply StronglySorted_app_order. rewrite firstn_skipn. apply filtered_sorted.
Qed.

Lemma top_returns_the_largest_witness :
  exists out,
    fst (LocationAgent.Top.handler topInput weekEnv) = inr out
    /\ map LocationAgent.id
         (map LocationAgent.Top.quake (LocationAgent.Top.topEarthquakes out))
       = ["b"; "a"; "c"].
Proof.
  destruct (top_returns_the_largest weekEnv topInput weekFeed)
    as (out & taken & rest & Hrun & _).
  - exists 200%Z. split; reflexivity.
  - exists out. split; [exact Hrun|].
    vm_compute in Hrun. injection Hrun as <-. reflexivity.
Defined.

(** ** compare: schema, ties and statistics *)

(** X5: the compare schema accepts an input exactly when it has 2 to 5
    regions, every region's latitude and longitude are within range, every
    radius that is present is within [10, 5000] and the minimum magnitude,
    when present, is within [0, 10]; the parsed regions are the given ones
    in order, under the same names, with radius 500 where none was given,
    and every parsed radius is within [10, 5000]. *)
Theorem compare_schema_accepts_iff :
  forall raw : LocationAgent.Compare.Raw,
    let regionOk := fun r : LocationAgent.Compare.RegionRaw =>
      (- 90 <= LocationAgent.Compare.raw_latitude r
       /\ LocationAgent.Compare.raw_latitude r <= 90)
      /\ (- 180 <= LocationAgent.Compare.raw_longitude r
          /\ LocationAgent.Compare.raw_longitude r <= 180)
      /\ withinOpt 10 5000 (LocationAgent.Compare.raw_radiusKm r) in
    ((exists input, LocationAgent.Compare.schema raw = inr input) <->
       (2 <= List.length (LocationAgent.Compare.raw_regions raw) <= 5)%nat
       /\ Forall regionOk (LocationAgent.Compare.raw_regions raw)
       /\ withinOpt 0 10 (LocationAgent.Compare.raw_minMagnitude raw))
    /\ (forall input,
          LocationAgent.Compare.schema raw = inr input ->
          map LocationAgent.Compare.name (LocationAgent.Compare.regions input)
            = map LocationAgent.Compare.raw_name (LocationAgent.Compare.raw_regions raw)
          /\ map LocationAgent.Compare.radiusKm (LocationAgent.Compare.regions input)
             = map (fun r => default 500 (LocationAgent.Compare.raw_radiusKm r))
                 (LocationAgent.Compare.raw_regions raw)
          /\ Forall (fun r => 10 <= LocationAgent.Compare.radiusKm r
                              /\ LocationAgent.Compare.radiusKm r <= 5000)
               (LocationAgent.Compare.regions input)
          /\ LocationAgent.Compare.minMagnitude input
             = default (5 # 2) (LocationAgent.Compare.raw_minMagnitude raw)).
Proof.
  intros raw regionOk.
  assert (Hreg : forall rs,
             flat_map LocationAgent.Compare.regionIssues rs = [] <-> Forall regionOk rs).
  { induction rs as [|r rs IH]; simpl.
    - split; [constructor|reflexivity].
    - rewrite app_nil_iff, IH, Forall_cons_iff.
      unfold LocationAgent.Compare.regionIssues, regionOk.
      rewrite !app_nil_iff, !issue_nil, issueOpt_nil, !inRange_iff. tauto. }
  assert (Hiff : LocationAgent.Compare.schema raw
                 = inr {| LocationAgent.Compare.regions :=
                            map LocationAgent.Compare.parseRegion
                              (LocationAgent.Compare.raw_regions raw);
                          LocationAgent.Compare.minMagnitude :=
                            default (5 # 2) (LocationAgent.Compare.raw_minMagnitude raw) |}
                 <-> (2 <= List.length (LocationAgent.Compare.raw_regions raw) <= 5)%nat
                     /\ Forall regionOk (LocationAgent.Compare.raw_regions raw)
                     /\ withinOpt 0 10 (LocationAgent.Compare.raw_minMagnitude raw)).
  { unfold LocationAgent.Compare.schema. rewrite parsed_inr.
    rewrite !app_nil_iff, Hreg, issue_nil, issueOpt_nil, andb_true_iff,
      !Nat.leb_le. tauto. }
  assert (Hin : forall input, LocationAgent.Compare.schema raw = inr input ->
                  input = {| LocationAgent.Compare.regions :=
                               map LocationAgent.Compare.parseRegion
                                 (LocationAgent.Compare.raw_regions raw);
                             LocationAgent.Compare.minMagnitude :=
                               default (5 # 2)
                                 (LocationAgent.Compare.raw_minMagnitude raw) |}).
  { intros input H. unfold LocationAgent.Compare.schema in H.
    apply parsed_inr in H. tauto. }
  split; [split|].
  - intros [input H]. apply Hiff. now rewrite <- (Hin input H).
  - intro H. eexists. apply Hiff, H.
  - intros input H. pose proof (Hin input H) as ->.
    apply Hiff in H. destruct H as (_ & Hok & _). simpl.
    rewrite !map_map. repeat split.
    rewrite Forall_forall in *. intros r Hr.
    apply in_map_iff in Hr. destruct Hr as (r0 & <- & Hr0).
    specialize (Hok r0 Hr0). destruct Hok as (_ & _ & Hrad). simpl.
    apply withinOpt_default; trivial; apply Qle_bool_iff; reflexivity.
Qed.

Lemma compare_schema_accepts_iff_witness :
  exists input,
    LocationAgent.Compare.schema twoRegionsRaw = inr input
    /\ map LocationAgent.Compare.radiusKm (LocationAgent.Compare.regions input)
       = [500; 800].
Proof.
  destruct (proj2 (proj1 (compare_schema_accepts_iff twoRegionsRaw)))
    as [input H].
  - split; [simpl; lia|]. split; [|exact I].
    repeat constructor; simpl; try (vm_compute; discriminate).
  - exists input. split; [exact H|].
    destruct (proj2 (compare_schema_accepts_iff twoRegionsRaw) input H)
      as (_ & Hr & _).
    exact Hr.
Defined.

Section CompareTies.
Import LocationAgent LocationAgent.Compare.

Let total (r : RegionResult) : Z := totalQuakes (stats r).

Lemma compare_handler_inv (env : Env) (input : Input) (out : Output)
      (log : list Request) :
  handler input env = (inr out, log) ->
  rankingOf (comparison out) = inr (ranking out).
Proof.
  unfold handler, bind at 1, Date_now. unfold bind at 1.
  destruct (Promise_all _ env) as [[e|results] log1]; [discriminate|].
  destruct (rankingOf results) as [e|rk] eqn:E; simpl; [discriminate|].
  intro H. injection H as <- _. simpl. exact E.
Qed.

Lemma filter_head_split {A} (p : A -> bool) (l : list A) (x : A) (t : list A) :
  filter p l = x :: t ->
  exists pre post, l = pre ++ x :: post /\ Forall (fun y => p y = false) pre.
Proof.
  induction l as [|y l IH]; simpl; [discriminate|].
  destruct (p y) eqn:E.
  - intro H. injection H as -> _. exists [], l. split; [reflexivity|constructor].
  - intro H. destruct (IH H) as (pre & post & -> & Hpre).
    exists (y :: pre), post. split; [reflexivity|]. now constructor.
Qed.

Lemma filter_last_split {A} (p : A -> bool) (l s : list A) (x : A) :
  filter p l = s ++ [x] ->
  exists pre post, l = pre ++ x :: post /\ Forall (fun y => p y = false) post.
Proof.
  revert s. induction l as [|y l IH] using rev_ind; intro s.
  - simpl. intro H. symmetry in H. apply app_eq_nil in H. destruct H; discriminate.
  - rewrite filter_app. simpl. destruct (p y) eqn:E.
    + intro H. apply app_inj_tail in H. destruct H as [_ ->].
      exists l, []. split; [reflexivity|constructor].
    + rewrite app_nil_r. intro H. destruct (IH _ H) as (pre & post & -> & Hpost).
      exists pre, (post ++ [y]). split; [now rewrite <- app_assoc|].
      apply Forall_app. split; [exact Hpost|]. now repeat constructor.
Qed.

Lemma filter_map_swap {A B} (g : A -> B) (q : B -> bool) (l : list A) :
  filter q (map g l) = map g (filter (fun x => q (g x)) l).
Proof.
  induction l as [|x l IH]; simpl; [reflexivity|].
  destruct (q (g x)); simpl; now rewrite IH.
Qed.

Lemma ranked_stable (results : list RegionResult) (c : Z) :
  filter (fun r => (total r =? c)%Z) (ranked results)
  = filter (fun r => (total r =? c)%Z) results.
Proof.
  unfold ranked.
  apply (sort_stable _ (fun r => inject_Z (- totalQuakes (stats r)))).
  - apply totalQuakes_comparefn.
  - intros a b Ha Hb. apply Z.eqb_eq in Ha, Hb. unfold total in *.
    now rewrite Ha, Hb.
Qed.

Lemma ranking_ties (results : list RegionResult) (rk : Ranking) :
  rankingOf results = inr rk ->
  (exists pre most post,
      results = pre ++ most :: post
      /\ mostActive rk = region most
      /\ Forall (fun r => (total r < total most)%Z) pre
      /\ Forall (fun r => (total r <= total most)%Z) post)
  /\ (exists pre least post,
         results = pre ++ least :: post
         /\ leastActive rk = region least
         /\ Forall (fun r => (total least <= total r)%Z) pre
         /\ Forall (fun r => (total least < total r)%Z) post)
  /\ (forall c : Z,
         filter (fun p => (snd p =? c)%Z) (byTotalQuakes rk)
         = map (fun r => (region r, total r))
             (filter (fun r => (total r =? c)%Z) results)).
Proof.
  unfold rankingOf. intro H.
  pose proof (ranked_sorted results) as Hs.
  pose proof (ranked_perm results) as Hp.
  destruct (ranked results) as [|first rest] eqn:E; [discriminate|].
  injection H as <-. simpl.
  assert (Hmax : forall r, In r results -> (total r <= total first)%Z).
  { intros r Hr. apply (Permutation_in _ (Permutation_sym Hp)) in Hr.
    inversion Hs as [|? ? _ Hf]; subst.
    destruct Hr as [<-|Hr]; [lia|]. rewrite Forall_forall in Hf. now apply Hf. }
  assert (Hmin : forall r, In r results ->
                   (total (last rest first) <= total r)%Z).
  { intros r Hr. apply (Permutation_in _ (Permutation_sym Hp)) in Hr.
    destruct (StronglySorted_last _ _ _ _ Hs Hr) as [->|H]; [lia|exact H]. }
  split; [|split].
  - pose proof (ranked_stable results (total first)) as Hst. rewrite E in Hst.
    simpl in Hst. rewrite Z.eqb_refl in Hst. symmetry in Hst.
    destruct (filter_head_split _ _ _ _ Hst) as (pre & post & -> & Hpre).
    exists pre, first, post. repeat split.
    + rewrite Forall_forall in *. intros r Hr.
      specialize (Hpre r Hr). apply Z.eqb_neq in Hpre.
      assert (total r <= total first)%Z; [|lia].
      apply Hmax, in_or_app. now left.
    + rewrite Forall_forall. intros r Hr. apply Hmax, in_or_app. right. now right.
  - pose proof (ranked_stable results (total (last rest first))) as Hst.
    rewrite E in Hst.
    destruct (exists_last (l := first :: rest) ltac:(discriminate)) as (l' & x & El).
    assert (Hx : x = last rest first).
    { rewrite <- (last_cons rest first first), El. now rewrite last_last. }
    subst x. rewrite El, filter_app in Hst. simpl in Hst.
    rewrite Z.eqb_refl in Hst. symmetry in Hst.
    destruct (filter_last_split _ _ _ _ Hst) as (pre & post & -> & Hpost).
    exists pre, (last rest first), post. repeat split.
    + rewrite Forall_forall. intros r Hr. apply Hmin, in_or_app. now left.
    + rewrite Forall_forall in *. intros r Hr.
      specialize (Hpost r Hr). apply Z.eqb_neq in Hpost.
      assert (total (last rest first) <= total r)%Z; [|lia].
      apply Hmin, in_or_app. right. now right.
  - intro c. rewrite <- ranked_stable, E.
    exact (filter_map_swap (fun r => (region r, total r))
             (fun p => (snd p =? c)%Z) (first :: rest)).
Qed.

End CompareTies.

(** X6: ties in the compare ranking are broken by input order: regions
    with the same count are listed in the order they were given;
    [mostActive] is the first region, in input order, of highest count and
    [leastActive] the last region, in input order, of lowest count. *)
Theorem compare_ranking_ties :
  forall (env : Env) (input : LocationAgent.Compare.Input)
         (out : LocationAgent.Compare.Output) (log : list Request),
    let total := fun r =>
      LocationAgent.Compare.totalQuakes (LocationAgent.Compare.stats r) in
    let results := LocationAgent.Compare.comparison out in
    let rk := LocationAgent.Compare.ranking out in
    LocationAgent.Compare.handler input env = (inr out, log) ->
    (exists pre most post,
        results = pre ++ most :: post
        /\ LocationAgent.Compare.mostActive rk = LocationAgent.Compare.region most
        /\ Forall (fun r => (total r < total most)%Z) pre
        /\ Forall (fun r => (total r <= total most)%Z) post)
    /\ (exists pre least post,
           results = pre ++ least :: post
           /\ LocationAgent.Compare.leastActive rk = LocationAgent.Compare.region least
           /\ Forall (fun r => (total least <= total r)%Z) pre
           /\ Forall (fun r => (total least < total r)%Z) post)
    /\ (forall c : Z,
           filter (fun p => (snd p =? c)%Z) (LocationAgent.Compare.byTotalQuakes rk)
           = map (fun r => (LocationAgent.Compare.region r, total r))
               (filter (fun r => (total r =? c)%Z) results)).
Proof.
  intros env input out log total results rk H.
  apply compare_handler_inv in H. exact (ranking_ties _ _ H).
Qed.

Lemma compare_ranking_ties_witness :
  exists out log,
    LocationAgent.Compare.handler tiedInput compareEnv = (inr out, log)
    /\ filter (fun p => (snd p =? 3)%Z)
         (LocationAgent.Compare.byTotalQuakes (LocationAgent.Compare.ranking out))
       = [("B", 3%Z); ("C", 3%Z)]
    /\ LocationAgent.Compare.mostActive (LocationAgent.Compare.ranking out) = "B"
    /\ LocationAgent.Compare.leastActive (LocationAgent.Compare.ranking out) = "C".
Proof.
  destruct (LocationAgent.Compare.handler tiedInput compareEnv) as [[e|out] log] eqn:E;
    [vm_compute in E; discriminate|].
  exists out, log. split; [reflexivity|].
  destruct (compare_ranking_ties compareEnv tiedInput out log E) as (_ & _ & Hst).
  rewrite (Hst 3%Z).
  vm_compute in E. injection E as <- _. repeat split.
Defined.

Lemma filter_length_incl {A} (p q : A -> bool) (l : list A) :
  (forall x, p x = true -> q x = true) ->
  (List.length (filter p l) <= List.length (filter q l))%nat.
Proof.
  intro H. induction l as [|x l IH]; simpl; [lia|].
  destruct (p x) eqn:E.
  - rewrite (H x E). simpl. lia.
  - destruct (q x); simpl; lia.
Qed.

Lemma filter_length_pos {A} (p : A -> bool) (l : list A) :
  (0 < List.length (filter p l))%nat <-> exists x, In x l /\ p x = true.
Proof.
  split.
  - destruct (filter p l) as [|x t] eqn:E; simpl; [lia|]. intros _.
    exists x. apply filter_In. rewrite E. now left.
  - intros (x & Hx & Hp).
    assert (Hin : In x (filter p l)) by (apply filter_In; auto).
    destruct (filter p l); [destruct Hin|simpl; lia].
Qed.

(** X7: the statistics compare reports for a region are consistent with
    each other: the count of magnitudes [>= 5] is at most the count of
    magnitudes [>= 4], which is at most the number of records; a count is
    positive exactly when the maximum magnitude reaches its threshold; no
    record's magnitude exceeds the maximum; and the top quake is missing
    exactly when the region has no record. *)
Theorem compare_stats_consistent :
  forall (r : LocationAgent.Compare.Region) (data : FeatureCollection),
    let res := LocationAgent.Compare.regionResult r data in
    let st := LocationAgent.Compare.stats res in
    let m := fun g : Feature => ToNumber (f_mag g) in
    (LocationAgent.Compare.quakesAbove5 st
     <= LocationAgent.Compare.quakesAbove4 st
     <= List.length (GeoJSON.features data))%nat
    /\ ((0 < LocationAgent.Compare.quakesAbove4 st)%nat
        <-> 4 <= LocationAgent.Compare.maxMagnitude st)
    /\ ((0 < LocationAgent.Compare.quakesAbove5 st)%nat
        <-> 5 <= LocationAgent.Compare.maxMagnitude st)
    /\ Forall (fun g => m g <= LocationAgent.Compare.maxMagnitude st)
         (GeoJSON.features data)
    /\ (LocationAgent.Compare.topQuake res = None <-> GeoJSON.features data = []).
Proof.
  intros r data. cbv zeta.
  pose proof (regionResult_stats r data) as H. cbv zeta beta in H.
  destruct H as (_ & _ & Hempty & H4 & H5 & Hne).
  set (st := LocationAgent.Compare.stats (LocationAgent.Compare.regionResult r data)) in *.
  set (mx := LocationAgent.Compare.maxMagnitude st) in *.
  assert (Hthr : forall t : Q,
             (0 < List.length (filter (fun g => Qle_bool t (ToNumber (f_mag g)))
                                 (GeoJSON.features data)))%nat
             <-> (GeoJSON.features data <> [] /\ t <= mx)).
  { intro t. rewrite filter_length_pos. split.
    - intros (g & Hg & Ht). apply Qle_bool_iff in Ht.
      assert (Hn : GeoJSON.features data <> []) by (intro E; rewrite E in Hg; destruct Hg).
      split; [exact Hn|].
      destruct (Hne Hn) as (pre & f & post & E & _ & Hmax & Hpre & Hpost).
      rewrite Hmax. rewrite E in Hg. apply in_app_or in Hg.
      rewrite Forall_forall in Hpre, Hpost.
      destruct Hg as [Hg|[<-|Hg]].
      + specialize (Hpre g Hg). cbv beta in Hpre. lra.
      + exact Ht.
      + specialize (Hpost g Hg). cbv beta in Hpost. lra.
    - intros [Hn Ht].
      destruct (Hne Hn) as (pre & f & post & E & _ & Hmax & _).
      exists f. split; [rewrite E; apply in_or_app; right; now left|].
      apply Qle_bool_iff. now rewrite <- Hmax. }
  assert (Hzero : GeoJSON.features data = [] -> forall t : Q, 0 < t -> ~ t <= mx).
  { intros E t Ht. destruct (Hempty E) as (_ & -> & _). lra. }
  split; [|split; [|split; [|split]]].
  - rewrite H4, H5. split.
    + apply filter_length_incl. intros g Hg.
      apply Qle_bool_iff in Hg. apply Qle_bool_iff. lra.
    + apply filter_length_le.
  - rewrite H4, Hthr. split; [tauto|]. intro H. split; [|exact H].
    intro E. apply (Hzero E 4); [reflexivity|exact H].
  - rewrite H5, Hthr. split; [tauto|]. intro H. split; [|exact H].
    intro E. apply (Hzero E 5); [reflexivity|exact H].
  - destruct (GeoJSON.features data) as [|g0 l0] eqn:E; [constructor|].
    destruct (Hne ltac:(discriminate)) as (pre & f & post & E' & _ & Hmax & Hpre & Hpost).
    rewrite E', Hmax. apply Forall_app. split.
    + eapply Forall_impl; [|exact Hpre]. cbv beta. intros a Ha. lra.
    + constructor; [lra|exact Hpost].
  - split.
    + intro Hn. destruct (GeoJSON.features data) as [|g0 l0] eqn:E; [reflexivity|].
      destruct (Hne ltac:(discriminate)) as (pre & f & post & _ & Htop & _).
      congruence.
    + intro E. now destruct (Hempty E) as (_ & _ & Htop).
Qed.

(** ** The requests of a fan-out *)

Lemma bind_log {A B} (m : Task A) (k : A -> Task B) (env : Env) :
  snd (bind m k env)
  = snd (m env) ++ match fst (m env) with
                   | inl _ => []
                   | inr a => snd (k a env)
                   end.
Proof.
  unfold bind. destruct (m env) as [[e|a] log]; simpl.
  - now rewrite app_nil_r.
  - now destruct (k a env).
Qed.

Lemma fixed_fanout_log (env : Env) (rs : list Request) :
  snd (Promise_all (map fetchJSON rs) env) = rs.
Proof.
  rewrite Promise_all_log. induction rs as [|r rs IH]; simpl; [reflexivity|].
  now rewrite IH.
Qed.

Lemma region_fanout_log (env : Env) (minMag : Q) (t : Z)
      (rs : list LocationAgent.Compare.Region) :
  snd (Promise_all
         (map (fun r => data <- fetchJSON (LocationAgent.Compare.url r minMag t) ;;
                        ret (LocationAgent.Compare.regionResult r data)) rs) env)
  = map (fun r => LocationAgent.Compare.url r minMag t) rs.
Proof.
  rewrite Promise_all_log. induction rs as [|r rs IH]; simpl; [reflexivity|].
  now rewrite fetch_then_log, IH.
Qed.

(** Rewrites the log of a literal [Promise.all] of fetches into the list
    of its requests. *)
Ltac fanout_log env reqs :=
  let Hl := fresh "Hl" in
  pose proof (fixed_fanout_log env reqs) as Hl;
  cbv beta iota zeta delta
    [map LocationAgent.Report.requests LocationAgent.Overview.requests
       FeedAgent.Overview.requests FeedAgent.Report.requests] in Hl;
  rewrite Hl; clear Hl.

(** X8: a handler that joins several fetches issues every request of its
    batch exactly once and in order, whatever the upstream answers: a
    failure of one fetch neither cancels the others nor is retried.  This
    holds for compare, the location report, both overviews and the regional
    report. *)
Theorem fanout_issues_every_request :
  forall env : Env,
    (forall input,
        snd (LocationAgent.Compare.handler input env)
        = LocationAgent.Compare.requests input (now env))
    /\ (forall input,
           snd (LocationAgent.Report.handler input env)
           = LocationAgent.Report.requests input (now env))
    /\ snd (LocationAgent.Overview.handler env) = LocationAgent.Overview.requests
    /\ snd (FeedAgent.Overview.handler env) = FeedAgent.Overview.requests
    /\ (forall input,
           snd (FeedAgent.Report.handler input env) = FeedAgent.Report.requests).
Proof.
  intro env. split; [|split; [|split; [|split]]].
  - intro input. unfold LocationAgent.Compare.handler.
    rewrite bind_log. simpl. rewrite bind_log, region_fanout_log.
    destruct (fst (Promise_all _ env)) as [e|results]; [apply app_nil_r|].
    destruct (LocationAgent.Compare.rankingOf results); apply app_nil_r.
  - intro input. unfold LocationAgent.Report.handler.
    rewrite bind_log. cbn [Date_now fst snd app]. cbv zeta. rewrite bind_log.
    fanout_log env (LocationAgent.Report.requests input (now env)).
    destruct (fst (Promise_all _ env)) as [e|all];
      [rewrite app_nil_r; reflexivity|].
    destruct all as [|a [|b [|c [|d [|x l]]]]]; rewrite app_nil_r; reflexivity.
  - unfold LocationAgent.Overview.handler. rewrite bind_log.
    fanout_log env LocationAgent.Overview.requests.
    destruct (fst (Promise_all _ env)) as [e|all];
      [rewrite app_nil_r; reflexivity|].
    destruct all as [|a [|b [|x l]]]; rewrite app_nil_r; reflexivity.
  - unfold FeedAgent.Overview.handler, fetchUSGS. rewrite bind_log.
    fanout_log env FeedAgent.Overview.requests.
    destruct (fst (Promise_all _ env)) as [e|all];
      [rewrite app_nil_r; reflexivity|].
    destruct all as [|a [|b [|c [|x l]]]]; rewrite app_nil_r; reflexivity.
  - intro input. unfold FeedAgent.Report.handler, fetchUSGS. rewrite bind_log.
    fanout_log env FeedAgent.Report.requests.
    destruct (fst (Promise_all _ env)) as [e|all];
      [rewrite app_nil_r; reflexivity|].
    destruct all as [|a [|b [|c [|d [|x l]]]]]; rewrite app_nil_r; reflexivity.
Qed.

(** ** The risk score: order and bounds *)

Lemma Qgeb_mono (a b t : Q) : a <= b -> Qgeb a t = true -> Qgeb b t = true.
Proof. intros H Ha. apply Qgeb_ge in Ha. apply Qgeb_ge. lra. Qed.

Lemma riskLevelOf_mono (s s' : Z) :
  (s <= s')%Z ->
  (levelRank (LocationAgent.Report.riskLevelOf s)
   <= levelRank (LocationAgent.Report.riskLevelOf s'))%nat.
Proof.
  intro H. unfold LocationAgent.Report.riskLevelOf.
  destruct (s >=? 50)%Z eqn:E1, (s' >=? 50)%Z eqn:F1; simpl; try lia;
    destruct (s >=? 25)%Z eqn:E2, (s' >=? 25)%Z eqn:F2; simpl; try lia;
    destruct (s >=? 10)%Z eqn:E3, (s' >=? 10)%Z eqn:F3; simpl; lia.
Qed.

(** X9: the risk assessment is monotone: raising any of the three counts
    or the largest nearby magnitude never lowers the score, and a higher
    score never gives a lower level. *)
Theorem risk_score_monotone :
  forall (c50 c250 c500 c50' c250' c500' : Z) (m m' : Q),
    (c50 <= c50')%Z -> (c250 <= c250')%Z -> (c500 <= c500')%Z -> m <= m' ->
    let s := LocationAgent.Report.riskScoreOf c50 c250 c500 m in
    let s' := LocationAgent.Report.riskScoreOf c50' c250' c500' m' in
    (s <= s')%Z
    /\ (levelRank (LocationAgent.Report.riskLevelOf s)
        <= levelRank (LocationAgent.Report.riskLevelOf s'))%nat.
Proof.
  intros c50 c250 c500 c50' c250' c500' m m' H50 H250 H500 Hm s s'.
  assert (Hs : (s <= s')%Z).
  { subst s s'. unfold LocationAgent.Report.riskScoreOf.
    pose proof (Qgeb_mono m m' 4 Hm) as M4.
    pose proof (Qgeb_mono m m' 5 Hm) as M5.
    destruct (Qgeb m 4); [rewrite (M4 eq_refl)|destruct (Qgeb m' 4)];
      (destruct (Qgeb m 5); [rewrite (M5 eq_refl)|destruct (Qgeb m' 5)]);
      destruct (c50 >? 0)%Z eqn:E1, (c50' >? 0)%Z eqn:F1,
               (c250 >? 10)%Z eqn:E2, (c250' >? 10)%Z eqn:F2,
               (c500 >? 5)%Z eqn:E3, (c500' >? 5)%Z eqn:F3; lia. }
  split; [exact Hs|]. now apply riskLevelOf_mono.
Qed.

Lemma risk_score_monotone_witness :
  (LocationAgent.Report.riskScoreOf 3 12 8 (19 # 5)
   <= LocationAgent.Report.riskScoreOf 3 12 8 (26 # 5))%Z.
Proof.
  apply (risk_score_monotone 3 12 8 3 12 8 (19 # 5) (26 # 5));
    try lia; vm_compute; discriminate.
Defined.

(** X10: for a non-negative 50 km count the score lies between twice that
    count and twice that count plus 55; a nearby magnitude of 5 or more
    makes the level at least elevated, 25 or more quakes within 50 km make
    it high, and the level is low only with fewer than 5 quakes within
    50 km and no nearby magnitude of 4 or more. *)
Theorem risk_score_bounds :
  forall (c50 c250 c500 : Z) (m : Q),
    (0 <= c50)%Z ->
    let s := LocationAgent.Report.riskScoreOf c50 c250 c500 m in
    let level := LocationAgent.Report.riskLevelOf s in
    (2 * c50 <= s <= 2 * c50 + 55)%Z
    /\ (5 <= m -> (2 <= levelRank level)%nat)
    /\ ((25 <= c50)%Z -> level = LocationAgent.Report.high)
    /\ (level = LocationAgent.Report.low -> (c50 < 5)%Z /\ m < 4).
Proof.
  intros c50 c250 c500 m H50 s level.
  assert (Hs : (2 * c50 <= s <= 2 * c50 + 55)%Z
               /\ (5 <= m -> (2 * c50 + 40 <= s)%Z)
               /\ (4 <= m -> (2 * c50 + 15 <= s)%Z)).
  { subst s. unfold LocationAgent.Report.riskScoreOf.
    destruct (Qgeb m 4) eqn:E4, (Qgeb m 5) eqn:E5;
      try apply Qgeb_ge in E4; try apply Qgeb_ge in E5;
      try apply Qgeb_lt in E4; try apply Qgeb_lt in E5;
      destruct (c50 >? 0)%Z eqn:E1, (c250 >? 10)%Z, (c500 >? 5)%Z;
      repeat split; intros; try lia; exfalso; lra. }
  destruct Hs as (Hb & H5 & H4).
  subst level. unfold LocationAgent.Report.riskLevelOf.
  split; [exact Hb|]. split; [|split].
  - intro Hm. specialize (H5 Hm).
    destruct (s >=? 50)%Z eqn:E1; [simpl; lia|].
    destruct (s >=? 25)%Z eqn:E2; [simpl; lia|]. lia.
  - intro Hc. destruct (s >=? 50)%Z eqn:E1; [reflexivity|]. lia.
  - destruct (s >=? 50)%Z eqn:E1; [discriminate|].
    destruct (s >=? 25)%Z eqn:E2; [discriminate|].
    destruct (s >=? 10)%Z eqn:E3; [discriminate|]. intros _.
    split; [lia|]. apply Qnot_le_lt. intro Hm. specialize (H4 Hm). lia.
Qed.

Lemma risk_score_bounds_witness :
  (0 <= 0)%Z /\
  LocationAgent.Report.riskLevelOf (LocationAgent.Report.riskScoreOf 0 0 0 (26 # 5))
  = LocationAgent.Report.elevated.
Proof.
  split; [lia|].
  pose proof (proj1 (proj2 (risk_score_bounds 0 0 0 (26 # 5) ltac:(lia)))
                ltac:(vm_compute; discriminate)) as H.
  destruct (LocationAgent.Report.riskLevelOf
              (LocationAgent.Report.riskScoreOf 0 0 0 (26 # 5))) eqn:E;
    simpl in H; try lia; [reflexivity|].
  vm_compute in E. discriminate.
Defined.

(** ** The location report *)

Lemma slice0_5 {A} (l : list A) : slice0 5 l = firstn 5 l.
Proof. reflexivity. Qed.

Lemma Math_max_upper (x : Q) (xs : list Q) :
  x <= Math_max x xs /\ Forall (fun y => y <= Math_max x xs) xs.
Proof.
  unfold Math_max. revert x. induction xs as [|y t IH]; intro x; simpl.
  - split; [lra|constructor].
  - destruct (IH (Qmax x y)) as [H1 H2].
    pose proof (Qmax_ub_l x y). pose proof (Qmax_ub_r x y).
    split; [lra|]. constructor; [lra|exact H2].
Qed.

(** X11: when the upstream answers its four requests, the location
    report returns; the risk assessment uses the three radius queries only;
    each activity list holds the first five records of its query, in the
    upstream's order; the 50 km maximum is at least every magnitude of that
    query; and [nearestSignificant] is the first record of the global
    significant feed, whatever the location. *)
Theorem report_output_composition :
  forall (env : Env) (input : LocationAgent.Report.Input)
         (n50 n250 n500 significant : FeatureCollection),
    Forall2 (answers env) (LocationAgent.Report.requests input (now env))
      [n50; n250; n500; significant] ->
    exists out,
      fst (LocationAgent.Report.handler input env) = inr out
      /\ LocationAgent.Report.riskAssessment out
         = LocationAgent.Report.assess n50 n250 n500
      /\ LocationAgent.Report.quakes50 (LocationAgent.Report.within50km out)
         = map LocationAgent.formatQuake (firstn 5 (GeoJSON.features n50))
      /\ LocationAgent.Report.quakes (LocationAgent.Report.within250km out)
         = map LocationAgent.formatQuake (firstn 5 (GeoJSON.features n250))
      /\ LocationAgent.Report.quakes (LocationAgent.Report.within500km out)
         = map LocationAgent.formatQuake (firstn 5 (GeoJSON.features n500))
      /\ Forall (fun g => ToNumber (f_mag g)
                          <= LocationAgent.Report.maxMagnitude
                               (LocationAgent.Report.within50km out))
           (GeoJSON.features n50)
      /\ LocationAgent.Report.nearestSignificant out
         = option_map LocationAgent.formatQuake
             (hd_error (GeoJSON.features significant))
      /\ LocationAgent.Report.significantQuakesThisWeek out
         = GeoJSON.count significant.
Proof.
  intros env input n50 n250 n500 significant H.
  unfold LocationAgent.Report.requests in H. cbv zeta in H.
  apply Forall2_cons_iff in H. destruct H as [H1 H].
  apply Forall2_cons_iff in H. destruct H as [H2 H].
  apply Forall2_cons_iff in H. destruct H as [H3 H].
  apply Forall2_cons_iff in H. destruct H as [H4 _].
  eexists. split.
  - unfold LocationAgent.Report.handler, bind at 1, Date_now.
    unfold bind, Promise_all.
    rewrite (fetchJSON_answers _ _ _ H1), (fetchJSON_answers _ _ _ H2),
      (fetchJSON_answers _ _ _ H3), (fetchJSON_answers _ _ _ H4).
    simpl. reflexivity.
  - simpl. repeat split.
    unfold LocationAgent.Report.maxNearbyOf.
    destruct (GeoJSON.features n50) as [|g l]; [constructor|]. simpl map.
    destruct (Math_max_upper (ToNumber (f_mag g))
                (map (fun f => ToNumber (f_mag f)) l)) as [Hg Hl].
    constructor; [exact Hg|].
    rewrite Forall_forall in *. intros x Hx. apply Hl.
    apply in_map_iff. eauto.
Qed.

Lemma report_output_composition_witness :
  exists out,
    fst (LocationAgent.Report.handler reportInput reportEnv) = inr out
    /\ LocationAgent.Report.score (LocationAgent.Report.riskAssessment out) = 48%Z
    /\ option_map LocationAgent.id (LocationAgent.Report.nearestSignificant out)
       = Some "n1".
Proof.
  destruct (report_output_composition reportEnv reportInput
              weekFeed weekFeed weekFeed dayFeed)
    as (out & Hrun & Hrisk & _ & _ & _ & _ & Hnear & _).
  - repeat constructor; exists 200%Z; split; reflexivity.
  - exists out. split; [exact Hrun|]. rewrite Hrisk, Hnear. split; reflexivity.
Defined.

(** ** nearby: the rounded distance, and the radius that is not checked *)

Lemma Math_round_bounds (x : Q) :
  inject_Z (Math_round x) - (1 # 2) <= x /\ x < inject_Z (Math_round x) + (1 # 2).
Proof.
  unfold Math_round.
  pose proof (Qfloor_le (x + (1 # 2))) as H1.
  pose proof (Qlt_floor (x + (1 # 2))) as H2.
  rewrite inject_Z_plus in H2. change (inject_Z 1) with 1 in H2.
  split; lra.
Qed.

Lemma Math_round_mono (x y : Q) : x <= y -> (Math_round x <= Math_round y)%Z.
Proof. intro H. unfold Math_round. apply Qfloor_resp_le. lra. Qed.

Lemma Math_round_nonneg (x : Q) : 0 <= x -> (0 <= Math_round x)%Z.
Proof.
  intro H. change 0%Z with (Math_round 0). now apply Math_round_mono.
Qed.

(** X12: every record nearby returns carries a [distanceKm] within half
    a kilometre of its computed distance, and never above the rounded
    radius (so never above an integer radius); it is non-negative when the
    computed distances are. *)
Theorem nearby_distanceKm_rounding :
  forall (haversine : Q -> Q -> Q -> Q -> Q) (env : Env)
         (input : FeedAgent.Nearby.Input) (data : FeatureCollection),
    let feed := SummaryFeed (FeedAgent.Nearby.endpoint
                               (FeedAgent.Nearby.minMagnitude input)) in
    let distance := FeedAgent.Nearby.distanceOf haversine input in
    answers env feed data ->
    exists out,
      fst (FeedAgent.Nearby.handler haversine input env) = inr out
      /\ Forall
           (fun q =>
              exists f,
                In f (GeoJSON.features data)
                /\ q = FeedAgent.Nearby.withDistance haversine input f
                /\ inject_Z (FeedAgent.Nearby.distanceKm q) - (1 # 2) <= distance f
                /\ distance f < inject_Z (FeedAgent.Nearby.distanceKm q) + (1 # 2)
                /\ (FeedAgent.Nearby.distanceKm q
                    <= Math_round (FeedAgent.Nearby.radiusKm input))%Z
                /\ (0 <= distance f -> (0 <= FeedAgent.Nearby.distanceKm q)%Z))
           (FeedAgent.Nearby.earthquakes out).
Proof.
  intros haversine env input data feed distance (status & Hfeed & Hok).
  destruct (nearby_handler_run haversine input env data status Hfeed Hok)
    as (out & Hrun & Heq & _).
  exists out. split; [now rewrite Hrun|]. rewrite Heq, Forall_forall.
  intros q Hq. apply nearbyQuakes_in in Hq. destruct Hq as (f & Hf & -> & Hd).
  exists f. simpl. fold (distance f).
  destruct (Math_round_bounds (distance f)) as [B1 B2].
  repeat split; trivial.
  - now apply Math_round_mono.
  - apply Math_round_nonneg.
Qed.

Lemma nearby_distanceKm_rounding_witness :
  exists out,
    fst (FeedAgent.Nearby.handler gridDistance nearbyInput dayEnv) = inr out
    /\ Forall (fun q => (FeedAgent.Nearby.distanceKm q <= 500)%Z)
         (FeedAgent.Nearby.earthquakes out).
Proof.
  destruct (nearby_distanceKm_rounding gridDistance dayEnv nearbyInput dayFeed)
    as (out & Hrun & Hall).
  - exists 200%Z. split; reflexivity.
  - exists out. split; [exact Hrun|].
    eapply Forall_impl; [|exact Hall]. simpl.
    intros q (f & _ & _ & _ & _ & Hle & _). exact Hle.
Defined.

(** X13: nearby checks latitude and longitude only: its schema accepts
    an input exactly when they are within range, whatever the radius and the
    minimum magnitude; with a negative radius, and distances that are never
    negative, the handler still fetches the feed and returns no record. *)
Theorem nearby_radius_unchecked :
  forall (haversine : Q -> Q -> Q -> Q -> Q) (env : Env)
         (raw : FeedAgent.Nearby.Raw),
    ((exists input, FeedAgent.Nearby.schema raw = inr input) <->
       (- 90 <= FeedAgent.Nearby.raw_latitude raw
        /\ FeedAgent.Nearby.raw_latitude raw <= 90)
       /\ (- 180 <= FeedAgent.Nearby.raw_longitude raw
           /\ FeedAgent.Nearby.raw_longitude raw <= 180))
    /\ (forall input data,
          FeedAgent.Nearby.schema raw = inr input ->
          (forall lat1 lon1 lat2 lon2, 0 <= haversine lat1 lon1 lat2 lon2) ->
          FeedAgent.Nearby.radiusKm input < 0 ->
          answers env
            (SummaryFeed (FeedAgent.Nearby.endpoint
                            (FeedAgent.Nearby.minMagnitude input))) data ->
          exists out,
            FeedAgent.Nearby.entrypoint haversine raw env
            = (inr out,
               [SummaryFeed (FeedAgent.Nearby.endpoint
                               (FeedAgent.Nearby.minMagnitude input))])
            /\ FeedAgent.Nearby.earthquakes out = []
            /\ FeedAgent.Nearby.found out = 0%nat).
Proof.
  intros haversine env raw. split.
  - unfold FeedAgent.Nearby.schema. split.
    + intros [input H]. apply parsed_inr in H. destruct H as [H _].
      rewrite !app_nil_iff, !issue_nil, !inRange_iff in H. tauto.
    + intro H. eexists. apply parsed_inr. split; [|reflexivity].
      rewrite !app_nil_iff, !issue_nil, !inRange_iff. tauto.
  - intros input data Hs Hpos Hneg (status & Hfeed & Hok).
    destruct (nearby_handler_run haversine input env data status Hfeed Hok)
      as (out & Hrun & Heq & Hfound).
    exists out.
    assert (Hnil : FeedAgent.Nearby.nearbyQuakes haversine input
                     (GeoJSON.features data) = []).
    { destruct (FeedAgent.Nearby.nearbyQuakes haversine input
                  (GeoJSON.features data)) as [|q l] eqn:E; [reflexivity|].
      assert (Hq : In q (FeedAgent.Nearby.nearbyQuakes haversine input
                           (GeoJSON.features data))) by (rewrite E; now left).
      apply nearbyQuakes_in in Hq. destruct Hq as (f & _ & _ & Hd).
      unfold FeedAgent.Nearby.distanceOf in Hd.
      specialize (Hpos (FeedAgent.Nearby.latitude input)
                    (FeedAgent.Nearby.longitude input) (f_lat f) (f_lon f)).
      exfalso. lra. }
    split; [|split].
    + unfold FeedAgent.Nearby.entrypoint, invoke. now rewrite Hs.
    + now rewrite Heq.
    + now rewrite Hfound, Heq, Hnil.
Qed.

Lemma nearby_radius_unchecked_witness :
  exists out,
    FeedAgent.Nearby.entrypoint gridDistance negativeRadiusRaw dayEnv
    = (inr out, [SummaryFeed "2.5_day.geojson"])
    /\ FeedAgent.Nearby.found out = 0%nat.
Proof.
  destruct (proj2 (nearby_radius_unchecked gridDistance dayEnv negativeRadiusRaw)
              {| FeedAgent.Nearby.latitude := 10;
                 FeedAgent.Nearby.longitude := 20;
                 FeedAgent.Nearby.radiusKm := - 5;
                 FeedAgent.Nearby.minMagnitude := 3 |} dayFeed eq_refl)
    as (out & Hrun & _ & Hfound).
  - intros lat1 lon1 lat2 lon2. unfold gridDistance.
    pose proof (Qabs_nonneg (lat2 - lat1)). pose proof (Qabs_nonneg (lon2 - lon1)).
    nra.
  - reflexivity.
  - exists 200%Z. split; reflexivity.
  - exists out. split; assumption.
Defined.

(** ** The regional report: boxes and statistics *)

Lemma inRegion_box (r : FeedAgent.Report.Region) (lat lon : Q) :
  r <> FeedAgent.Report.pacific ->
  let b := FeedAgent.Report.regionBounds r in
  FeedAgent.Report.inRegion r lat lon = true <->
  (FeedAgent.Report.latMin b <= lat /\ lat <= FeedAgent.Report.latMax b)
  /\ (FeedAgent.Report.lonMin b <= lon /\ lon <= FeedAgent.Report.lonMax b).
Proof.
  intros Hr b. subst b.
  destruct r; try congruence; unfold FeedAgent.Report.inRegion; simpl;
    rewrite !andb_true_iff, !Qgeb_ge, !Qle_bool_iff; tauto.
Qed.

(** X16: the regional filter keeps the feed's order and never adds a
    record; for global it keeps every record, whatever its coordinates; for
    americas, asia and europe it keeps exactly the records whose latitude
    and longitude are within the region's box, bounds included. *)
Theorem regional_filter_boxes :
  forall (r : FeedAgent.Report.Region) (features : list Feature),
    let b := FeedAgent.Report.regionBounds r in
    (exists keep, FeedAgent.Report.filterByRegion r features = filter keep features)
    /\ (List.length (FeedAgent.Report.filterByRegion r features)
        <= List.length features)%nat
    /\ (r = FeedAgent.Report.global ->
        FeedAgent.Report.filterByRegion r features = features)
    /\ (r <> FeedAgent.Report.global -> r <> FeedAgent.Report.pacific ->
        forall f,
          In f (FeedAgent.Report.filterByRegion r features) <->
          In f features
          /\ (FeedAgent.Report.latMin b <= f_lat f
              /\ f_lat f <= FeedAgent.Report.latMax b)
          /\ (FeedAgent.Report.lonMin b <= f_lon f
              /\ f_lon f <= FeedAgent.Report.lonMax b)).
Proof.
  intros r features b.
  assert (Hkeep : exists keep,
             FeedAgent.Report.filterByRegion r features = filter keep features).
  { destruct r; simpl; try (eexists; reflexivity).
    exists (fun _ => true). induction features as [|f l IH]; simpl; congruence. }
  split; [exact Hkeep|]. split; [|split].
  - destruct Hkeep as [keep ->]. apply filter_length_le.
  - now intros ->.
  - intros Hg Hp f.
    assert (E : FeedAgent.Report.filterByRegion r features
                = filter (fun f => FeedAgent.Report.inRegion r (f_lat f) (f_lon f))
                    features)
      by (destruct r; try congruence; reflexivity).
    rewrite E, filter_In. pose proof (inRegion_box r (f_lat f) (f_lon f) Hp) as Hb.
    cbv zeta in Hb. fold b in Hb. tauto.
Qed.

Lemma regional_filter_boxes_witness :
  map GeoJSON.id
    (FeedAgent.Report.filterByRegion FeedAgent.Report.europe
       [sampleQuake "paris" (Some 2) None 49 2; sampleQuake "lima" (Some 5) None (-12) (-77)])
  = ["paris"]
  /\ In (sampleQuake "paris" (Some 2) None 49 2)
        (FeedAgent.Report.filterByRegion FeedAgent.Report.europe
           [sampleQuake "paris" (Some 2) None 49 2;
            sampleQuake "lima" (Some 5) None (-12) (-77)]).
Proof.
  split; [reflexivity|].
  apply (proj2 (proj2 (proj2 (regional_filter_boxes FeedAgent.Report.europe
                                [sampleQuake "paris" (Some 2) None 49 2;
                                 sampleQuake "lima" (Some 5) None (-12) (-77)])))
           ltac:(discriminate) ltac:(discriminate)).
  split; [now left|]. repeat split; vm_compute; discriminate.
Defined.

(** X17: the boxes of europe, americas and asia are pairwise disjoint, and
    europe is disjoint from pacific as well, so no record is counted in two
    of them; pacific overlaps both americas and asia. *)
Theorem regional_boxes_overlap :
  forall lat lon : Q,
    let inside := fun r => FeedAgent.Report.inRegion r lat lon = true in
    (inside FeedAgent.Report.europe ->
       ~ inside FeedAgent.Report.americas
       /\ ~ inside FeedAgent.Report.asia
       /\ ~ inside FeedAgent.Report.pacific)
    /\ (inside FeedAgent.Report.americas -> ~ inside FeedAgent.Report.asia)
    /\ (FeedAgent.Report.inRegion FeedAgent.Report.pacific 35 140 = true
        /\ FeedAgent.Report.inRegion FeedAgent.Report.asia 35 140 = true)
    /\ (FeedAgent.Report.inRegion FeedAgent.Report.pacific 60 (- 150) = true
        /\ FeedAgent.Report.inRegion FeedAgent.Report.americas 60 (- 150) = true).
Proof.
  intros lat lon inside. subst inside. cbv beta.
  unfold FeedAgent.Report.inRegion. simpl.
  rewrite !andb_true_iff, !orb_true_iff, !Qgeb_ge, !Qle_bool_iff.
  intuition lra.
Qed.

Lemma regional_boxes_overlap_witness :
  FeedAgent.Report.inRegion FeedAgent.Report.europe 49 2 = true
  /\ FeedAgent.Report.inRegion FeedAgent.Report.pacific 49 2 <> true.
Proof.
  assert (H : FeedAgent.Report.inRegion FeedAgent.Report.europe 49 2 = true)
    by reflexivity.
  split; [exact H|].
  exact (proj2 (proj2 (proj1 (regional_boxes_overlap 49 2) H))).
Defined.

Lemma nonNull_app (l1 l2 : list (option Q)) :
  FeedAgent.Report.nonNull (l1 ++ l2)
  = FeedAgent.Report.nonNull l1 ++ FeedAgent.Report.nonNull l2.
Proof.
  induction l1 as [|[m|] l IH]; simpl; [reflexivity| |exact IH].
  now rewrite IH.
Qed.

Lemma nonNull_in (l : list (option Q)) (m : Q) :
  In m (FeedAgent.Report.nonNull l) <-> In (Some m) l.
Proof.
  induction l as [|[x|] l IH]; simpl.
  - tauto.
  - rewrite IH. split; intros [H|H]; auto; left; congruence.
  - rewrite IH. split; [auto|]. intros [H|H]; [discriminate|exact H].
Qed.

Lemma statisticsOf_skip_null
      (h d s h' d' s' before after : list Feature) (f : Feature) :
  f_mag f = None ->
  let st := FeedAgent.Report.statisticsOf h d s (before ++ after) in
  let st' := FeedAgent.Report.statisticsOf h' d' s' (before ++ f :: after) in
  FeedAgent.Report.averageMagnitude st' = FeedAgent.Report.averageMagnitude st
  /\ FeedAgent.Report.maxMagnitude st' = FeedAgent.Report.maxMagnitude st
  /\ FeedAgent.Report.totalMonth st' = S (FeedAgent.Report.totalMonth st).
Proof.
  intros Hf st st'. subst st st'.
  unfold FeedAgent.Report.statisticsOf. simpl.
  assert (E : FeedAgent.Report.nonNull (map f_mag (before ++ f :: after))
              = FeedAgent.Report.nonNull (map f_mag (before ++ after))).
  { rewrite !map_app, !nonNull_app. simpl. now rewrite Hf. }
  rewrite E. split; [reflexivity|]. split; [reflexivity|].
  rewrite !length_app. simpl. lia.
Qed.

Lemma statisticsOf_null (h d s month : list Feature) :
  let st := FeedAgent.Report.statisticsOf h d s month in
  FeedAgent.Report.totalMonth st = List.length month
  /\ (FeedAgent.Report.averageMagnitude st = None
      <-> Forall (fun g => f_mag g = None) month)
  /\ (FeedAgent.Report.maxMagnitude st = None
      <-> Forall (fun g => f_mag g = None) month)
  /\ (forall mx, FeedAgent.Report.maxMagnitude st = Some mx ->
        forall g m, In g month -> f_mag g = Some m -> m <= mx).
Proof.
  intro st. subst st. unfold FeedAgent.Report.statisticsOf. simpl.
  split; [reflexivity|].
  assert (Hnil : FeedAgent.Report.nonNull (map f_mag month) = []
                 <-> Forall (fun g => f_mag g = None) month).
  { induction month as [|g l IH]; simpl.
    - split; [constructor|reflexivity].
    - rewrite Forall_cons_iff. destruct (f_mag g); [|tauto].
      split; [discriminate|]. intros [H _]. discriminate. }
  rewrite <- Hnil.
  destruct (FeedAgent.Report.nonNull (map f_mag month)) as [|m0 ms] eqn:En.
  - repeat split; trivial; discriminate.
  - split; [split; discriminate|]. split; [split; discriminate|].
    intros mx Hmx g m Hg Hm. injection Hmx as <-.
    assert (Hin : In m (m0 :: ms)).
    { rewrite <- En. apply nonNull_in. apply in_map_iff. exists g. auto. }
    destruct (Math_max_upper m0 ms) as [H0 Hs].
    destruct Hin as [<-|Hin]; [exact H0|].
    rewrite Forall_forall in Hs. now apply Hs.
Qed.

Lemma filterByRegion_app (r : FeedAgent.Report.Region) (l1 l2 : list Feature) :
  FeedAgent.Report.filterByRegion r (l1 ++ l2)
  = FeedAgent.Report.filterByRegion r l1 ++ FeedAgent.Report.filterByRegion r l2.
Proof. destruct r; simpl; [reflexivity| | | |]; apply filter_app. Qed.

Lemma regional_report_run (env : Env) (r : FeedAgent.Report.Region)
      (hourAll day45 weekSig monthAll : FeatureCollection) :
  Forall2 (answers env) FeedAgent.Report.requests [hourAll; day45; weekSig; monthAll] ->
  exists out,
    fst (FeedAgent.Report.handler r env) = inr out
    /\ FeedAgent.Report.statistics out
       = FeedAgent.Report.statisticsOf
           (FeedAgent.Report.filterByRegion r (GeoJSON.features hourAll))
           (FeedAgent.Report.filterByRegion r (GeoJSON.features day45))
           (FeedAgent.Report.filterByRegion r (GeoJSON.features weekSig))
           (FeedAgent.Report.filterByRegion r (GeoJSON.features monthAll)).
Proof.
  unfold FeedAgent.Report.requests. intro H.
  apply Forall2_cons_iff in H. destruct H as [H1 H].
  apply Forall2_cons_iff in H. destruct H as [H2 H].
  apply Forall2_cons_iff in H. destruct H as [H3 H].
  apply Forall2_cons_iff in H. destruct H as [H4 _].
  eexists. split.
  - unfold FeedAgent.Report.handler, bind at 1, Promise_all, fetchUSGS.
    rewrite (fetchJSON_answers _ _ _ H1), (fetchJSON_answers _ _ _ H2),
      (fetchJSON_answers _ _ _ H3), (fetchJSON_answers _ _ _ H4).
    simpl. reflexivity.
  - reflexivity.
Qed.

(** X18: in the regional report a record whose magnitude is null takes no
    part in the magnitude statistics.  When such a record is added anywhere
    in the month feed, the average and the maximum magnitude of the report
    do not change, and [totalMonth] rises by one if the region filter keeps
    the record (as global always does, and another region when the record is
    in its box) and does not change otherwise.  [totalMonth] counts the
    records of the month feed that the region filter keeps; the average and
    the maximum are null exactly when each of these has a null magnitude,
    and otherwise the maximum is at least every magnitude present among
    them. *)
Theorem regional_statistics_skip_null :
  forall (env env' : Env) (r : FeedAgent.Report.Region)
         (hourAll day45 weekSig monthAll : FeatureCollection)
         (hourAll' day45' weekSig' monthAll' : FeatureCollection)
         (before after : list Feature) (f : Feature),
    f_mag f = None ->
    GeoJSON.features monthAll = before ++ after ->
    GeoJSON.features monthAll' = before ++ f :: after ->
    Forall2 (answers env) FeedAgent.Report.requests
      [hourAll; day45; weekSig; monthAll] ->
    Forall2 (answers env') FeedAgent.Report.requests
      [hourAll'; day45'; weekSig'; monthAll'] ->
    let kept := List.length (FeedAgent.Report.filterByRegion r [f]) in
    let regionalMonth :=
      FeedAgent.Report.filterByRegion r (GeoJSON.features monthAll) in
    exists out out',
      fst (FeedAgent.Report.handler r env) = inr out
      /\ fst (FeedAgent.Report.handler r env') = inr out'
      /\ FeedAgent.Report.averageMagnitude (FeedAgent.Report.statistics out')
         = FeedAgent.Report.averageMagnitude (FeedAgent.Report.statistics out)
      /\ FeedAgent.Report.maxMagnitude (FeedAgent.Report.statistics out')
         = FeedAgent.Report.maxMagnitude (FeedAgent.Report.statistics out)
      /\ FeedAgent.Report.totalMonth (FeedAgent.Report.statistics out')
         = (FeedAgent.Report.totalMonth (FeedAgent.Report.statistics out) + kept)%nat
      /\ kept = (if match r with
                    | FeedAgent.Report.global => true
                    | _ => FeedAgent.Report.inRegion r (f_lat f) (f_lon f)
                    end
                 then 1 else 0)%nat
      /\ FeedAgent.Report.totalMonth (FeedAgent.Report.statistics out)
         = List.length regionalMonth
      /\ (FeedAgent.Report.averageMagnitude (FeedAgent.Report.statistics out) = None
          <-> Forall (fun g => f_mag g = None) regionalMonth)
      /\ (FeedAgent.Report.maxMagnitude (FeedAgent.Report.statistics out) = None
          <-> Forall (fun g => f_mag g = None) regionalMonth)
      /\ (forall mx,
            FeedAgent.Report.maxMagnitude (FeedAgent.Report.statistics out) = Some mx ->
            forall g m, In g regionalMonth -> f_mag g = Some m -> m <= mx).
Proof.
  intros env env' r hourAll day45 weekSig monthAll hourAll' day45' weekSig' monthAll'
         before after f Hf Hm Hm' Hans Hans' kept regionalMonth.
  destruct (regional_report_run env r _ _ _ _ Hans) as (out & Hrun & Hst).
  destruct (regional_report_run env' r _ _ _ _ Hans') as (out' & Hrun' & Hst').
  exists out, out'. split; [exact Hrun|]. split; [exact Hrun'|].
  rewrite Hst, Hst'. fold regionalMonth.
  assert (Hkept : kept = (if match r with
                             | FeedAgent.Report.global => true
                             | _ => FeedAgent.Report.inRegion r (f_lat f) (f_lon f)
                             end
                          then 1 else 0)%nat).
  { subst kept. destruct r; simpl; try reflexivity;
      match goal with |- context [if ?b then _ else _] => destruct b end;
      reflexivity. }
  destruct (statisticsOf_null
              (FeedAgent.Report.filterByRegion r (GeoJSON.features hourAll))
              (FeedAgent.Report.filterByRegion r (GeoJSON.features day45))
              (FeedAgent.Report.filterByRegion r (GeoJSON.features weekSig))
              regionalMonth) as (Htot & Havg & Hmax & Hub).
  assert (Hsame :
    FeedAgent.Report.averageMagnitude
      (FeedAgent.Report.statisticsOf
         (FeedAgent.Report.filterByRegion r (GeoJSON.features hourAll'))
         (FeedAgent.Report.filterByRegion r (GeoJSON.features day45'))
         (FeedAgent.Report.filterByRegion r (GeoJSON.features weekSig'))
         (FeedAgent.Report.filterByRegion r (GeoJSON.features monthAll')))
    = FeedAgent.Report.averageMagnitude
        (FeedAgent.Report.statisticsOf
           (FeedAgent.Report.filterByRegion r (GeoJSON.features hourAll))
           (FeedAgent.Report.filterByRegion r (GeoJSON.features day45))
           (FeedAgent.Report.filterByRegion r (GeoJSON.features weekSig))
           regionalMonth)
    /\ FeedAgent.Report.maxMagnitude
         (FeedAgent.Report.statisticsOf
            (FeedAgent.Report.filterByRegion r (GeoJSON.features hourAll'))
            (FeedAgent.Report.filterByRegion r (GeoJSON.features day45'))
            (FeedAgent.Report.filterByRegion r (GeoJSON.features weekSig'))
            (FeedAgent.Report.filterByRegion r (GeoJSON.features monthAll')))
       = FeedAgent.Report.maxMagnitude
           (FeedAgent.Report.statisticsOf
              (FeedAgent.Report.filterByRegion r (GeoJSON.features hourAll))
              (FeedAgent.Report.filterByRegion r (GeoJSON.features day45))
              (FeedAgent.Report.filterByRegion r (GeoJSON.features weekSig))
              regionalMonth)
    /\ FeedAgent.Report.totalMonth
         (FeedAgent.Report.statisticsOf
            (FeedAgent.Report.filterByRegion r (GeoJSON.features hourAll'))
            (FeedAgent.Report.filterByRegion r (GeoJSON.features day45'))
            (FeedAgent.Report.filterByRegion r (GeoJSON.features weekSig'))
            (FeedAgent.Report.filterByRegion r (GeoJSON.features monthAll')))
       = (FeedAgent.Report.totalMonth
            (FeedAgent.Report.statisticsOf
               (FeedAgent.Report.filterByRegion r (GeoJSON.features hourAll))
               (FeedAgent.Report.filterByRegion r (GeoJSON.features day45))
               (FeedAgent.Report.filterByRegion r (GeoJSON.features weekSig))
               regionalMonth) + kept)%nat).
  { subst regionalMonth. rewrite Hm, Hm'.
    replace (before ++ f :: after) with (before ++ [f] ++ after) by reflexivity.
    rewrite !filterByRegion_app. fold kept.
    assert (Hone : FeedAgent.Report.filterByRegion r [f] = [f] /\ kept = 1%nat
                   \/ FeedAgent.Report.filterByRegion r [f] = [] /\ kept = 0%nat).
    { subst kept. destruct r; simpl; auto;
        match goal with |- context [if ?b then _ else _] => destruct b end;
        simpl; auto. }
    destruct Hone as [[-> ->]|[-> ->]].
    - simpl app.
      destruct (statisticsOf_skip_null
                  (FeedAgent.Report.filterByRegion r (GeoJSON.features hourAll))
                  (FeedAgent.Report.filterByRegion r (GeoJSON.features day45))
                  (FeedAgent.Report.filterByRegion r (GeoJSON.features weekSig))
                  (FeedAgent.Report.filterByRegion r (GeoJSON.features hourAll'))
                  (FeedAgent.Report.filterByRegion r (GeoJSON.features day45'))
                  (FeedAgent.Report.filterByRegion r (GeoJSON.features weekSig'))
                  (FeedAgent.Report.filterByRegion r before)
                  (FeedAgent.Report.filterByRegion r after) f Hf)
        as (Ha & Hb & Hc).
      split; [exact Ha|]. split; [exact Hb|]. rewrite Hc. lia.
    - simpl app. unfold FeedAgent.Report.statisticsOf. simpl.
      split; [reflexivity|]. split; [reflexivity|]. lia. }
  destruct Hsame as (Ha & Hb & Hc).
  split; [exact Ha|]. split; [exact Hb|]. split; [exact Hc|].
  split; [exact Hkept|]. split; [exact Htot|]. split; [exact Havg|].
  split; [exact Hmax|exact Hub].
Qed.

Lemma regional_statistics_skip_null_witness :
  exists out out',
    fst (FeedAgent.Report.handler FeedAgent.Report.europe (monthEnv [parisQuake]))
    = inr out
    /\ fst (FeedAgent.Report.handler FeedAgent.Report.europe
              (monthEnv [parisQuake; nullLimaQuake]))
       = inr out'
    /\ FeedAgent.Report.totalMonth (FeedAgent.Report.statistics out) = 1%nat
    /\ FeedAgent.Report.totalMonth (FeedAgent.Report.statistics out') = 1%nat
    /\ FeedAgent.Report.averageMagnitude (FeedAgent.Report.statistics out')
       = Some (Hundredths false 200).
Proof.
  destruct (regional_statistics_skip_null
              (monthEnv [parisQuake]) (monthEnv [parisQuake; nullLimaQuake])
              FeedAgent.Report.europe
              dayFeed dayFeed dayFeed (sampleFeed [parisQuake])
              dayFeed dayFeed dayFeed
              {| GeoJSON.count := 2; GeoJSON.features := [parisQuake; nullLimaQuake] |}
              [parisQuake] [] nullLimaQuake eq_refl eq_refl eq_refl)
    as (out & out' & Hrun & Hrun' & Havg & _ & Htot' & _ & Htot & _).
  - repeat constructor; exists 200%Z; split; reflexivity.
  - repeat constructor; exists 200%Z; split; reflexivity.
  - exists out, out'. split; [exact Hrun|]. split; [exact Hrun'|].
    split; [exact Htot|]. split; [rewrite Htot', Htot; reflexivity|].
    rewrite Havg. vm_compute in Hrun. injection Hrun as <-. reflexivity.
Defined.

(** ** recent, significant, magnitude: the limit *)

Lemma Qtrunc_small (x : Q) : - 1 < x -> x < 1 -> Qtrunc x = 0%Z.
Proof.
  intros H1 H2. unfold Qtrunc. unfold Qlt in *. simpl in *.
  destruct (Z.le_gt_cases 0 (Qnum x)) as [Hx|Hx].
  - apply Z.quot_small. lia.
  - rewrite <- (Z.opp_involutive (Qnum x)), Z.quot_opp_l by lia.
    rewrite Z.quot_small; lia.
Qed.

Lemma Qtrunc_le_neg (x : Q) : x <= - 1 -> (Qtrunc x <= - 1)%Z.
Proof.
  intro H. unfold Qtrunc. unfold Qle in H. simpl in H.
  rewrite <- (Z.opp_involutive (Qnum x)), Z.quot_opp_l by lia.
  assert (1 <= - Qnum x ÷ Z.pos (Qden x))%Z; [|lia].
  apply Z.quot_le_lower_bound; lia.
Qed.

Lemma slice0_leadingPart (limit : Q) (features : list Feature) :
  leadingPart limit features
    (FeedAgent.parseQuakes (slice0 limit features))
    (List.length (FeedAgent.parseQuakes (slice0 limit features))).
Proof.
  unfold leadingPart, FeedAgent.parseQuakes.
  split; [reflexivity|]. split; [|split; [|split]].
  - rewrite length_map. destruct (slice0_firstn limit features) as [n ->].
    rewrite length_firstn. lia.
  - intro H. now rewrite slice0_nonneg.
  - intro H. apply Qtrunc_le_neg in H. unfold slice0.
    destruct (Qtrunc limit <? 0)%Z eqn:E; [|apply Z.ltb_ge in E; lia].
    do 2 f_equal. lia.
  - intros H1 H2. unfold slice0. rewrite (Qtrunc_small _ H1 H2). reflexivity.
Qed.

(** X19: recent, significant and magnitude return a leading part of
    their feed, parsed and in feed order, and report its length as
    [returned]; the limit is not validated: a limit of at least 0 keeps
    [trunc limit] records, a limit of -1 or less drops that many records
    from the end, and a limit strictly between -1 and 1 returns no record;
    the count reported beside them is the upstream's. *)
Theorem listing_limit :
  forall (env : Env) (limit : Q) (data : FeatureCollection),
    (answers env (SummaryFeed "all_hour.geojson") data ->
     exists out,
       fst (FeedAgent.Recent.handler limit env) = inr out
       /\ FeedAgent.Recent.totalCount out = GeoJSON.count data
       /\ leadingPart limit (GeoJSON.features data)
            (FeedAgent.Recent.earthquakes out) (FeedAgent.Recent.returned out))
    /\ (answers env (SummaryFeed "significant_week.geojson") data ->
        exists out,
          fst (FeedAgent.Significant.handler limit env) = inr out
          /\ FeedAgent.Significant.totalSignificant out = GeoJSON.count data
          /\ leadingPart limit (GeoJSON.features data)
               (FeedAgent.Significant.earthquakes out)
               (FeedAgent.Significant.returned out))
    /\ (forall m t,
          let input := {| FeedAgent.Magnitude.minMagnitude := m;
                          FeedAgent.Magnitude.timeframe := t;
                          FeedAgent.Magnitude.limit := limit |} in
          answers env (SummaryFeed (FeedAgent.Magnitude.endpoint input)) data ->
          exists out,
            fst (FeedAgent.Magnitude.handler input env) = inr out
            /\ FeedAgent.Magnitude.totalCount out = GeoJSON.count data
            /\ FeedAgent.Magnitude.filter_minMagnitude out
               = FeedAgent.Magnitude.parseFloat m
            /\ leadingPart limit (GeoJSON.features data)
                 (FeedAgent.Magnitude.earthquakes out)
                 (FeedAgent.Magnitude.returned out)).
Proof.
  intros env limit data. split; [|split].
  - intro H. eexists. split.
    + unfold FeedAgent.Recent.handler, bind, fetchUSGS.
      rewrite (fetchJSON_answers _ _ _ H). simpl. reflexivity.
    + split; [reflexivity|]. apply slice0_leadingPart.
  - intro H. eexists. split.
    + unfold FeedAgent.Significant.handler, bind, fetchUSGS.
      rewrite (fetchJSON_answers _ _ _ H). simpl. reflexivity.
    + split; [reflexivity|]. apply slice0_leadingPart.
  - intros m t input H. eexists. split.
    + unfold FeedAgent.Magnitude.handler, bind, fetchUSGS.
      rewrite (fetchJSON_answers _ _ _ H). simpl. reflexivity.
    + split; [reflexivity|]. split; [reflexivity|]. apply slice0_leadingPart.
Qed.

Lemma listing_limit_witness :
  exists out,
    fst (FeedAgent.Recent.handler (- 1) hourFeedEnv) = inr out
    /\ map FeedAgent.id (FeedAgent.Recent.earthquakes out) = ["n1"; "far"; "n2"].
Proof.
  destruct (proj1 (listing_limit hourFeedEnv (- 1) dayFeed))
    as (out & Hrun & _ & _ & _ & _ & Hneg & _).
  - exists 200%Z. split; reflexivity.
  - exists out. split; [exact Hrun|].
    rewrite (Hneg ltac:(vm_compute; discriminate)). reflexivity.
Defined.

(** ** magnitude: the feed it names *)

(** X20: magnitude names a different feed for each of the twelve
    combinations of tier and timeframe, and reports the tier's floor as its
    filter; the feed nearby fetches is always the feed magnitude names for
    the timeframe day and the tier nearby's rule selects: 4.5 from 4.5 up,
    2.5 from 2.5 up, 1.0 below. *)
Theorem magnitude_feed_names :
  forall limit : Q,
    (forall i1 i2 : FeedAgent.Magnitude.Input,
        FeedAgent.Magnitude.endpoint i1 = FeedAgent.Magnitude.endpoint i2 ->
        FeedAgent.Magnitude.minMagnitude i1 = FeedAgent.Magnitude.minMagnitude i2
        /\ FeedAgent.Magnitude.timeframe i1 = FeedAgent.Magnitude.timeframe i2)
    /\ (forall minMagnitude : Q,
          exists tier,
            FeedAgent.Nearby.endpoint minMagnitude
            = FeedAgent.Magnitude.endpoint
                {| FeedAgent.Magnitude.minMagnitude := tier;
                   FeedAgent.Magnitude.timeframe := FeedAgent.Magnitude.day;
                   FeedAgent.Magnitude.limit := limit |}
            /\ (FeedAgent.Magnitude.parseFloat tier <= minMagnitude
                \/ (tier = FeedAgent.Magnitude.M1_0 /\ minMagnitude < 5 # 2))).
Proof.
  intro limit. split.
  - intros [m1 t1 l1] [m2 t2 l2]. unfold FeedAgent.Magnitude.endpoint. simpl.
    destruct m1, t1, m2, t2; simpl; intro H; try discriminate; split; reflexivity.
  - intro m. unfold FeedAgent.Nearby.endpoint.
    destruct (Qgeb m (9 # 2)) eqn:E45.
    + exists FeedAgent.Magnitude.M4_5. split; [reflexivity|].
      left. now apply Qgeb_ge.
    + destruct (Qgeb m (5 # 2)) eqn:E25.
      * exists FeedAgent.Magnitude.M2_5. split; [reflexivity|].
        left. now apply Qgeb_ge.
      * exists FeedAgent.Magnitude.M1_0. split; [reflexivity|].
        right. split; [reflexivity|]. now apply Qgeb_lt.
Qed.

Lemma magnitude_feed_names_witness :
  FeedAgent.Nearby.endpoint 3
  = FeedAgent.Magnitude.endpoint
      {| FeedAgent.Magnitude.minMagnitude := FeedAgent.Magnitude.M2_5;
         FeedAgent.Magnitude.timeframe := FeedAgent.Magnitude.day;
         FeedAgent.Magnitude.limit := 25 |}.
Proof.
  destruct (proj2 (magnitude_feed_names 25) 3) as (tier & H & _).
  rewrite H. destruct tier; vm_compute in H; try discriminate. reflexivity.
Defined.

(** X21: the magnitude schema accepts exactly the strings of its two
    enums: a parsed input gives back the strings it was parsed from, and
    the string of every tier and timeframe parses to it; an absent
    timeframe is day and an absent limit is 25. *)
Theorem magnitude_schema_round_trip :
  forall (raw : FeedAgent.Magnitude.Raw),
    (forall input,
        FeedAgent.Magnitude.schema raw = inr input ->
        FeedAgent.Magnitude.raw_minMagnitude raw
          = FeedAgent.Magnitude.minMagnitudeText
              (FeedAgent.Magnitude.minMagnitude input)
        /\ match FeedAgent.Magnitude.raw_timeframe raw with
           | Some s => s = FeedAgent.Magnitude.timeframeText
                             (FeedAgent.Magnitude.timeframe input)
           | None => FeedAgent.Magnitude.timeframe input = FeedAgent.Magnitude.day
           end
        /\ FeedAgent.Magnitude.limit input
           = default 25 (FeedAgent.Magnitude.raw_limit raw))
    /\ (forall m t,
          FeedAgent.Magnitude.schema
            {| FeedAgent.Magnitude.raw_minMagnitude :=
                 FeedAgent.Magnitude.minMagnitudeText m;
               FeedAgent.Magnitude.raw_timeframe :=
                 Some (FeedAgent.Magnitude.timeframeText t);
               FeedAgent.Magnitude.raw_limit := FeedAgent.Magnitude.raw_limit raw |}
          = inr {| FeedAgent.Magnitude.minMagnitude := m;
                   FeedAgent.Magnitude.timeframe := t;
                   FeedAgent.Magnitude.limit :=
                     default 25 (FeedAgent.Magnitude.raw_limit raw) |}).
Proof.
  intro raw. split.
  - intros input. unfold FeedAgent.Magnitude.schema.
    assert (Hm : forall s m, FeedAgent.Magnitude.parseMinMagnitude s = Some m ->
                   s = FeedAgent.Magnitude.minMagnitudeText m).
    { intros s m. unfold FeedAgent.Magnitude.parseMinMagnitude.
      destruct (String.eqb s "1.0") eqn:E1;
        [apply String.eqb_eq in E1; intro H; injection H as <-; exact E1|].
      destruct (String.eqb s "2.5") eqn:E2;
        [apply String.eqb_eq in E2; intro H; injection H as <-; exact E2|].
      destruct (String.eqb s "4.5") eqn:E3;
        [apply String.eqb_eq in E3; intro H; injection H as <-; exact E3|].
      discriminate. }
    assert (Ht : forall s t, FeedAgent.Magnitude.parseTimeframe s = Some t ->
                   s = FeedAgent.Magnitude.timeframeText t).
    { intros s t. unfold FeedAgent.Magnitude.parseTimeframe.
      destruct (String.eqb s "hour") eqn:E1;
        [apply String.eqb_eq in E1; intro H; injection H as <-; exact E1|].
      destruct (String.eqb s "day") eqn:E2;
        [apply String.eqb_eq in E2; intro H; injection H as <-; exact E2|].
      destruct (String.eqb s "week") eqn:E3;
        [apply String.eqb_eq in E3; intro H; injection H as <-; exact E3|].
      destruct (String.eqb s "month") eqn:E4;
        [apply String.eqb_eq in E4; intro H; injection H as <-; exact E4|].
      discriminate. }
    destruct (FeedAgent.Magnitude.parseMinMagnitude
                (FeedAgent.Magnitude.raw_minMagnitude raw)) as [m|] eqn:Em.
    + destruct (FeedAgent.Magnitude.raw_timeframe raw) as [s|] eqn:Es.
      * destruct (FeedAgent.Magnitude.parseTimeframe s) as [t|] eqn:Et;
          [|discriminate].
        intro H. injection H as <-. simpl. auto.
      * intro H. injection H as <-. simpl. auto.
    + destruct (FeedAgent.Magnitude.raw_timeframe raw) as [s|];
        [destruct (FeedAgent.Magnitude.parseTimeframe s)|]; discriminate.
  - intros m t. destruct m, t; reflexivity.
Qed.

Lemma magnitude_schema_round_trip_witness :
  FeedAgent.Magnitude.raw_minMagnitude
    {| FeedAgent.Magnitude.raw_minMagnitude := "2.5";
       FeedAgent.Magnitude.raw_timeframe := None;
       FeedAgent.Magnitude.raw_limit := None |}
  = FeedAgent.Magnitude.minMagnitudeText FeedAgent.Magnitude.M2_5.
Proof.
  exact (proj1 (proj1 (magnitude_schema_round_trip
                         {| FeedAgent.Magnitude.raw_minMagnitude := "2.5";
                            FeedAgent.Magnitude.raw_timeframe := None;
                            FeedAgent.Magnitude.raw_limit := None |})
                  {| FeedAgent.Magnitude.minMagnitude := FeedAgent.Magnitude.M2_5;
                     FeedAgent.Magnitude.timeframe := FeedAgent.Magnitude.day;
                     FeedAgent.Magnitude.limit := 25 |} eq_refl)).
Defined.

(** ** The overviews *)

(** X22: when the upstream answers its feeds, the location agent's
    overview reports the two upstream counts, the first three records of
    the significant feed in order, and as largest quake the first record of
    maximal magnitude of that feed, or none exactly when the feed has no
    record; the feed agent's overview reports the three upstream counts and
    as latest significant quake the first record of the significant
    feed. *)
Theorem overview_outputs :
  forall (env : Env) (significant recent hourData : FeatureCollection),
    let m := fun g : Feature => ToNumber (f_mag g) in
    answers env (SummaryFeed "significant_week.geojson") significant ->
    answers env (SummaryFeed "4.5_day.geojson") recent ->
    (exists out,
        fst (LocationAgent.Overview.handler env) = inr out
        /\ LocationAgent.Overview.significantQuakesThisWeek out
           = GeoJSON.count significant
        /\ LocationAgent.Overview.magnitude45PlusToday out = GeoJSON.count recent
        /\ LocationAgent.Overview.recentSignificant out
           = map LocationAgent.formatQuake (firstn 3 (GeoJSON.features significant))
        /\ (LocationAgent.Overview.largestThisWeek out = None
            <-> GeoJSON.features significant = [])
        /\ (GeoJSON.features significant <> [] ->
            exists pre f post,
              GeoJSON.features significant = pre ++ f :: post
              /\ LocationAgent.Overview.largestThisWeek out
                 = Some (LocationAgent.formatQuake f)
              /\ Forall (fun g => m g < m f) pre
              /\ Forall (fun g => m g <= m f) post))
    /\ (answers env (SummaryFeed "all_hour.geojson") hourData ->
        exists out,
          fst (FeedAgent.Overview.handler env) = inr out
          /\ FeedAgent.Overview.pastHour out = GeoJSON.count hourData
          /\ FeedAgent.Overview.significant24h out = GeoJSON.count recent
          /\ FeedAgent.Overview.significantWeek out = GeoJSON.count significant
          /\ option_map FeedAgent.Overview.latest_magnitude
               (FeedAgent.Overview.latestSignificant out)
             = option_map f_mag (hd_error (GeoJSON.features significant))).
Proof.
  intros env significant recent hourData m Hsig Hrec. split.
  - eexists. split.
    + unfold LocationAgent.Overview.handler, bind at 1, Promise_all.
      rewrite (fetchJSON_answers _ _ _ Hsig), (fetchJSON_answers _ _ _ Hrec).
      simpl. reflexivity.
    + simpl. split; [reflexivity|]. split; [reflexivity|].
      split; [reflexivity|]. split.
      * destruct (GeoJSON.features significant); simpl; split;
          intro H; trivial; discriminate.
      * intro Hne.
        destruct (largest_first_max _ Hne) as (pre & f & post & H1 & H2 & _ & H3 & H4).
        exists pre, f, post. auto.
  - intro Hhour. eexists. split.
    + unfold FeedAgent.Overview.handler, bind at 1, Promise_all, fetchUSGS.
      rewrite (fetchJSON_answers _ _ _ Hhour), (fetchJSON_answers _ _ _ Hrec),
        (fetchJSON_answers _ _ _ Hsig).
      simpl. reflexivity.
    + simpl. repeat split.
      destruct (GeoJSON.features significant); reflexivity.
Qed.

Lemma overview_outputs_witness :
  exists out,
    fst (LocationAgent.Overview.handler overviewEnv) = inr out
    /\ option_map LocationAgent.id (LocationAgent.Overview.largestThisWeek out)
       = Some "b".
Proof.
  destruct (proj1 (overview_outputs overviewEnv weekFeed dayFeed dayFeed
                     ltac:(exists 200%Z; split; reflexivity)
                     ltac:(exists 200%Z; split; reflexivity)))
    as (out & Hrun & _).
  exists out. split; [exact Hrun|].
  vm_compute in Hrun. injection Hrun as <-. reflexivity.
Defined.
